(** * pypoolchem: water-balance indices, FC/CYA thresholds, dosing and
    effect prediction, embedded in Rocq.

    Number model.  Python [float] values are modelled as real numbers
    ([R]); every arithmetic operation is the exact real operation, so
    binary rounding error, overflow, infinities and NaN are outside the
    model.  Operations that raise in Python raise here as well:
    [math.log10] and [math.sqrt] outside their domain, [/] on a zero
    divisor, a missing dictionary key, an index out of range.  A
    division by a numeric literal or by a module-level constant is
    written with the total [/]; every other division goes through
    [py_truediv].  Decimal rounding ([round(x, n)]) is the
    round-half-to-even function on the reals. *)

From Stdlib Require Import Reals Lra Lia ZArith List String Bool.
Import ListNotations.
Open Scope string_scope.
Open Scope R_scope.

(* ================================================================== *)
(** ** Exceptions and the result monad *)
(* ================================================================== *)

(** [ValidationError], [CalculationError] and [ChemicalNotFoundError] are
    the classes of [exceptions.py]; the others are what pydantic and the
    Python built-ins raise in the embedded code. *)
Inductive exn : Type :=
| ValidationError (msg : string)
| PydanticValidationError (model : string)
| CalculationError (msg : string)
| ChemicalNotFoundError (msg : string)
| ValueError (msg : string)
| ZeroDivisionError
| KeyError
| IndexError.

Inductive result (A : Type) : Type :=
| Ok (a : A)
| Raise (e : exn).

Arguments Ok {A} a.
Arguments Raise {A} e.

Definition bind {A B : Type} (m : result A) (k : A -> result B) : result B :=
  match m with
  | Ok a => k a
  | Raise e => Raise e
  end.

Notation "x <- m ;; k" := (bind m (fun x => k))
  (at level 61, m at next level, right associativity).


Definition returns_value {A : Type} (r : result A) : Prop :=
  exists a, r = Ok a.

(* ================================================================== *)
(** ** Python primitives *)
(* ================================================================== *)

(** [x / y] on floats. *)
Definition py_truediv (x y : R) : result R :=
  if Req_dec_T y 0 then Raise ZeroDivisionError else Ok (x / y).

(** [10 ** e] with a float exponent. *)
Definition pow10 (e : R) : R := Rpower 10 e.

Definition log10 (x : R) : R := ln x / ln 10.

Definition math_log10 (x : R) : result R :=
  if Rlt_dec 0 x then Ok (log10 x) else Raise (ValueError "math domain error").

Definition math_sqrt (x : R) : result R :=
  if Rle_dec 0 x then Ok (sqrt x) else Raise (ValueError "math domain error").

(** [math.floor] returns an [int]. *)
Definition math_floor (x : R) : Z := Zfloor x.

(** Nearest integer, ties to the even neighbour. *)
Definition round_half_even (x : R) : Z :=
  let f := Zfloor x in
  let d := x - IZR f in
  if Rlt_dec d (1 / 2) then f
  else if Rlt_dec (1 / 2) d then (f + 1)%Z
  else if Z.even f then f else (f + 1)%Z.

(** [round(x, ndigits)]. *)
Definition py_round (x : R) (ndigits : nat) : R :=
  IZR (round_half_even (x * 10 ^ ndigits)) / 10 ^ ndigits.

(** A [dict] with float keys, in insertion order. *)
Definition dict : Type := list (R * R).

Fixpoint dict_get (d : dict) (k : R) : result R :=
  match d with
  | [] => Raise KeyError
  | (k', v) :: d' => if Req_dec_T k' k then Ok v else dict_get d' k
  end.

Definition dict_keys (d : dict) : list R := map fst d.

Fixpoint insert_sorted (k : R) (l : list R) : list R :=
  match l with
  | [] => [k]
  | h :: t => if Rle_dec k h then k :: h :: t else h :: insert_sorted k t
  end.

(** [sorted(l)]. *)
Fixpoint py_sorted (l : list R) : list R :=
  match l with
  | [] => []
  | h :: t => insert_sorted h (py_sorted t)
  end.

(** [l[i]] for [i >= 0]. *)
Definition list_get (l : list R) (i : nat) : result R :=
  match nth_error l i with
  | Some x => Ok x
  | None => Raise IndexError
  end.

(** [l[-1]]. *)
Definition list_last (l : list R) : result R :=
  match l with
  | [] => Raise IndexError
  | _ => Ok (last l 0)
  end.

(* ================================================================== *)
(** ** chemistry/constants.py *)
(* ================================================================== *)

Definition CSI_PH_CONSTANT : R := 11.677.
Definition CSI_FINAL_CONSTANT : R := 4.7375.
Definition CSI_TEMP_NUMERATOR : R := 1412.5.
Definition CSI_IONIC_COEFFICIENT : R := 2.56.
Definition CSI_IONIC_DENOMINATOR_COEFFICIENT : R := 1.65.

Definition LSI_CONSTANT : R := 12.1.

Definition CYA_COEFFICIENT : R := 0.38772.
Definition CYA_PH_CONSTANT : R := 6.83.
Definition BORATE_COEFFICIENT : R := 4.63.
Definition BORATE_PH_CONSTANT : R := 9.11.

Definition IONIC_CH_COEFFICIENT : R := 1.5.
Definition IONIC_TA_COEFFICIENT : R := 1.0.
Definition IONIC_DIVISOR : R := 50045.
Definition IONIC_NACL_DIVISOR : R := 58440.
Definition CH_TO_NACL_RATIO : R := 1.1678.

Definition TEMPERATURE_FACTOR_TABLE : dict :=
  [ (32, 0.0); (37, 0.1); (46, 0.2); (53, 0.3); (60, 0.4);
    (66, 0.5); (76, 0.6); (84, 0.7); (94, 0.8); (105, 0.9) ].

Definition CYA_CORRECTION_TABLE : dict :=
  [ (7.0, 0.22); (7.2, 0.27); (7.4, 0.31); (7.5, 0.33);
    (7.6, 0.33); (7.8, 0.35); (8.0, 0.38) ].

(** The [for i, t in enumerate(keys[:-1])] loop shared by the two lookup
    functions: [init] is what remains of [keys[:-1]], [i] the index of
    its head in [keys].  Running off the end is the final [return]. *)
Fixpoint interpolate_loop (table : dict) (keys : list R) (x : R)
    (i : nat) (init : list R) : result R :=
  match init with
  | [] => k <- list_last keys ;; dict_get table k
  | t :: rest =>
      if Rle_dec t x then
        t2 <- list_get keys (S i) ;;
        if Rlt_dec x t2 then
          f1 <- dict_get table t ;;
          f2 <- dict_get table t2 ;;
          q <- py_truediv ((f2 - f1) * (x - t)) (t2 - t) ;;
          Ok (f1 + q)
        else interpolate_loop table keys x (S i) rest
      else interpolate_loop table keys x (S i) rest
  end.

(** Body common to [interpolate_temperature_factor] and
    [get_cya_correction_factor], which differ only in the table. *)
Definition interpolate_table (table : dict) (x : R) : result R :=
  let keys := py_sorted (dict_keys table) in
  k0 <- list_get keys 0 ;;
  if Rle_dec x k0 then dict_get table k0
  else
    kn <- list_last keys ;;
    if Rge_dec x kn then dict_get table kn
    else interpolate_loop table keys x 0 (removelast keys).

Definition interpolate_temperature_factor (temp_f : R) : result R :=
  interpolate_table TEMPERATURE_FACTOR_TABLE temp_f.

Definition get_cya_correction_factor (ph : R) : result R :=
  interpolate_table CYA_CORRECTION_TABLE ph.

(** Consecutive entries of a table. *)
Fixpoint adjacent_pairs (d : dict) : list ((R * R) * (R * R)) :=
  match d with
  | a :: ((b :: _) as rest) => (a, b) :: adjacent_pairs rest
  | _ => []
  end.

(* ================================================================== *)
(** ** models/water.py *)
(* ================================================================== *)

Module Water.

Record WaterChemistry : Type := mkWaterChemistry {
  ph : R;
  temperature_f : R;
  free_chlorine : R;
  combined_chlorine : R;
  total_alkalinity : R;
  calcium_hardness : R;
  cyanuric_acid : R;
  salt : R;
  borates : R;
  tds : R
}.

End Water.

Abbreviation WaterChemistry := Water.WaterChemistry.
Abbreviation mkWaterChemistry := Water.mkWaterChemistry.

(** The field constraints ([ge] / [le]) of the model. *)
Definition WaterChemistry_valid (w : WaterChemistry) : Prop :=
  0 <= Water.ph w <= 14
  /\ 32 <= Water.temperature_f w <= 120
  /\ 0 <= Water.free_chlorine w
  /\ 0 <= Water.combined_chlorine w
  /\ 0 <= Water.total_alkalinity w
  /\ 0 <= Water.calcium_hardness w
  /\ 0 <= Water.cyanuric_acid w
  /\ 0 <= Water.salt w
  /\ 0 <= Water.borates w
  /\ 0 <= Water.tds w.

Definition in_range (lo x hi : R) : bool :=
  if Rle_dec lo x then (if Rle_dec x hi then true else false) else false.

Definition nonneg (x : R) : bool :=
  if Rle_dec 0 x then true else false.

(** [WaterChemistry(...)]: the model validates its fields when it is
    built and raises when one of them is out of range. *)
Definition WaterChemistry_new (ph temperature_f free_chlorine combined_chlorine
    total_alkalinity calcium_hardness cyanuric_acid salt borates tds : R)
    : result WaterChemistry :=
  if in_range 0 ph 14 && in_range 32 temperature_f 120
     && nonneg free_chlorine && nonneg combined_chlorine
     && nonneg total_alkalinity && nonneg calcium_hardness
     && nonneg cyanuric_acid && nonneg salt && nonneg borates && nonneg tds
  then Ok (mkWaterChemistry ph temperature_f free_chlorine combined_chlorine
             total_alkalinity calcium_hardness cyanuric_acid salt borates tds)
  else Raise (PydanticValidationError "WaterChemistry").

(* ================================================================== *)
(** ** chemistry/factors.py *)
(* ================================================================== *)

Definition calculate_carbonate_alkalinity
    (total_alkalinity cyanuric_acid ph borates : R) : result R :=
  cya_correction <-
    py_truediv (CYA_COEFFICIENT * cyanuric_acid)
               (1 + pow10 (CYA_PH_CONSTANT - ph)) ;;
  borate_correction <-
    (if Rlt_dec 0 borates then
       py_truediv (BORATE_COEFFICIENT * borates)
                  (1 + pow10 (BORATE_PH_CONSTANT - ph))
     else Ok 0.0) ;;
  let carbonate_alk := total_alkalinity - cya_correction - borate_correction in
  Ok (Rmax 0.0 carbonate_alk).

Definition calculate_ionic_strength
    (calcium_hardness total_alkalinity salt : R) : R :=
  let extra_nacl := Rmax 0.0 (salt - CH_TO_NACL_RATIO * calcium_hardness) in
  (IONIC_CH_COEFFICIENT * calcium_hardness
   + IONIC_TA_COEFFICIENT * total_alkalinity) / IONIC_DIVISOR
  + extra_nacl / IONIC_NACL_DIVISOR.

Definition calculate_temperature_factor (temperature_f : R) : result R :=
  interpolate_temperature_factor temperature_f.

(* ================================================================== *)
(** ** chemistry/csi.py and chemistry/lsi.py *)
(* ================================================================== *)

(** [if v is None: raise CalculationError(msg)]. *)
Definition require (v : option R) (msg : string) : result R :=
  match v with
  | Some x => Ok x
  | None => Raise (CalculationError msg)
  end.

(** The block that takes the values from the [WaterChemistry] object
    when one is given and from the keyword arguments otherwise. *)
Definition csi_inputs (water : option WaterChemistry)
    (ph temperature_f calcium_hardness total_alkalinity : option R)
    (cyanuric_acid salt borates : R)
    : option R * option R * option R * option R * R * R * R :=
  match water with
  | Some w =>
      (Some (Water.ph w), Some (Water.temperature_f w),
       Some (Water.calcium_hardness w), Some (Water.total_alkalinity w),
       Water.cyanuric_acid w, Water.salt w, Water.borates w)
  | None =>
      (ph, temperature_f, calcium_hardness, total_alkalinity,
       cyanuric_acid, salt, borates)
  end.

Definition calculate_csi (water : option WaterChemistry)
    (ph temperature_f calcium_hardness total_alkalinity : option R)
    (cyanuric_acid salt borates : R) : result R :=
  let '(ph, temperature_f, calcium_hardness, total_alkalinity,
        cyanuric_acid, salt, borates) :=
    csi_inputs water ph temperature_f calcium_hardness total_alkalinity
               cyanuric_acid salt borates in
  ph <- require ph "pH is required for CSI calculation" ;;
  temperature_f <- require temperature_f "Temperature is required for CSI calculation" ;;
  calcium_hardness <-
    require calcium_hardness "Calcium hardness is required for CSI calculation" ;;
  total_alkalinity <-
    require total_alkalinity "Total alkalinity is required for CSI calculation" ;;
  if Rle_dec calcium_hardness 0 then
    Raise (CalculationError "Calcium hardness must be greater than 0")
  else
    carbonate_alk <-
      calculate_carbonate_alkalinity total_alkalinity cyanuric_acid ph borates ;;
    if Rle_dec carbonate_alk 0 then
      Raise (CalculationError
               "Carbonate alkalinity is too low (CYA/Borate correction exceeds TA)")
    else
      let ionic := calculate_ionic_strength calcium_hardness total_alkalinity salt in
      sqrt_ionic <- math_sqrt ionic ;;
      ionic_correction <-
        py_truediv (CSI_IONIC_COEFFICIENT * sqrt_ionic)
                   (1 + CSI_IONIC_DENOMINATOR_COEFFICIENT * sqrt_ionic) ;;
      let temp_celsius := (temperature_f - 32) * 5 / 9 in
      temp_correction <- py_truediv CSI_TEMP_NUMERATOR (temp_celsius + 273.15) ;;
      log_ch <- math_log10 calcium_hardness ;;
      log_alk <- math_log10 carbonate_alk ;;
      Ok (ph - CSI_PH_CONSTANT + log_ch + log_alk
          - ionic_correction - temp_correction + CSI_FINAL_CONSTANT).

Definition lsi_inputs (water : option WaterChemistry)
    (ph temperature_f calcium_hardness total_alkalinity : option R)
    (cyanuric_acid : R) : option R * option R * option R * option R * R :=
  match water with
  | Some w =>
      (Some (Water.ph w), Some (Water.temperature_f w),
       Some (Water.calcium_hardness w), Some (Water.total_alkalinity w),
       Water.cyanuric_acid w)
  | None =>
      (ph, temperature_f, calcium_hardness, total_alkalinity, cyanuric_acid)
  end.

(** [tds] is accepted and not used. *)
Definition calculate_lsi (water : option WaterChemistry)
    (ph temperature_f calcium_hardness total_alkalinity : option R)
    (cyanuric_acid tds : R) : result R :=
  let '(ph, temperature_f, calcium_hardness, total_alkalinity, cyanuric_acid) :=
    lsi_inputs water ph temperature_f calcium_hardness total_alkalinity
               cyanuric_acid in
  ph <- require ph "pH is required for LSI calculation" ;;
  temperature_f <- require temperature_f "Temperature is required for LSI calculation" ;;
  calcium_hardness <-
    require calcium_hardness "Calcium hardness is required for LSI calculation" ;;
  total_alkalinity <-
    require total_alkalinity "Total alkalinity is required for LSI calculation" ;;
  if Rle_dec calcium_hardness 0 then
    Raise (CalculationError "Calcium hardness must be greater than 0")
  else
    cya_correction_factor <- get_cya_correction_factor ph ;;
    let carbonate_alk := total_alkalinity - cyanuric_acid * cya_correction_factor in
    if Rle_dec carbonate_alk 0 then
      Raise (CalculationError
               "Carbonate alkalinity is too low (CYA correction exceeds TA)")
    else
      tf <- calculate_temperature_factor temperature_f ;;
      cf <- math_log10 calcium_hardness ;;
      af <- math_log10 carbonate_alk ;;
      Ok (ph + tf + cf + af - LSI_CONSTANT).

(* ================================================================== *)
(** ** chemistry/fc_cya.py *)
(* ================================================================== *)

Definition calculate_min_fc (cyanuric_acid : R) (is_swg : bool) : R :=
  if Rle_dec cyanuric_acid 0 then 1.0
  else if is_swg then Rmax 1.0 (IZR (math_floor (cyanuric_acid * 0.045 + 0.7)))
  else Rmax 1.0 (IZR (math_floor (cyanuric_acid * 0.075 + 0.7))).

Definition calculate_target_fc (cyanuric_acid : R) (is_swg : bool) : R * R :=
  if Rle_dec cyanuric_acid 0 then (3.0, 3.0)
  else if is_swg then
    let target := Rmax 3.0 (IZR (math_floor (cyanuric_acid * 0.075))) in
    (target, target)
  else
    let low := Rmax 3.0 (IZR (math_floor (cyanuric_acid / 10 + 1.5))) in
    let high := Rmax 3.0 (IZR (math_floor (cyanuric_acid / 10 + 3.5))) in
    (low, high).

Definition calculate_shock_fc (cyanuric_acid : R) : R :=
  if Rle_dec cyanuric_acid 0 then 10.0
  else Rmax 10.0 (IZR (math_floor (cyanuric_acid * 0.393 + 0.5))).

Definition calculate_mustard_algae_shock_fc (cyanuric_acid : R) : R :=
  if Rle_dec cyanuric_acid 0 then 12.0
  else Rmax 12.0 (IZR (math_floor (cyanuric_acid / 2 + 4.5))).

(** Order on results: both computations return and the values compare. *)
Definition result_lt (r1 r2 : result R) : Prop :=
  exists a b, r1 = Ok a /\ r2 = Ok b /\ a < b.

(** The corrections subtracted from total alkalinity. *)
Definition cya_term (cya ph : R) : R :=
  CYA_COEFFICIENT * cya / (1 + pow10 (CYA_PH_CONSTANT - ph)).

Definition borate_term (b ph : R) : R :=
  if Rlt_dec 0 b
  then BORATE_COEFFICIENT * b / (1 + pow10 (BORATE_PH_CONSTANT - ph))
  else 0.0.

(** Carbonate alkalinity as the specification writes it (section 4.2):
    TA - 0.38772 CYA / (1 + 10^(6.83 - pH))
       - 4.63 Borate / (1 + 10^(9.11 - pH)), floored at 0, the borate
    term being zero when borates <= 0. *)
Definition carbonate_alkalinity_spec (ta cya ph b : R) : R :=
  Rmax 0 (ta - 0.38772 * cya / (1 + pow10 (6.83 - ph))
             - (if Rlt_dec 0 b then 4.63 * b / (1 + pow10 (9.11 - ph)) else 0)).




(* ================================================================== *)
(** ** dosing/chemicals.py *)
(* ================================================================== *)

Inductive ChemicalType : Type :=
| BLEACH_6
| BLEACH_8_25
| BLEACH_10
| BLEACH_12_5
| TRICHLOR
| DICHLOR
| CAL_HYPO_48
| CAL_HYPO_53
| CAL_HYPO_65
| CAL_HYPO_73
| LITHIUM_HYPO
| CHLORINE_GAS
| MURIATIC_ACID_14_5
| MURIATIC_ACID_15_7
| MURIATIC_ACID_20
| MURIATIC_ACID_28_3
| MURIATIC_ACID_31_45
| MURIATIC_ACID_34_6
| DRY_ACID
| SODA_ASH
| BORAX
| BAKING_SODA
| CALCIUM_CHLORIDE_ANHYDROUS
| CALCIUM_CHLORIDE_DIHYDRATE
| CYA_GRANULAR
| CYA_LIQUID
| POOL_SALT
| BORAX_BORATE
| BORIC_ACID
| SODIUM_TETRABORATE_PENTAHYDRATE.

(** The string each member of the [StrEnum] stands for; a member
    compares and hashes as this string. *)
Definition ChemicalType_value (t : ChemicalType) : string :=
  match t with
  | BLEACH_6 => "bleach_6"
  | BLEACH_8_25 => "bleach_8.25"
  | BLEACH_10 => "bleach_10"
  | BLEACH_12_5 => "bleach_12.5"
  | TRICHLOR => "trichlor"
  | DICHLOR => "dichlor"
  | CAL_HYPO_48 => "cal_hypo_48"
  | CAL_HYPO_53 => "cal_hypo_53"
  | CAL_HYPO_65 => "cal_hypo_65"
  | CAL_HYPO_73 => "cal_hypo_73"
  | LITHIUM_HYPO => "lithium_hypo"
  | CHLORINE_GAS => "chlorine_gas"
  | MURIATIC_ACID_14_5 => "muriatic_acid_14.5"
  | MURIATIC_ACID_15_7 => "muriatic_acid_15.7"
  | MURIATIC_ACID_20 => "muriatic_acid_20"
  | MURIATIC_ACID_28_3 => "muriatic_acid_28.3"
  | MURIATIC_ACID_31_45 => "muriatic_acid_31.45"
  | MURIATIC_ACID_34_6 => "muriatic_acid_34.6"
  | DRY_ACID => "dry_acid"
  | SODA_ASH => "soda_ash"
  | BORAX => "borax"
  | BAKING_SODA => "baking_soda"
  | CALCIUM_CHLORIDE_ANHYDROUS => "calcium_chloride_anhydrous"
  | CALCIUM_CHLORIDE_DIHYDRATE => "calcium_chloride_dihydrate"
  | CYA_GRANULAR => "cya_granular"
  | CYA_LIQUID => "cya_liquid"
  | POOL_SALT => "pool_salt"
  | BORAX_BORATE => "borax_borate"
  | BORIC_ACID => "boric_acid"
  | SODIUM_TETRABORATE_PENTAHYDRATE => "sodium_tetraborate_pentahydrate"
  end.

Module Chem.

Record Chemical : Type := mkChemical {
  chemical_type : ChemicalType;
  name : string;
  multiplier : R;
  unit : string;
  volume_factor : option R;
  affects : string;
  secondary_effects : list (string * R)
}.

End Chem.

Abbreviation Chemical := Chem.Chemical.
Abbreviation mkChemical := Chem.mkChemical.

(** The registry, in the order of the dictionary literal. *)
Definition CHEMICALS : list (ChemicalType * Chemical) :=
  [
  (BLEACH_6,
   mkChemical BLEACH_6 "Bleach 6%"
     600.0 "fl_oz" None "free_chlorine"
     []);
  (BLEACH_8_25,
   mkChemical BLEACH_8_25 "Bleach 8.25%"
     825.0 "fl_oz" None "free_chlorine"
     []);
  (BLEACH_10,
   mkChemical BLEACH_10 "Bleach 10%"
     1000.0 "fl_oz" None "free_chlorine"
     []);
  (BLEACH_12_5,
   mkChemical BLEACH_12_5 "Bleach 12.5%"
     1250.0 "fl_oz" None "free_chlorine"
     []);
  (TRICHLOR,
   mkChemical TRICHLOR "Trichlor (90%)"
     6854.95 "oz" (Some 0.9351) "free_chlorine"
     [("cyanuric_acid", 4159.41); ("ph", -367.0); ("salt", 5600.0)]);
  (DICHLOR,
   mkChemical DICHLOR "Dichlor (56%)"
     4149.03 "oz" (Some 0.9352) "free_chlorine"
     [("cyanuric_acid", 3776.46); ("ph", -158.0); ("salt", 3384.0)]);
  (CAL_HYPO_48,
   mkChemical CAL_HYPO_48 "Cal-Hypo 48%"
     3565.44 "oz" (Some 0.9352) "free_chlorine"
     [("calcium_hardness", 2938.56)]);
  (CAL_HYPO_53,
   mkChemical CAL_HYPO_53 "Cal-Hypo 53%"
     3936.84 "oz" (Some 0.9352) "free_chlorine"
     [("calcium_hardness", 3245.92)]);
  (CAL_HYPO_65,
   mkChemical CAL_HYPO_65 "Cal-Hypo 65%"
     5422.41 "oz" (Some 0.9352) "free_chlorine"
     [("calcium_hardness", 3827.09); ("salt", 5500.0)]);
  (CAL_HYPO_73,
   mkChemical CAL_HYPO_73 "Cal-Hypo 73%"
     6092.62 "oz" (Some 0.9352) "free_chlorine"
     [("calcium_hardness", 4295.56); ("salt", 6175.0)]);
  (LITHIUM_HYPO,
   mkChemical LITHIUM_HYPO "Lithium Hypochlorite (35%)"
     2637.5 "oz" (Some 0.978) "free_chlorine"
     [("salt", 2711.0)]);
  (CHLORINE_GAS,
   mkChemical CHLORINE_GAS "Chlorine Gas"
     7489.4 "oz" None "free_chlorine"
     [("ph", -625.0); ("salt", 6140.0)]);
  (MURIATIC_ACID_14_5,
   mkChemical MURIATIC_ACID_14_5 "Muriatic Acid 14.5% (10° Baumé)"
     (240.15 / 2.16897) "fl_oz" None "ph"
     [("total_alkalinity", (-3911.47) / 2.16897)]);
  (MURIATIC_ACID_15_7,
   mkChemical MURIATIC_ACID_15_7 "Muriatic Acid 15.7%"
     (240.15 / 2.0) "fl_oz" None "ph"
     [("total_alkalinity", (-3911.47) / 2.0)]);
  (MURIATIC_ACID_20,
   mkChemical MURIATIC_ACID_20 "Muriatic Acid 20% (22° Baumé)"
     (240.15 / 1.5725) "fl_oz" None "ph"
     [("total_alkalinity", (-3911.47) / 1.5725)]);
  (MURIATIC_ACID_28_3,
   mkChemical MURIATIC_ACID_28_3 "Muriatic Acid 28.3%"
     (240.15 / 1.11111) "fl_oz" None "ph"
     [("total_alkalinity", (-3911.47) / 1.11111)]);
  (MURIATIC_ACID_31_45,
   mkChemical MURIATIC_ACID_31_45 "Muriatic Acid 31.45% (20° Baumé)"
     240.15 "fl_oz" None "ph"
     [("total_alkalinity", -3911.47)]);
  (MURIATIC_ACID_34_6,
   mkChemical MURIATIC_ACID_34_6 "Muriatic Acid 34.6%"
     (240.15 / 0.909091) "fl_oz" None "ph"
     [("total_alkalinity", (-3911.47) / 0.909091)]);
  (DRY_ACID,
   mkChemical DRY_ACID "Dry Acid (Sodium Bisulfate)"
     178.66 "oz" (Some 0.6657) "ph"
     [("total_alkalinity", -2909.47)]);
  (SODA_ASH,
   mkChemical SODA_ASH "Soda Ash (Sodium Carbonate)"
     218.68 "oz" (Some 0.8715) "ph"
     [("total_alkalinity", 7072.46)]);
  (BORAX,
   mkChemical BORAX "Borax (20 Mule Team)"
     110.05 "oz" (Some 0.9586) "ph"
     [("borates", 849.271)]);
  (BAKING_SODA,
   mkChemical BAKING_SODA "Baking Soda (Sodium Bicarbonate)"
     4259.15 "oz" (Some 0.7988) "total_alkalinity"
     [("ph", 9.091)]);
  (CALCIUM_CHLORIDE_ANHYDROUS,
   mkChemical CALCIUM_CHLORIDE_ANHYDROUS "Calcium Chloride Anhydrous (94-97%)"
     6754.11 "oz" (Some 0.7988) "calcium_hardness"
     []);
  (CALCIUM_CHLORIDE_DIHYDRATE,
   mkChemical CALCIUM_CHLORIDE_DIHYDRATE "Calcium Chloride Dihydrate/Flake (77-80%)"
     5098.82 "oz" (Some 1.148) "calcium_hardness"
     []);
  (CYA_GRANULAR,
   mkChemical CYA_GRANULAR "Cyanuric Acid Granular"
     7489.51 "oz" (Some 1.042) "cyanuric_acid"
     [("ph", -138.8)]);
  (CYA_LIQUID,
   mkChemical CYA_LIQUID "Cyanuric Acid Liquid"
     2890.0 "fl_oz" None "cyanuric_acid"
     []);
  (POOL_SALT,
   mkChemical POOL_SALT "Pool Salt (Sodium Chloride)"
     7468.64 "oz" None "salt"
     []);
  (BORAX_BORATE,
   mkChemical BORAX_BORATE "Borax (for borate level)"
     849.271 "oz" (Some 1.075) "borates"
     [("ph", 110.05)]);
  (BORIC_ACID,
   mkChemical BORIC_ACID "Boric Acid"
     1309.52 "oz" (Some 0.5296) "borates"
     []);
  (SODIUM_TETRABORATE_PENTAHYDRATE,
   mkChemical SODIUM_TETRABORATE_PENTAHYDRATE "Sodium Tetraborate Pentahydrate (ProTeam Supreme)"
     1111.69 "oz" (Some 0.9586) "borates"
     [])
  ].

(** [get_chemical].  The argument is the key as Python sees it, a
    string: members of [ChemicalType] are passed as their value, and any
    other string is a key outside the enumeration. *)
Definition get_chemical (chemical_type : string) : result Chemical :=
  match find (fun e => String.eqb (ChemicalType_value (fst e)) chemical_type)
             CHEMICALS with
  | None =>
      Raise (ChemicalNotFoundError ("Chemical type not found: " ++ chemical_type))
  | Some e => Ok (snd e)
  end.

(* ================================================================== *)
(** ** dosing/calculator.py *)
(* ================================================================== *)

(** Advisory notes.  Notes that embed a formatted number carry the
    number, rounded as the format rounds it. *)
Inductive note : Type :=
| Text (s : string)
| RequiresAcid (acid_fl_oz : R)
| Approximately (oz : R).

Module Dose.

Record DosingResult : Type := mkDosingResult {
  chemical : Chemical;
  amount : R;
  unit : string;
  amount_volume : option R;
  volume_unit : option string;
  notes : option note
}.

End Dose.

Abbreviation DosingResult := Dose.DosingResult.
Abbreviation mkDosingResult := Dose.mkDosingResult.

(** Truth value of an optional float: [None] and [0.0] are false. *)
Definition truthy (v : option R) : bool :=
  match v with
  | Some x => if Req_dec_T x 0 then false else true
  | None => false
  end.

(** [round(amount_volume, 2) if amount_volume else None]. *)
Definition round_volume (amount_volume : option R) : option R :=
  match amount_volume with
  | Some v => if truthy amount_volume then Some (py_round v 2) else None
  | None => None
  end.

Definition _calculate_ph_adjustment_factor (temperature_f total_alkalinity : R) : R :=
  let temp := (temperature_f - 60) / 20 in
  (192.1626 - 60.1221 * temp + 6.0752 * temp ^ 2 - 0.1943 * temp ^ 3)
  * (total_alkalinity + 13.91) / 114.6.

Definition _calculate_borate_correction (temperature_f borates ph_change : R) : R :=
  if Rle_dec borates 0 then 0.0
  else
    let temp := (temperature_f - 60) / 20 in
    (-5.476259 + 2.414292 * temp - 0.355882 * temp ^ 2 + 0.01755 * temp ^ 3)
    * borates * ph_change.

(** The [amount_volume], [volume_unit] pair of a dose; [cups_only] is
    false for the two functions that keep a non-weight unit as the
    volume unit. *)
Definition dose_volume (chemical : Chemical) (amount : R) (cups_only : bool)
    : option R * option string :=
  if truthy (Chem.volume_factor chemical) then
    match Chem.volume_factor chemical with
    | Some f =>
        (Some (amount * f),
         Some (if cups_only then "cups"
               else if String.eqb (Chem.unit chemical) "oz" then "cups"
               else Chem.unit chemical))
    | None => (None, None)
    end
  else (None, None).

Definition calculate_chlorine_dose (current_fc target_fc pool_gallons : R)
    (chemical_type : ChemicalType) : result DosingResult :=
  chemical <- get_chemical (ChemicalType_value chemical_type) ;;
  let fc_change := target_fc - current_fc in
  if Rle_dec fc_change 0 then
    Ok (mkDosingResult chemical 0 (Chem.unit chemical) None None
          (Some (Text "FC is already at or above target")))
  else
    amount <- py_truediv (fc_change * pool_gallons) (Chem.multiplier chemical) ;;
    let '(amount_volume, volume_unit) := dose_volume chemical amount false in
    Ok (mkDosingResult chemical (py_round amount 2) (Chem.unit chemical)
          (round_volume amount_volume) volume_unit None).

(** The amount [calculate_ph_dose] computes for a 10,000 gallon pool,
    before it is scaled by the volume and rounded. *)
Definition ph_dose_base_amount (ph_change total_alkalinity temperature_f borates : R)
    (raise_ph : bool) (chemical : Chemical) : result R :=
  let adj := _calculate_ph_adjustment_factor temperature_f total_alkalinity in
  let delta := ph_change * adj in
  let extra := _calculate_borate_correction temperature_f borates ph_change in
  if raise_ph then
    a <- py_truediv delta (Chem.multiplier chemical) ;;
    b <- py_truediv extra (Chem.multiplier chemical) ;;
    Ok (Rabs (a + b))
  else
    a <- py_truediv delta (- Chem.multiplier chemical) ;;
    b <- py_truediv extra (- Chem.multiplier chemical) ;;
    Ok (Rabs (a + b)).

(** [raise_ph], inferred from the sign of the change when it is not
    given. *)
Definition ph_direction (raise_ph : option bool) (ph_change : R) : bool :=
  match raise_ph with
  | None => if Rlt_dec 0 ph_change then true else false
  | Some b => b
  end.

(** The chemical used: soda ash to raise pH and 31.45% muriatic acid to
    lower it, unless one is given. *)
Definition ph_chemical_type (chemical_type : option ChemicalType)
    (raise_ph : bool) : ChemicalType :=
  match chemical_type with
  | None => if raise_ph then SODA_ASH else MURIATIC_ACID_31_45
  | Some t => t
  end.

Definition calculate_ph_dose (current_ph target_ph pool_gallons total_alkalinity
    temperature_f borates : R) (raise_ph : option bool)
    (chemical_type : option ChemicalType) : result DosingResult :=
  let ph_change := target_ph - current_ph in
  let raise_ph := ph_direction raise_ph ph_change in
  let chemical_type := ph_chemical_type chemical_type raise_ph in
  chemical <- get_chemical (ChemicalType_value chemical_type) ;;
  if Rlt_dec (Rabs ph_change) 0.01 then
    Ok (mkDosingResult chemical 0 (Chem.unit chemical) None None
          (Some (Text "pH is already at target")))
  else
    amount <- ph_dose_base_amount ph_change total_alkalinity temperature_f
                borates raise_ph chemical ;;
    let amount := amount * pool_gallons / 10000 in
    let '(amount_volume, volume_unit) := dose_volume chemical amount false in
    Ok (mkDosingResult chemical (py_round amount 2) (Chem.unit chemical)
          (round_volume amount_volume) volume_unit None).

(** [calculate_alkalinity_dose], [calculate_calcium_dose] and
    [calculate_cya_dose] have one body; they differ in the note of the
    zero-dose result. *)
Definition simple_dose (already : string) (current target pool_gallons : R)
    (chemical_type : ChemicalType) : result DosingResult :=
  chemical <- get_chemical (ChemicalType_value chemical_type) ;;
  let change := target - current in
  if Rle_dec change 0 then
    Ok (mkDosingResult chemical 0 (Chem.unit chemical) None None
          (Some (Text already)))
  else
    amount <- py_truediv (change * pool_gallons) (Chem.multiplier chemical) ;;
    let '(amount_volume, volume_unit) := dose_volume chemical amount true in
    Ok (mkDosingResult chemical (py_round amount 2) (Chem.unit chemical)
          (round_volume amount_volume) volume_unit None).

Definition calculate_alkalinity_dose (current_ta target_ta pool_gallons : R)
    (chemical_type : ChemicalType) : result DosingResult :=
  simple_dose "TA is already at or above target. Lower TA with acid + aeration."
    current_ta target_ta pool_gallons chemical_type.

Definition calculate_calcium_dose (current_ch target_ch pool_gallons : R)
    (chemical_type : ChemicalType) : result DosingResult :=
  simple_dose "CH is already at or above target. Lower CH with water replacement."
    current_ch target_ch pool_gallons chemical_type.

Definition calculate_cya_dose (current_cya target_cya pool_gallons : R)
    (chemical_type : ChemicalType) : result DosingResult :=
  simple_dose "CYA is already at or above target. Lower CYA with water replacement."
    current_cya target_cya pool_gallons chemical_type.

Definition calculate_salt_dose (current_salt target_salt pool_gallons : R)
    : result DosingResult :=
  chemical <- get_chemical (ChemicalType_value POOL_SALT) ;;
  let salt_change := target_salt - current_salt in
  if Rle_dec salt_change 0 then
    Ok (mkDosingResult chemical 0 "lbs" None None
          (Some (Text
             "Salt is already at or above target. Lower salt with water replacement.")))
  else
    amount_oz <- py_truediv (salt_change * pool_gallons) (Chem.multiplier chemical) ;;
    let amount_lbs := amount_oz / 16 in
    Ok (mkDosingResult chemical (py_round amount_lbs 1) "lbs" None None
          (Some (Approximately (py_round amount_oz 1)))).

(** [==] on members of the [StrEnum]. *)
Definition ChemicalType_eqb (a b : ChemicalType) : bool :=
  String.eqb (ChemicalType_value a) (ChemicalType_value b).

Definition calculate_borate_dose (current_borates target_borates pool_gallons : R)
    (chemical_type : ChemicalType) : result DosingResult :=
  chemical <- get_chemical (ChemicalType_value chemical_type) ;;
  let borate_change := target_borates - current_borates in
  if Rle_dec borate_change 0 then
    Ok (mkDosingResult chemical 0 (Chem.unit chemical) None None
          (Some (Text "Borates already at or above target.")))
  else
    amount <- py_truediv (borate_change * pool_gallons) (Chem.multiplier chemical) ;;
    let notes :=
      if ChemicalType_eqb chemical_type BORIC_ACID then
        Some (RequiresAcid (py_round (amount * 0.624) 1))
      else if ChemicalType_eqb chemical_type SODIUM_TETRABORATE_PENTAHYDRATE then
        Some (RequiresAcid (py_round (amount * 0.4765) 1))
      else None in
    let '(amount_volume, volume_unit) := dose_volume chemical amount true in
    Ok (mkDosingResult chemical (py_round amount 2) (Chem.unit chemical)
          (round_volume amount_volume) volume_unit notes).

(** The six dosing functions other than the pH one, and the call of
    each; [calculate_salt_dose] takes no chemical. *)
Inductive dosing_function : Type :=
| ChlorineDose | AlkalinityDose | CalciumDose | CyaDose | SaltDose | BorateDose.

Definition run_dose (f : dosing_function) (current target pool_gallons : R)
    (chemical_type : ChemicalType) : result DosingResult :=
  match f with
  | ChlorineDose => calculate_chlorine_dose current target pool_gallons chemical_type
  | AlkalinityDose => calculate_alkalinity_dose current target pool_gallons chemical_type
  | CalciumDose => calculate_calcium_dose current target pool_gallons chemical_type
  | CyaDose => calculate_cya_dose current target pool_gallons chemical_type
  | SaltDose => calculate_salt_dose current target pool_gallons
  | BorateDose => calculate_borate_dose current target pool_gallons chemical_type
  end.

Definition dose_chemical (f : dosing_function) (chemical_type : ChemicalType)
    : ChemicalType :=
  match f with
  | SaltDose => POOL_SALT
  | _ => chemical_type
  end.

(** Decimals kept in the returned amount. *)
Definition dose_digits (f : dosing_function) : nat :=
  match f with
  | SaltDose => 1%nat
  | _ => 2%nat
  end.

(** The dose before it is rounded: ounces, for salt pounds. *)
Definition unrounded_dose (f : dosing_function) (c : Chemical)
    (current target pool_gallons : R) : R :=
  match f with
  | SaltDose => (target - current) * pool_gallons / Chem.multiplier c / 16
  | _ => (target - current) * pool_gallons / Chem.multiplier c
  end.

(* ================================================================== *)
(** ** effects/predictions.py *)
(* ================================================================== *)

(** The local variables [new_fc] ... [new_borates] of [predict_effect]. *)
Record effect_state : Type := mkEffectState {
  new_fc : R;
  new_cc : R;
  new_ph : R;
  new_ta : R;
  new_ch : R;
  new_cya : R;
  new_salt : R;
  new_borates : R
}.

(** One [match] on a parameter name, with [x] the product
    [effect_factor * multiplier]; the primary effect and every secondary
    effect go through the same seven cases, and a name that matches none
    changes nothing. *)
Definition apply_effect (param : string) (x : R) (s : effect_state)
    : effect_state :=
  if String.eqb param "free_chlorine" then
    mkEffectState (new_fc s + x) (new_cc s) (new_ph s) (new_ta s) (new_ch s)
                  (new_cya s) (new_salt s) (new_borates s)
  else if String.eqb param "ph" then
    mkEffectState (new_fc s) (new_cc s) (new_ph s + x / 100) (new_ta s) (new_ch s)
                  (new_cya s) (new_salt s) (new_borates s)
  else if String.eqb param "total_alkalinity" then
    mkEffectState (new_fc s) (new_cc s) (new_ph s) (new_ta s + x) (new_ch s)
                  (new_cya s) (new_salt s) (new_borates s)
  else if String.eqb param "calcium_hardness" then
    mkEffectState (new_fc s) (new_cc s) (new_ph s) (new_ta s) (new_ch s + x)
                  (new_cya s) (new_salt s) (new_borates s)
  else if String.eqb param "cyanuric_acid" then
    mkEffectState (new_fc s) (new_cc s) (new_ph s) (new_ta s) (new_ch s)
                  (new_cya s + x) (new_salt s) (new_borates s)
  else if String.eqb param "salt" then
    mkEffectState (new_fc s) (new_cc s) (new_ph s) (new_ta s) (new_ch s)
                  (new_cya s) (new_salt s + x) (new_borates s)
  else if String.eqb param "borates" then
    mkEffectState (new_fc s) (new_cc s) (new_ph s) (new_ta s) (new_ch s)
                  (new_cya s) (new_salt s) (new_borates s + x)
  else s.

Definition predict_effect (water : WaterChemistry) (chemical_type : ChemicalType)
    (amount_oz pool_gallons : R) : result WaterChemistry :=
  chemical <- get_chemical (ChemicalType_value chemical_type) ;;
  let s0 :=
    mkEffectState (Water.free_chlorine water) (Water.combined_chlorine water)
                  (Water.ph water) (Water.total_alkalinity water)
                  (Water.calcium_hardness water) (Water.cyanuric_acid water)
                  (Water.salt water) (Water.borates water) in
  effect_factor <- py_truediv amount_oz pool_gallons ;;
  let s1 :=
    apply_effect (Chem.affects chemical)
                 (effect_factor * Chem.multiplier chemical) s0 in
  let s2 :=
    fold_left (fun s e => apply_effect (fst e) (effect_factor * snd e) s)
              (Chem.secondary_effects chemical) s1 in
  let new_fc := Rmax 0 (new_fc s2) in
  let new_cc := Rmax 0 (new_cc s2) in
  let new_ph := Rmax 0 (Rmin 14 (new_ph s2)) in
  let new_ta := Rmax 0 (new_ta s2) in
  let new_ch := Rmax 0 (new_ch s2) in
  let new_cya := Rmax 0 (new_cya s2) in
  let new_salt := Rmax 0 (new_salt s2) in
  let new_borates := Rmax 0 (new_borates s2) in
  WaterChemistry_new (py_round new_ph 2) (Water.temperature_f water)
    (py_round new_fc 1) (py_round new_cc 1) (py_round new_ta 0)
    (py_round new_ch 0) (py_round new_cya 0) (py_round new_salt 0)
    (py_round new_borates 0) (Water.tds water).

(* ================================================================== *)
(** ** Further functions of the modules above *)
(* ================================================================== *)

(** *** chemistry/constants.py: unit conversion constants *)

Definition GALLONS_TO_LITERS : R := 3.78541.
Definition LITERS_TO_GALLONS : R := 1 / GALLONS_TO_LITERS.
Definition CUBIC_FEET_TO_GALLONS : R := 7.48052.
Definition OZ_TO_GRAMS : R := 28.3495.
Definition GRAMS_TO_OZ : R := 1 / OZ_TO_GRAMS.
Definition OZ_TO_LBS : R := 0.0625.
Definition LBS_TO_OZ : R := 16.

(** *** models/water.py: computed properties *)

Definition total_chlorine (w : WaterChemistry) : R :=
  Water.free_chlorine w + Water.combined_chlorine w.

Definition temperature_c (w : WaterChemistry) : R :=
  (Water.temperature_f w - 32) * 5 / 9.

(** *** chemistry/factors.py *)

Definition calculate_calcium_factor (calcium_hardness : R) : result R :=
  if Rle_dec calcium_hardness 0 then
    Raise (ValueError "Calcium hardness must be greater than 0")
  else math_log10 calcium_hardness.

Definition calculate_alkalinity_factor (alkalinity : R) : result R :=
  if Rle_dec alkalinity 0 then
    Raise (ValueError "Alkalinity must be greater than 0")
  else math_log10 alkalinity.

(** *** chemistry/csi.py and chemistry/lsi.py: interpretation bands *)

Definition interpret_csi (csi : R) : string :=
  if Rle_dec csi (-0.6) then "Corrosive (aggressive water, will etch surfaces)"
  else if Rle_dec csi (-0.3) then "Slightly corrosive (may cause slow corrosion)"
  else if Rle_dec csi 0.3 then "Balanced (ideal)"
  else if Rle_dec csi 0.6 then "Slightly scale-forming (may form light scale)"
  else "Scale-forming (scale formation likely)".

Definition interpret_lsi (lsi : R) : string :=
  if Rle_dec lsi (-0.31) then "Red - Aggressive (corrosive, will etch surfaces)"
  else if Rlt_dec lsi 0 then "Yellow - Acceptable (close to balanced)"
  else if Rle_dec lsi 0.30 then "Green - Ideal (perfectly balanced)"
  else "Purple - Over-saturated (scale-forming)".

(** *** chemistry/fc_cya.py *)

Definition is_fc_adequate (free_chlorine cyanuric_acid : R) (is_swg : bool) : bool :=
  let min_fc := calculate_min_fc cyanuric_acid is_swg in
  if Rge_dec free_chlorine min_fc then true else false.

(** *** dosing/calculator.py *)

Definition calculate_water_replacement
    (current_value target_value fill_water_value : R) : result R :=
  if Rle_dec current_value target_value then Ok 0.0
  else if Req_dec_T fill_water_value 0 then
    q <- py_truediv target_value current_value ;;
    Ok (100 - q * 100)
  else if Rle_dec current_value fill_water_value then Ok 0.0
  else
    q <- py_truediv (target_value - fill_water_value)
                    (current_value - fill_water_value) ;;
    Ok (100 - q * 100).

(** *** effects/predictions.py *)

(** The [for] loop over the additions: each one is applied to the state
    the previous one returned. *)
Fixpoint predict_multiple_effects (water : WaterChemistry)
    (additions : list (ChemicalType * R)) (pool_gallons : R)
    : result WaterChemistry :=
  match additions with
  | [] => Ok water
  | (chemical_type, amount_oz) :: rest =>
      current <- predict_effect water chemical_type amount_oz pool_gallons ;;
      predict_multiple_effects current rest pool_gallons
  end.

(* ================================================================== *)
(** ** utils/conversions.py *)
(* ================================================================== *)

Definition fahrenheit_to_celsius (temp_f : R) : R := (temp_f - 32) * 5 / 9.
Definition celsius_to_fahrenheit (temp_c : R) : R := temp_c * 9 / 5 + 32.
Definition gallons_to_liters (gallons : R) : R := gallons * GALLONS_TO_LITERS.
Definition liters_to_gallons (liters : R) : R := liters * LITERS_TO_GALLONS.
Definition oz_to_grams (oz : R) : R := oz * OZ_TO_GRAMS.
Definition grams_to_oz (grams : R) : R := grams * GRAMS_TO_OZ.
Definition oz_to_lbs (oz : R) : R := oz * OZ_TO_LBS.
Definition lbs_to_oz (lbs : R) : R := lbs * LBS_TO_OZ.
Definition fl_oz_to_ml (fl_oz : R) : R := fl_oz * 29.5735.
Definition ml_to_fl_oz (ml : R) : R := ml / 29.5735.

(* ================================================================== *)
(** ** utils/volume.py *)
(* ================================================================== *)

Inductive PoolShape : Type :=
| RECTANGULAR | OVAL | ROUND | KIDNEY | FREEFORM.

Definition calculate_pool_volume (shape : PoolShape)
    (length_ft width_ft avg_depth_ft : R)
    (shallow_depth_ft deep_depth_ft : option R) : R :=
  let avg_depth_ft :=
    match shallow_depth_ft, deep_depth_ft with
    | Some shallow, Some deep => (shallow + deep) / 2
    | _, _ => avg_depth_ft
    end in
  let cubic_feet :=
    match shape with
    | RECTANGULAR => length_ft * width_ft * avg_depth_ft
    | OVAL => (length_ft * width_ft - 0.214602 * width_ft * width_ft) * avg_depth_ft
    | ROUND => length_ft * length_ft * avg_depth_ft
    | KIDNEY => length_ft * width_ft * avg_depth_ft * 0.75
    | FREEFORM => length_ft * width_ft * avg_depth_ft * 0.85
    end in
  cubic_feet * CUBIC_FEET_TO_GALLONS.

Definition estimate_volume_from_dimensions
    (length_ft width_ft avg_depth_ft : R) (shape : PoolShape) : R :=
  calculate_pool_volume shape length_ft width_ft avg_depth_ft None None.

(* ================================================================== *)
(** ** models/pool.py and models/targets.py *)
(* ================================================================== *)

Inductive PoolType : Type :=
| TRADITIONAL | SWG | SPA.

Module Range.

Record ParameterRange : Type := mkParameterRange {
  minimum : R;
  target : R;
  maximum : R
}.

End Range.

Abbreviation ParameterRange := Range.ParameterRange.
Abbreviation mkParameterRange := Range.mkParameterRange.

Definition is_in_range (r : ParameterRange) (value : R) : bool :=
  if Rle_dec (Range.minimum r) value then
    (if Rle_dec value (Range.maximum r) then true else false)
  else false.

Definition is_low (r : ParameterRange) (value : R) : bool :=
  if Rlt_dec value (Range.minimum r) then true else false.

Definition is_high (r : ParameterRange) (value : R) : bool :=
  if Rgt_dec value (Range.maximum r) then true else false.

Module Targets.

Record TargetRanges : Type := mkTargetRanges {
  ph : ParameterRange;
  total_alkalinity : ParameterRange;
  calcium_hardness : ParameterRange;
  cyanuric_acid : ParameterRange;
  salt : option ParameterRange;
  borates : option ParameterRange;
  csi : ParameterRange;
  fc_min_factor : R;
  fc_target_factor : R
}.

End Targets.

Abbreviation TargetRanges := Targets.TargetRanges.
Abbreviation mkTargetRanges := Targets.mkTargetRanges.

(** The default of the [csi] field. *)
Definition DEFAULT_CSI_RANGE : ParameterRange := mkParameterRange (-0.3) 0.0 0.3.

Definition TRADITIONAL_POOL_TARGETS : TargetRanges :=
  mkTargetRanges
    (mkParameterRange 7.2 7.5 7.8)
    (mkParameterRange 80 100 120)
    (mkParameterRange 200 300 400)
    (mkParameterRange 30 50 80)
    None None DEFAULT_CSI_RANGE 0.075 0.10.

Definition SWG_POOL_TARGETS : TargetRanges :=
  mkTargetRanges
    (mkParameterRange 7.4 7.6 7.8)
    (mkParameterRange 50 70 90)
    (mkParameterRange 200 350 450)
    (mkParameterRange 60 70 90)
    (Some (mkParameterRange 2700 3200 3400))
    None DEFAULT_CSI_RANGE 0.045 0.075.

Definition SPA_TARGETS : TargetRanges :=
  mkTargetRanges
    (mkParameterRange 7.4 7.6 7.8)
    (mkParameterRange 50 60 80)
    (mkParameterRange 120 150 200)
    (mkParameterRange 20 30 40)
    None None DEFAULT_CSI_RANGE 0.075 0.10.

Definition get_target_ranges (pool_type : PoolType) : TargetRanges :=
  match pool_type with
  | TRADITIONAL => TRADITIONAL_POOL_TARGETS
  | SWG => SWG_POOL_TARGETS
  | SPA => SPA_TARGETS
  end.

(** A zero-dose result for chemical [c]. *)
Definition zero_dose_of (c : Chemical) (d : DosingResult) : Prop :=
  Dose.chemical d = c
  /\ Dose.amount d = 0
  /\ Dose.amount_volume d = None
  /\ Dose.volume_unit d = None
  /\ exists s, Dose.notes d = Some (Text s).

(** The locals of [predict_effect] after the primary and the secondary
    effects of chemical [c] have been applied with [effect_factor]. *)
Definition effects_applied (water : WaterChemistry) (c : Chemical)
    (effect_factor : R) : effect_state :=
  fold_left (fun s e => apply_effect (fst e) (effect_factor * snd e) s)
            (Chem.secondary_effects c)
            (apply_effect (Chem.affects c) (effect_factor * Chem.multiplier c)
               (mkEffectState (Water.free_chlorine water)
                  (Water.combined_chlorine water) (Water.ph water)
                  (Water.total_alkalinity water) (Water.calcium_hardness water)
                  (Water.cyanuric_acid water) (Water.salt water)
                  (Water.borates water))).

(** The state [predict_effect] builds from those locals: clamped, then
    rounded to the precision of each field. *)
Definition clamped_state (water : WaterChemistry) (s : effect_state)
    : WaterChemistry :=
  mkWaterChemistry
    (py_round (Rmax 0 (Rmin 14 (new_ph s))) 2) (Water.temperature_f water)
    (py_round (Rmax 0 (new_fc s)) 1) (py_round (Rmax 0 (new_cc s)) 1)
    (py_round (Rmax 0 (new_ta s)) 0) (py_round (Rmax 0 (new_ch s)) 0)
    (py_round (Rmax 0 (new_cya s)) 0) (py_round (Rmax 0 (new_salt s)) 0)
    (py_round (Rmax 0 (new_borates s)) 0) (Water.tds water).

(** Whether a registry entry names [param], as its primary parameter
    ([affects]) or as a key of [secondary_effects]: the names the loop of
    [predict_effect] passes to its [match]. *)
Definition names_parameter (c : Chemical) (param : string) : bool :=
  String.eqb (Chem.affects c) param
  || existsb (fun e => String.eqb (fst e) param) (Chem.secondary_effects c).

(** The seven parameter names the [match] of [predict_effect] knows. *)
Definition EFFECT_PARAMETERS : list string :=
  ["free_chlorine"; "ph"; "total_alkalinity"; "calcium_hardness";
   "cyanuric_acid"; "salt"; "borates"].

(** The ranges a [TargetRanges] holds: the five that are always there,
    then [salt] and [borates] when they are not [None]. *)
Definition ranges_of (targets : TargetRanges) : list ParameterRange :=
  [Targets.ph targets; Targets.total_alkalinity targets;
   Targets.calcium_hardness targets; Targets.cyanuric_acid targets;
   Targets.csi targets]
  ++ match Targets.salt targets with Some r => [r] | None => [] end
  ++ match Targets.borates targets with Some r => [r] | None => [] end.

(* ================================================================== *)
(** ** Proof tools *)
(* ================================================================== *)

Lemma Rle_dec_true {A : Type} (a b : R) (x y : A) :
  a <= b -> (if Rle_dec a b then x else y) = x.
Proof. intros H. destruct (Rle_dec a b); [reflexivity | contradiction]. Qed.

Lemma Rle_dec_false {A : Type} (a b : R) (x y : A) :
  b < a -> (if Rle_dec a b then x else y) = y.
Proof. intros H. destruct (Rle_dec a b); [lra | reflexivity]. Qed.

Lemma Rlt_dec_true {A : Type} (a b : R) (x y : A) :
  a < b -> (if Rlt_dec a b then x else y) = x.
Proof. intros H. destruct (Rlt_dec a b); [reflexivity | contradiction]. Qed.

Lemma Rlt_dec_false {A : Type} (a b : R) (x y : A) :
  b <= a -> (if Rlt_dec a b then x else y) = y.
Proof. intros H. destruct (Rlt_dec a b); [lra | reflexivity]. Qed.

Lemma Rge_dec_true {A : Type} (a b : R) (x y : A) :
  b <= a -> (if Rge_dec a b then x else y) = x.
Proof. intros H. destruct (Rge_dec a b); [reflexivity | lra]. Qed.

Lemma Rge_dec_false {A : Type} (a b : R) (x y : A) :
  a < b -> (if Rge_dec a b then x else y) = y.
Proof. intros H. destruct (Rge_dec a b); [lra | reflexivity]. Qed.

Lemma Req_dec_true {A : Type} (a b : R) (x y : A) :
  a = b -> (if Req_dec_T a b then x else y) = x.
Proof. intros H. destruct (Req_dec_T a b); [reflexivity | contradiction]. Qed.

Lemma Req_dec_false {A : Type} (a b : R) (x y : A) :
  a <> b -> (if Req_dec_T a b then x else y) = y.
Proof. intros H. destruct (Req_dec_T a b); [contradiction | reflexivity]. Qed.


Lemma interpolate_loop_cons (table : dict) (keys : list R) (x : R) (i : nat)
    (t : R) (rest : list R) :
  interpolate_loop table keys x i (t :: rest)
  = if Rle_dec t x then
      t2 <- list_get keys (S i) ;;
      if Rlt_dec x t2 then
        f1 <- dict_get table t ;;
        f2 <- dict_get table t2 ;;
        q <- py_truediv ((f2 - f1) * (x - t)) (t2 - t) ;;
        Ok (f1 + q)
      else interpolate_loop table keys x (S i) rest
    else interpolate_loop table keys x (S i) rest.
Proof. reflexivity. Qed.

Ltac pyred :=
  cbn [bind insert_sorted py_sorted dict_get dict_keys map fst snd list_get
       list_last nth_error last removelast].

Ltac rdec_step :=
  match goal with
  | |- context [Rle_dec ?a ?b] =>
      first [ rewrite (Rle_dec_true a b) by lra
            | rewrite (Rle_dec_false a b) by lra
            | destruct (Rle_dec a b) ]
  | |- context [Rlt_dec ?a ?b] =>
      first [ rewrite (Rlt_dec_true a b) by lra
            | rewrite (Rlt_dec_false a b) by lra
            | destruct (Rlt_dec a b) ]
  | |- context [Rge_dec ?a ?b] =>
      first [ rewrite (Rge_dec_true a b) by lra
            | rewrite (Rge_dec_false a b) by lra
            | destruct (Rge_dec a b) ]
  | |- context [Req_dec_T ?a ?b] =>
      first [ rewrite (Req_dec_true a b) by lra
            | rewrite (Req_dec_false a b) by lra
            | destruct (Req_dec_T a b) ]
  end.

Ltac rdec := repeat (rdec_step; pyred).

Lemma py_truediv_ok (x y : R) : y <> 0 -> py_truediv x y = Ok (x / y).
Proof.
  intros Hy. unfold py_truediv. destruct (Req_dec_T y 0); [contradiction | reflexivity].
Qed.

Lemma temperature_keys_sorted :
  py_sorted (dict_keys TEMPERATURE_FACTOR_TABLE)
  = [32; 37; 46; 53; 60; 66; 76; 84; 94; 105].
Proof. cbn. rdec. reflexivity. Qed.

Lemma cya_keys_sorted :
  py_sorted (dict_keys CYA_CORRECTION_TABLE)
  = [7.0; 7.2; 7.4; 7.5; 7.6; 7.8; 8.0].
Proof. cbn. rdec. reflexivity. Qed.

(** Run a table lookup whose comparisons the context decides: the loop
    is unrolled one iteration at a time and the table is opened only
    once the keys to fetch are known. *)
Ltac run_table keys_sorted table :=
  unfold interpolate_table; rewrite keys_sorted; cbv zeta; pyred; rdec;
  repeat (rewrite interpolate_loop_cons; pyred; rdec);
  unfold table; pyred; rdec;
  try (rewrite py_truediv_ok by lra; pyred).

Ltac run_temperature :=
  unfold interpolate_temperature_factor;
  run_table temperature_keys_sorted TEMPERATURE_FACTOR_TABLE.

Ltac run_cya :=
  unfold get_cya_correction_factor;
  run_table cya_keys_sorted CYA_CORRECTION_TABLE.

(* ================================================================== *)
(** ** Lookup tables *)
(* ================================================================== *)

Lemma temperature_below (x : R) :
  x <= 32 -> interpolate_temperature_factor x = Ok 0.0.
Proof. intros Hx. run_temperature. reflexivity. Qed.

Lemma temperature_above (x : R) :
  105 <= x -> interpolate_temperature_factor x = Ok 0.9.
Proof. intros Hx. run_temperature. reflexivity. Qed.

Lemma temperature_between (x1 y1 x2 y2 x : R) :
  In ((x1, y1), (x2, y2)) (adjacent_pairs TEMPERATURE_FACTOR_TABLE) ->
  x1 <= x < x2 ->
  interpolate_temperature_factor x
  = Ok (y1 + (y2 - y1) * (x - x1) / (x2 - x1)).
Proof.
  intros Hin Hx. unfold TEMPERATURE_FACTOR_TABLE in Hin.
  cbn [adjacent_pairs In] in Hin.
  repeat (destruct Hin as [Hin | Hin];
          [inversion Hin; subst; clear Hin |]); try contradiction.
  all: run_temperature.
  all: f_equal; lra.
Qed.

Ltac pick_pair :=
  unfold TEMPERATURE_FACTOR_TABLE, CYA_CORRECTION_TABLE;
  cbn [adjacent_pairs In]; repeat (first [left; reflexivity | right]).

Lemma temperature_total (x : R) :
  exists y, interpolate_temperature_factor x = Ok y.
Proof.
  destruct (Rle_lt_dec x 32) as [H | H].
  { eexists. apply temperature_below. exact H. }
  destruct (Rle_lt_dec 105 x) as [H' | H'].
  { eexists. apply temperature_above. exact H'. }
  destruct (Rlt_le_dec x 37);
    [eexists; apply (temperature_between 32 0.0 37 0.1); [pick_pair | lra] |].
  destruct (Rlt_le_dec x 46);
    [eexists; apply (temperature_between 37 0.1 46 0.2); [pick_pair | lra] |].
  destruct (Rlt_le_dec x 53);
    [eexists; apply (temperature_between 46 0.2 53 0.3); [pick_pair | lra] |].
  destruct (Rlt_le_dec x 60);
    [eexists; apply (temperature_between 53 0.3 60 0.4); [pick_pair | lra] |].
  destruct (Rlt_le_dec x 66);
    [eexists; apply (temperature_between 60 0.4 66 0.5); [pick_pair | lra] |].
  destruct (Rlt_le_dec x 76);
    [eexists; apply (temperature_between 66 0.5 76 0.6); [pick_pair | lra] |].
  destruct (Rlt_le_dec x 84);
    [eexists; apply (temperature_between 76 0.6 84 0.7); [pick_pair | lra] |].
  destruct (Rlt_le_dec x 94);
    [eexists; apply (temperature_between 84 0.7 94 0.8); [pick_pair | lra] |].
  eexists; apply (temperature_between 94 0.8 105 0.9); [pick_pair | lra].
Qed.

(** C5.  [interpolate_temperature_factor] returns a value for every real
    temperature; it is 0.0 at or below 32 and 0.9 at or above 105; at
    every breakpoint of the table it is the tabulated value; between two
    adjacent breakpoints it is the linear interpolant; and its value at
    80 lies strictly between 0.6 and 0.7. *)
Theorem interpolate_temperature_factor_spec :
  (forall x, returns_value (interpolate_temperature_factor x))
  /\ (forall x, x <= 32 -> interpolate_temperature_factor x = Ok 0.0)
  /\ (forall x, 105 <= x -> interpolate_temperature_factor x = Ok 0.9)
  /\ (forall k v, In (k, v) TEMPERATURE_FACTOR_TABLE ->
        interpolate_temperature_factor k = Ok v)
  /\ (forall x1 y1 x2 y2 x,
        In ((x1, y1), (x2, y2)) (adjacent_pairs TEMPERATURE_FACTOR_TABLE) ->
        x1 <= x < x2 ->
        interpolate_temperature_factor x
        = Ok (y1 + (y2 - y1) * (x - x1) / (x2 - x1)))
  /\ (exists y, interpolate_temperature_factor 80 = Ok y /\ 0.6 < y < 0.7).
Proof.
  split; [exact temperature_total |].
  split; [exact temperature_below |].
  split; [exact temperature_above |].
  split.
  { intros k v Hin. cbn [TEMPERATURE_FACTOR_TABLE In] in Hin.
    unfold TEMPERATURE_FACTOR_TABLE in Hin. cbn [In] in Hin.
    repeat (destruct Hin as [Hin | Hin];
            [inversion Hin; subst; clear Hin |]); try contradiction.
    all: run_temperature; f_equal; lra. }
  split; [exact temperature_between |].
  eexists. split.
  - apply (temperature_between 76 0.6 84 0.7 80); [pick_pair | lra].
  - lra.
Qed.

(* ================================================================== *)
(** ** Carbonate alkalinity *)
(* ================================================================== *)

Lemma pow10_pos (e : R) : 0 < pow10 e.
Proof. unfold pow10, Rpower. apply exp_pos. Qed.

Lemma pow10_0 : pow10 0 = 1.
Proof. unfold pow10. apply Rpower_O. lra. Qed.

Lemma pow10_lt_1 (e : R) : e < 0 -> pow10 e < 1.
Proof.
  intros He. rewrite <- pow10_0. unfold pow10. apply Rpower_lt; lra.
Qed.

Lemma inv_1_pow10_pos (e : R) : 0 < / (1 + pow10 e).
Proof. apply Rinv_0_lt_compat. pose proof (pow10_pos e). lra. Qed.

Lemma calculate_carbonate_alkalinity_eq (ta cya ph b : R) :
  calculate_carbonate_alkalinity ta cya ph b
  = Ok (Rmax 0.0 (ta - cya_term cya ph - borate_term b ph)).
Proof.
  unfold calculate_carbonate_alkalinity, cya_term, borate_term.
  rewrite py_truediv_ok
    by (pose proof (pow10_pos (CYA_PH_CONSTANT - ph)); lra).
  cbn [bind]. destruct (Rlt_dec 0 b).
  - rewrite py_truediv_ok
      by (pose proof (pow10_pos (BORATE_PH_CONSTANT - ph)); lra).
    reflexivity.
  - reflexivity.
Qed.

Lemma cya_term_lt (c1 c2 ph : R) : c1 < c2 -> cya_term c1 ph < cya_term c2 ph.
Proof.
  intros Hc. unfold cya_term, Rdiv, CYA_COEFFICIENT.
  pose proof (inv_1_pow10_pos (CYA_PH_CONSTANT - ph)) as Hu.
  set (u := / (1 + pow10 (CYA_PH_CONSTANT - ph))) in *. nra.
Qed.

Lemma borate_term_le (b1 b2 ph : R) :
  b1 < b2 -> borate_term b1 ph <= borate_term b2 ph.
Proof.
  intros Hb. unfold borate_term, Rdiv, BORATE_COEFFICIENT.
  pose proof (inv_1_pow10_pos (BORATE_PH_CONSTANT - ph)) as Hu.
  set (u := / (1 + pow10 (BORATE_PH_CONSTANT - ph))) in *.
  destruct (Rlt_dec 0 b1), (Rlt_dec 0 b2); nra.
Qed.

Lemma borate_term_lt (b1 b2 ph : R) :
  b1 < b2 -> 0 < b2 -> borate_term b1 ph < borate_term b2 ph.
Proof.
  intros Hb Hpos. unfold borate_term, Rdiv, BORATE_COEFFICIENT.
  pose proof (inv_1_pow10_pos (BORATE_PH_CONSTANT - ph)) as Hu.
  set (u := / (1 + pow10 (BORATE_PH_CONSTANT - ph))) in *.
  destruct (Rlt_dec 0 b1), (Rlt_dec 0 b2); nra.
Qed.

Lemma Rmax0_decreasing (x y : R) :
  y < x -> Rmax 0.0 y <= Rmax 0.0 x /\ (0 < Rmax 0.0 x -> Rmax 0.0 y < Rmax 0.0 x).
Proof.
  intros Hxy. unfold Rmax.
  destruct (Rle_dec 0.0 y), (Rle_dec 0.0 x); split; intros; lra.
Qed.

(** C4, as stated, fails: at TA = 20, pH = 7.5 and no borates, CYA = 200
    and CYA = 300 both give 0, so raising CYA did not lower the result. *)
Lemma carbonate_alkalinity_not_strict :
  calculate_carbonate_alkalinity 20 200 7.5 0 = Ok 0.0
  /\ calculate_carbonate_alkalinity 20 300 7.5 0 = Ok 0.0
  /\ ~ result_lt (calculate_carbonate_alkalinity 20 300 7.5 0)
                 (calculate_carbonate_alkalinity 20 200 7.5 0).
Proof.
  assert (Hp : 0 < pow10 (CYA_PH_CONSTANT - 7.5) < 1).
  { split; [apply pow10_pos | apply pow10_lt_1; unfold CYA_PH_CONSTANT; lra]. }
  assert (H200 : 20 < cya_term 200 7.5).
  { unfold cya_term, CYA_COEFFICIENT.
    apply Rmult_lt_reg_r with (1 + pow10 (CYA_PH_CONSTANT - 7.5)); [lra |].
    unfold Rdiv. rewrite Rmult_assoc, Rinv_l by lra. lra. }
  assert (H300 : 20 < cya_term 300 7.5).
  { pose proof (cya_term_lt 200 300 7.5). lra. }
  assert (Hb : borate_term 0 7.5 = 0.0).
  { unfold borate_term. destruct (Rlt_dec 0 0); [lra | reflexivity]. }
  assert (E200 : calculate_carbonate_alkalinity 20 200 7.5 0 = Ok 0.0).
  { rewrite calculate_carbonate_alkalinity_eq, Hb. f_equal.
    unfold Rmax. destruct (Rle_dec 0.0 (20 - cya_term 200 7.5 - 0.0)); lra. }
  assert (E300 : calculate_carbonate_alkalinity 20 300 7.5 0 = Ok 0.0).
  { rewrite calculate_carbonate_alkalinity_eq, Hb. f_equal.
    unfold Rmax. destruct (Rle_dec 0.0 (20 - cya_term 300 7.5 - 0.0)); lra. }
  split; [exact E200 |]. split; [exact E300 |].
  rewrite E200, E300. intros (a & b & Ha & Hb' & Hlt).
  inversion Ha; inversion Hb'; subst. lra.
Qed.

(** C4 (amended).  With no CYA and no borates the carbonate alkalinity
    of a non-negative TA is TA itself; raising CYA, or raising borates,
    never raises the result and strictly lowers it whenever the result
    before the increase is positive (for borates, when the raised level
    is positive); the result is never negative. *)
Theorem calculate_carbonate_alkalinity_properties :
  (forall ta ph, 0 <= ta -> calculate_carbonate_alkalinity ta 0 ph 0 = Ok ta)
  /\ (forall ta ph b c1 c2, c1 < c2 ->
        exists r1 r2,
          calculate_carbonate_alkalinity ta c1 ph b = Ok r1
          /\ calculate_carbonate_alkalinity ta c2 ph b = Ok r2
          /\ r2 <= r1 /\ (0 < r1 -> r2 < r1))
  /\ (forall ta ph c b1 b2, b1 < b2 ->
        exists r1 r2,
          calculate_carbonate_alkalinity ta c ph b1 = Ok r1
          /\ calculate_carbonate_alkalinity ta c ph b2 = Ok r2
          /\ r2 <= r1 /\ (0 < r1 -> 0 < b2 -> r2 < r1))
  /\ (forall ta c ph b,
        exists r, calculate_carbonate_alkalinity ta c ph b = Ok r /\ 0 <= r).
Proof.
  repeat split.
  - intros ta ph Hta. rewrite calculate_carbonate_alkalinity_eq. f_equal.
    unfold cya_term, borate_term, Rdiv.
    destruct (Rlt_dec 0 0); [lra |].
    rewrite Rmult_0_r, Rmult_0_l. unfold Rmax.
    destruct (Rle_dec 0.0 (ta - 0 - 0.0)); lra.
  - intros ta ph b c1 c2 Hc.
    do 2 eexists. rewrite !calculate_carbonate_alkalinity_eq.
    split; [reflexivity |]. split; [reflexivity |].
    apply Rmax0_decreasing. pose proof (cya_term_lt c1 c2 ph Hc). lra.
  - intros ta ph c b1 b2 Hb.
    do 2 eexists. rewrite !calculate_carbonate_alkalinity_eq.
    split; [reflexivity |]. split; [reflexivity |].
    pose proof (borate_term_le b1 b2 ph Hb) as Hle.
    split.
    + unfold Rmax.
      destruct (Rle_dec 0.0 (ta - cya_term c ph - borate_term b2 ph)),
               (Rle_dec 0.0 (ta - cya_term c ph - borate_term b1 ph)); lra.
    + intros Hpos Hb2.
      pose proof (borate_term_lt b1 b2 ph Hb Hb2) as Hlt.
      apply Rmax0_decreasing; [lra | exact Hpos].
  - intros ta c ph b. eexists. rewrite calculate_carbonate_alkalinity_eq.
    split; [reflexivity |]. unfold Rmax.
    destruct (Rle_dec 0.0 (ta - cya_term c ph - borate_term b ph)); lra.
Qed.

Lemma carbonate_alkalinity_spec_ok (ta cya ph b : R) :
  calculate_carbonate_alkalinity ta cya ph b
  = Ok (carbonate_alkalinity_spec ta cya ph b).
Proof.
  rewrite calculate_carbonate_alkalinity_eq. f_equal.
  unfold carbonate_alkalinity_spec, cya_term, borate_term,
    CYA_COEFFICIENT, CYA_PH_CONSTANT, BORATE_COEFFICIENT, BORATE_PH_CONSTANT.
  set (u := 0.38772 * cya / (1 + pow10 (6.83 - ph))).
  set (v := 4.63 * b / (1 + pow10 (9.11 - ph))).
  unfold Rmax. destruct (Rlt_dec 0 b).
  - destruct (Rle_dec 0.0 (ta - u - v)), (Rle_dec 0 (ta - u - v)); lra.
  - destruct (Rle_dec 0.0 (ta - u - 0.0)), (Rle_dec 0 (ta - u - 0)); lra.
Qed.

(* ================================================================== *)
(** ** Calcium Saturation Index *)
(* ================================================================== *)

Ltac open_inputs H :=
  rewrite H; cbv beta iota; cbn [require bind].

Lemma calculate_csi_run
    (water : option WaterChemistry) (ph0 t0 ch0 ta0 : option R)
    (cya0 salt0 bor0 pH T CH TA CYA SALT BOR : R) :
  csi_inputs water ph0 t0 ch0 ta0 cya0 salt0 bor0
  = (Some pH, Some T, Some CH, Some TA, CYA, SALT, BOR) ->
  0 < CH ->
  0 < carbonate_alkalinity_spec TA CYA pH BOR ->
  0 <= calculate_ionic_strength CH TA SALT ->
  (T - 32) * 5 / 9 + 273.15 <> 0 ->
  calculate_csi water ph0 t0 ch0 ta0 cya0 salt0 bor0
  = Ok (pH - 11.677 + log10 CH
        + log10 (carbonate_alkalinity_spec TA CYA pH BOR)
        - (2.56 * sqrt (calculate_ionic_strength CH TA SALT))
          / (1 + 1.65 * sqrt (calculate_ionic_strength CH TA SALT))
        - 1412.5 / ((T - 32) * 5 / 9 + 273.15) + 4.7375).
Proof.
  intros Hin Hch Hcarb Hion Htemp.
  unfold calculate_csi. open_inputs Hin.
  rewrite Rle_dec_false by lra.
  rewrite carbonate_alkalinity_spec_ok. cbn [bind].
  rewrite Rle_dec_false by lra.
  unfold math_sqrt. rewrite Rle_dec_true by lra. cbn [bind].
  pose proof (sqrt_pos (calculate_ionic_strength CH TA SALT)) as Hs.
  rewrite py_truediv_ok
    by (unfold CSI_IONIC_DENOMINATOR_COEFFICIENT; lra).
  cbn [bind]. rewrite py_truediv_ok by exact Htemp. cbn [bind].
  unfold math_log10. rewrite !Rlt_dec_true by lra. cbn [bind].
  reflexivity.
Qed.

Lemma carbonate_alkalinity_spec_pos (ta cya ph b : R) :
  0 <= cya -> b <= 0 -> 0.38772 * cya < ta ->
  0 < carbonate_alkalinity_spec ta cya ph b.
Proof.
  intros Hc Hb Hta. unfold carbonate_alkalinity_spec.
  rewrite Rlt_dec_false by lra.
  pose proof (pow10_pos (6.83 - ph)) as Hp.
  assert (Hq : 0.38772 * cya / (1 + pow10 (6.83 - ph)) <= 0.38772 * cya).
  { apply Rmult_le_reg_r with (1 + pow10 (6.83 - ph)); [lra |].
    unfold Rdiv. rewrite Rmult_assoc, Rinv_l by lra. nra. }
  unfold Rmax.
  destruct (Rle_dec 0 (ta - 0.38772 * cya / (1 + pow10 (6.83 - ph)) - 0)); lra.
Qed.

Lemma ionic_strength_nonneg (ch ta s : R) :
  0 <= ch -> 0 <= ta -> 0 <= calculate_ionic_strength ch ta s.
Proof.
  intros Hch Hta. unfold calculate_ionic_strength, IONIC_CH_COEFFICIENT,
    IONIC_TA_COEFFICIENT, IONIC_DIVISOR, IONIC_NACL_DIVISOR.
  cbv zeta.
  pose proof (Rmax_l 0.0 (s - CH_TO_NACL_RATIO * ch)). lra.
Qed.






(* ================================================================== *)
(** ** Langelier Saturation Index *)
(* ================================================================== *)

Lemma cya_factor_below (x : R) :
  x <= 7.0 -> get_cya_correction_factor x = Ok 0.22.
Proof. intros Hx. run_cya. reflexivity. Qed.

Lemma cya_factor_above (x : R) :
  8.0 <= x -> get_cya_correction_factor x = Ok 0.38.
Proof. intros Hx. run_cya. reflexivity. Qed.

Lemma cya_factor_between (x1 y1 x2 y2 x : R) :
  In ((x1, y1), (x2, y2)) (adjacent_pairs CYA_CORRECTION_TABLE) ->
  x1 <= x < x2 ->
  get_cya_correction_factor x = Ok (y1 + (y2 - y1) * (x - x1) / (x2 - x1)).
Proof.
  intros Hin Hx. unfold CYA_CORRECTION_TABLE in Hin.
  cbn [adjacent_pairs In] in Hin.
  repeat (destruct Hin as [Hin | Hin];
          [inversion Hin; subst; clear Hin |]); try contradiction.
  all: run_cya.
  all: f_equal; lra.
Qed.

Lemma cya_factor_total (x : R) :
  exists y, get_cya_correction_factor x = Ok y.
Proof.
  destruct (Rle_lt_dec x 7.0) as [H | H].
  { eexists. apply cya_factor_below. exact H. }
  destruct (Rle_lt_dec 8.0 x) as [H' | H'].
  { eexists. apply cya_factor_above. exact H'. }
  destruct (Rlt_le_dec x 7.2);
    [eexists; apply (cya_factor_between 7.0 0.22 7.2 0.27); [pick_pair | lra] |].
  destruct (Rlt_le_dec x 7.4);
    [eexists; apply (cya_factor_between 7.2 0.27 7.4 0.31); [pick_pair | lra] |].
  destruct (Rlt_le_dec x 7.5);
    [eexists; apply (cya_factor_between 7.4 0.31 7.5 0.33); [pick_pair | lra] |].
  destruct (Rlt_le_dec x 7.6);
    [eexists; apply (cya_factor_between 7.5 0.33 7.6 0.33); [pick_pair | lra] |].
  destruct (Rlt_le_dec x 7.8);
    [eexists; apply (cya_factor_between 7.6 0.33 7.8 0.35); [pick_pair | lra] |].
  eexists; apply (cya_factor_between 7.8 0.35 8.0 0.38); [pick_pair | lra].
Qed.

Lemma calculate_lsi_run
    (water : option WaterChemistry) (ph0 t0 ch0 ta0 : option R)
    (cya0 tds0 pH T CH TA CYA f tf : R) :
  lsi_inputs water ph0 t0 ch0 ta0 cya0 = (Some pH, Some T, Some CH, Some TA, CYA) ->
  0 < CH ->
  get_cya_correction_factor pH = Ok f ->
  calculate_temperature_factor T = Ok tf ->
  0 < TA - CYA * f ->
  calculate_lsi water ph0 t0 ch0 ta0 cya0 tds0
  = Ok (pH + tf + log10 CH + log10 (TA - CYA * f) - 12.1).
Proof.
  intros Hin Hch Hf Htf Hcarb.
  unfold calculate_lsi. open_inputs Hin.
  rewrite Rle_dec_false by lra.
  rewrite Hf. cbn [bind]. cbv zeta.
  rewrite Rle_dec_false by lra.
  rewrite Htf. cbn [bind].
  unfold math_log10. rewrite !Rlt_dec_true by lra. cbn [bind].
  reflexivity.
Qed.

(** C2.  [get_cya_correction_factor] interpolates the table
    {7.0: 0.22, 7.2: 0.27, 7.4: 0.31, 7.5: 0.33, 7.6: 0.33, 7.8: 0.35,
    8.0: 0.38} (flat outside it, linear between adjacent entries) and,
    with pH, temperature, calcium hardness and total alkalinity present,
    calcium hardness > 0 and TA - CYA * factor(pH) > 0, [calculate_lsi]
    returns exactly
    pH + temperature_factor(T_F) + log10 CH
       + log10 (TA - CYA * factor(pH)) - 12.1. *)
Theorem calculate_lsi_formula
    (water : option WaterChemistry) (ph0 t0 ch0 ta0 : option R)
    (cya0 tds0 pH T CH TA CYA : R) :
  lsi_inputs water ph0 t0 ch0 ta0 cya0 = (Some pH, Some T, Some CH, Some TA, CYA) ->
  0 < CH ->
  CYA_CORRECTION_TABLE
  = [ (7.0, 0.22); (7.2, 0.27); (7.4, 0.31); (7.5, 0.33);
      (7.6, 0.33); (7.8, 0.35); (8.0, 0.38) ]
  /\ (forall x, x <= 7.0 -> get_cya_correction_factor x = Ok 0.22)
  /\ (forall x, 8.0 <= x -> get_cya_correction_factor x = Ok 0.38)
  /\ (forall x1 y1 x2 y2 x,
        In ((x1, y1), (x2, y2)) (adjacent_pairs CYA_CORRECTION_TABLE) ->
        x1 <= x < x2 ->
        get_cya_correction_factor x
        = Ok (y1 + (y2 - y1) * (x - x1) / (x2 - x1)))
  /\ exists f tf,
       get_cya_correction_factor pH = Ok f
       /\ calculate_temperature_factor T = Ok tf
       /\ (0 < TA - CYA * f ->
           calculate_lsi water ph0 t0 ch0 ta0 cya0 tds0
           = Ok (pH + tf + log10 CH + log10 (TA - CYA * f) - 12.1)).
Proof.
  intros Hin Hch.
  split; [reflexivity |].
  split; [exact cya_factor_below |].
  split; [exact cya_factor_above |].
  split; [exact cya_factor_between |].
  destruct (cya_factor_total pH) as [f Hf].
  destruct (temperature_total T) as [tf Htf].
  exists f, tf. split; [exact Hf |]. split; [exact Htf |].
  intros Hcarb. eapply calculate_lsi_run; eassumption.
Qed.

Lemma calculate_lsi_formula_witness :
  calculate_lsi None (Some 7.5) (Some 84) (Some 300) (Some 80) 30 1000
  = Ok (7.5 + 0.7 + log10 300 + log10 (80 - 30 * 0.33) - 12.1).
Proof.
  destruct (calculate_lsi_formula None (Some 7.5) (Some 84) (Some 300)
              (Some 80) 30 1000 7.5 84 300 80 30)
    as (_ & _ & _ & _ & f & tf & Hf & Htf & Hrun).
  - reflexivity.
  - lra.
  - assert (Ef : get_cya_correction_factor 7.5 = Ok 0.33)
      by (run_cya; f_equal; lra).
    assert (Etf : calculate_temperature_factor 84 = Ok 0.7)
      by (unfold calculate_temperature_factor; run_temperature; f_equal; lra).
    rewrite Ef in Hf. rewrite Etf in Htf.
    injection Hf as <-. injection Htf as <-.
    apply Hrun. lra.
Defined.

(* ================================================================== *)
(** ** Error behaviour of the index functions *)
(* ================================================================== *)




Lemma calculate_lsi_present
    (water : option WaterChemistry) (ph0 t0 ch0 ta0 : option R)
    (cya0 tds0 pH T CH TA CYA f : R) :
  lsi_inputs water ph0 t0 ch0 ta0 cya0 = (Some pH, Some T, Some CH, Some TA, CYA) ->
  get_cya_correction_factor pH = Ok f ->
  (CH <= 0 ->
     calculate_lsi water ph0 t0 ch0 ta0 cya0 tds0
     = Raise (CalculationError "Calcium hardness must be greater than 0"))
  /\ (0 < CH -> TA - CYA * f <= 0 ->
        calculate_lsi water ph0 t0 ch0 ta0 cya0 tds0
        = Raise (CalculationError
            "Carbonate alkalinity is too low (CYA correction exceeds TA)"))
  /\ (0 < CH -> 0 < TA - CYA * f ->
        returns_value (calculate_lsi water ph0 t0 ch0 ta0 cya0 tds0)).
Proof.
  intros Hin Hf. split; [| split].
  - intros Hch. unfold calculate_lsi. open_inputs Hin.
    rewrite Rle_dec_true by lra. reflexivity.
  - intros Hch Hcarb. unfold calculate_lsi. open_inputs Hin.
    rewrite Rle_dec_false by lra. rewrite Hf. cbn [bind]. cbv zeta.
    rewrite Rle_dec_true by lra. reflexivity.
  - intros Hch Hcarb. destruct (temperature_total T) as [tf Htf].
    eexists. eapply calculate_lsi_run; eassumption.
Qed.










(* ================================================================== *)
(** ** FC/CYA thresholds *)
(* ================================================================== *)





(* ================================================================== *)
(** ** The chemical registry *)
(* ================================================================== *)

Lemma get_chemical_member (t : ChemicalType) :
  exists c, get_chemical (ChemicalType_value t) = Ok c
            /\ Chem.chemical_type c = t.
Proof.
  destruct t; (eexists; split; [reflexivity | reflexivity]).
Qed.

Lemma find_key_in (key : string) (l : list (ChemicalType * Chemical))
    (e : ChemicalType * Chemical) :
  find (fun e => String.eqb (ChemicalType_value (fst e)) key) l = Some e ->
  ChemicalType_value (fst e) = key.
Proof.
  intros H. apply find_some in H. destruct H as [_ H].
  apply String.eqb_eq. exact H.
Qed.

Lemma get_chemical_not_found (key : string) (e : exn) :
  get_chemical key = Raise e ->
  e = ChemicalNotFoundError ("Chemical type not found: " ++ key)
  /\ forall t, ChemicalType_value t <> key.
Proof.
  unfold get_chemical.
  destruct (find (fun e => String.eqb (ChemicalType_value (fst e)) key) CHEMICALS)
    as [c |] eqn:Hfind; [discriminate |].
  intros H. injection H as <-. split; [reflexivity |].
  intros t Ht. subst key.
  destruct (get_chemical_member t) as (c & Hc & _).
  unfold get_chemical in Hc. rewrite Hfind in Hc. discriminate Hc.
Qed.

(** C10.  The registry covers the enumeration: for every member of
    [ChemicalType], [get_chemical] returns a descriptor whose
    [chemical_type] is that member; whenever [get_chemical] raises, the
    error is the not-found error and the key is the value of no member. *)
Theorem registry_covers_enumeration :
  (forall t : ChemicalType,
     exists c, get_chemical (ChemicalType_value t) = Ok c
               /\ Chem.chemical_type c = t)
  /\ (forall t e, get_chemical (ChemicalType_value t) <> Raise e)
  /\ (forall key e,
        get_chemical key = Raise e ->
        e = ChemicalNotFoundError ("Chemical type not found: " ++ key)
        /\ forall t, ChemicalType_value t <> key)
  /\ get_chemical "chlorine_tablets"
     = Raise (ChemicalNotFoundError "Chemical type not found: chlorine_tablets").
Proof.
  split; [exact get_chemical_member |].
  split.
  { intros t e H. destruct (get_chemical_member t) as (c & Hc & _).
    rewrite Hc in H. discriminate H. }
  split; [exact get_chemical_not_found |].
  reflexivity.
Qed.

(* ================================================================== *)
(** ** Decimal rounding *)
(* ================================================================== *)

Lemma round_half_even_cases (x : R) :
  (round_half_even x = Zfloor x /\ x - IZR (Zfloor x) <= 1 / 2)
  \/ (round_half_even x = (Zfloor x + 1)%Z /\ 1 / 2 <= x - IZR (Zfloor x)).
Proof.
  unfold round_half_even. cbv zeta.
  destruct (Rlt_dec (x - IZR (Zfloor x)) (1 / 2)); [left; split; [reflexivity | lra] |].
  destruct (Rlt_dec (1 / 2) (x - IZR (Zfloor x)));
    [right; split; [reflexivity | lra] |].
  destruct (Z.even (Zfloor x)); [left | right]; split; try reflexivity; lra.
Qed.

Lemma round_half_even_error (x : R) :
  Rabs (IZR (round_half_even x) - x) <= 1 / 2.
Proof.
  pose proof (Zfloor_bound x) as Hb.
  destruct (round_half_even_cases x) as [[-> H] | [-> H]].
  - apply Rabs_le. lra.
  - rewrite plus_IZR. apply Rabs_le. lra.
Qed.

Lemma round_half_even_mono (x y : R) :
  x <= y -> (round_half_even x <= round_half_even y)%Z.
Proof.
  intros Hxy. pose proof (Zfloor_le x y Hxy) as Hf.
  destruct (Z.eq_dec (Zfloor x) (Zfloor y)) as [E | NE].
  - unfold round_half_even. cbv zeta. rewrite E.
    destruct (Rlt_dec (x - IZR (Zfloor y)) (1 / 2)),
             (Rlt_dec (y - IZR (Zfloor y)) (1 / 2)),
             (Rlt_dec (1 / 2) (x - IZR (Zfloor y))),
             (Rlt_dec (1 / 2) (y - IZR (Zfloor y)));
      try lia; try (exfalso; lra);
      destruct (Z.even (Zfloor y)); lia.
  - destruct (round_half_even_cases x) as [[-> _] | [-> _]];
      destruct (round_half_even_cases y) as [[-> _] | [-> _]]; lia.
Qed.

Lemma round_half_even_IZR (z : Z) : round_half_even (IZR z) = z.
Proof.
  unfold round_half_even. cbv zeta. rewrite ZfloorZ.
  rewrite Rlt_dec_true by lra. reflexivity.
Qed.

Lemma round_half_even_down (x : R) (z : Z) :
  IZR z <= x < IZR z + 1 / 2 -> round_half_even x = z.
Proof.
  intros H. unfold round_half_even. cbv zeta.
  rewrite (Zfloor_eq z x) by lra. rewrite Rlt_dec_true by lra. reflexivity.
Qed.

Lemma round_half_even_up (x : R) (z : Z) :
  IZR z + 1 / 2 < x < IZR z + 1 -> round_half_even x = (z + 1)%Z.
Proof.
  intros H. unfold round_half_even. cbv zeta.
  rewrite (Zfloor_eq z x) by lra.
  rewrite Rlt_dec_false by lra. rewrite Rlt_dec_true by lra. reflexivity.
Qed.

Lemma pow10_nat_pos (n : nat) : 0 < 10 ^ n.
Proof. apply pow_lt. lra. Qed.

Lemma Rabs_le_bounds (a b : R) : Rabs a <= b -> - b <= a <= b.
Proof. unfold Rabs. destruct (Rcase_abs a); lra. Qed.

Lemma py_round_error (x : R) (n : nat) :
  Rabs (py_round x n - x) <= 1 / 2 / 10 ^ n.
Proof.
  unfold py_round. pose proof (pow10_nat_pos n) as Hp.
  pose proof (Rabs_le_bounds _ _ (round_half_even_error (x * 10 ^ n))) as He.
  set (k := IZR (round_half_even (x * 10 ^ n))) in *.
  set (p := 10 ^ n) in *.
  apply Rabs_le. split.
  - apply Rmult_le_reg_r with p; [exact Hp |].
    replace ((k / p - x) * p) with (k - x * p) by (field; lra).
    replace (- (1 / 2 / p) * p) with (- (1 / 2)) by (field; lra). lra.
  - apply Rmult_le_reg_r with p; [exact Hp |].
    replace ((k / p - x) * p) with (k - x * p) by (field; lra).
    replace (1 / 2 / p * p) with (1 / 2) by (field; lra). lra.
Qed.

Lemma py_round_mono (x y : R) (n : nat) :
  x <= y -> py_round x n <= py_round y n.
Proof.
  intros Hxy. unfold py_round. pose proof (pow10_nat_pos n) as Hp.
  unfold Rdiv. apply Rmult_le_compat_r.
  - left. apply Rinv_0_lt_compat. exact Hp.
  - apply IZR_le. apply round_half_even_mono.
    apply Rmult_le_compat_r; lra.
Qed.

Lemma py_round_IZR (z : Z) (n : nat) : py_round (IZR z) n = IZR z.
Proof.
  unfold py_round. pose proof (pow10_nat_pos n) as Hp.
  replace (IZR z * 10 ^ n) with (IZR (z * 10 ^ Z.of_nat n)).
  - rewrite round_half_even_IZR. rewrite mult_IZR.
    rewrite <- pow_IZR. field. lra.
  - rewrite mult_IZR. rewrite <- pow_IZR. reflexivity.
Qed.

Lemma py_round_nonneg (x : R) (n : nat) : 0 <= x -> 0 <= py_round x n.
Proof.
  intros Hx. rewrite <- (py_round_IZR 0 n). apply py_round_mono. exact Hx.
Qed.

(* ================================================================== *)
(** ** Dosing *)
(* ================================================================== *)

Lemma multiplier_pos (t : ChemicalType) (c : Chemical) :
  get_chemical (ChemicalType_value t) = Ok c -> 0 < Chem.multiplier c.
Proof.
  destruct t; intros H; injection H as <-; cbn [Chem.multiplier snd]; lra.
Qed.

Lemma dose_result_let {A : Type} (p : option R * option string)
    (k : option R -> option string -> A) :
  (let '(a, b) := p in k a b) = k (fst p) (snd p).
Proof. destruct p. reflexivity. Qed.

Lemma calculate_chlorine_dose_amount (cur tgt v : R) (t : ChemicalType) :
  cur < tgt ->
  exists c d,
    get_chemical (ChemicalType_value t) = Ok c
    /\ calculate_chlorine_dose cur tgt v t = Ok d
    /\ Dose.amount d = py_round ((tgt - cur) * v / Chem.multiplier c) 2.
Proof.
  intros Hlt. destruct (get_chemical_member t) as (c & Hc & _).
  pose proof (multiplier_pos t c Hc) as Hm.
  unfold calculate_chlorine_dose. rewrite Hc. cbn [bind]. cbv zeta.
  rewrite Rle_dec_false by lra.
  rewrite py_truediv_ok by lra. cbn [bind].
  rewrite dose_result_let.
  exists c. eexists. split; [reflexivity |]. split; reflexivity.
Qed.

Lemma simple_dose_amount (already : string) (cur tgt v : R) (t : ChemicalType) :
  cur < tgt ->
  exists c d,
    get_chemical (ChemicalType_value t) = Ok c
    /\ simple_dose already cur tgt v t = Ok d
    /\ Dose.amount d = py_round ((tgt - cur) * v / Chem.multiplier c) 2.
Proof.
  intros Hlt. destruct (get_chemical_member t) as (c & Hc & _).
  pose proof (multiplier_pos t c Hc) as Hm.
  unfold simple_dose. rewrite Hc. cbn [bind]. cbv zeta.
  rewrite Rle_dec_false by lra.
  rewrite py_truediv_ok by lra. cbn [bind].
  rewrite dose_result_let.
  exists c. eexists. split; [reflexivity |]. split; reflexivity.
Qed.

Lemma calculate_borate_dose_amount (cur tgt v : R) (t : ChemicalType) :
  cur < tgt ->
  exists c d,
    get_chemical (ChemicalType_value t) = Ok c
    /\ calculate_borate_dose cur tgt v t = Ok d
    /\ Dose.amount d = py_round ((tgt - cur) * v / Chem.multiplier c) 2.
Proof.
  intros Hlt. destruct (get_chemical_member t) as (c & Hc & _).
  pose proof (multiplier_pos t c Hc) as Hm.
  unfold calculate_borate_dose. rewrite Hc. cbn [bind]. cbv zeta.
  rewrite Rle_dec_false by lra.
  rewrite py_truediv_ok by lra. cbn [bind].
  rewrite dose_result_let.
  exists c. eexists. split; [reflexivity |]. split; reflexivity.
Qed.

Lemma calculate_salt_dose_amount (cur tgt v : R) :
  cur < tgt ->
  exists c d,
    get_chemical (ChemicalType_value POOL_SALT) = Ok c
    /\ calculate_salt_dose cur tgt v = Ok d
    /\ Dose.amount d = py_round ((tgt - cur) * v / Chem.multiplier c / 16) 1.
Proof.
  intros Hlt. destruct (get_chemical_member POOL_SALT) as (c & Hc & _).
  pose proof (multiplier_pos POOL_SALT c Hc) as Hm.
  unfold calculate_salt_dose. rewrite Hc. cbn [bind]. cbv zeta.
  rewrite Rle_dec_false by lra.
  rewrite py_truediv_ok by lra. cbn [bind].
  exists c. eexists. split; [reflexivity |]. split; reflexivity.
Qed.

Lemma run_dose_amount (f : dosing_function) (cur tgt v : R) (t : ChemicalType) :
  cur < tgt ->
  exists c d,
    get_chemical (ChemicalType_value (dose_chemical f t)) = Ok c
    /\ run_dose f cur tgt v t = Ok d
    /\ Dose.amount d = py_round (unrounded_dose f c cur tgt v) (dose_digits f).
Proof.
  intros Hlt. destruct f; cbn [run_dose dose_chemical dose_digits unrounded_dose].
  - apply calculate_chlorine_dose_amount; exact Hlt.
  - apply simple_dose_amount; exact Hlt.
  - apply simple_dose_amount; exact Hlt.
  - apply simple_dose_amount; exact Hlt.
  - apply calculate_salt_dose_amount; exact Hlt.
  - apply calculate_borate_dose_amount; exact Hlt.
Qed.

Lemma unrounded_dose_double (f : dosing_function) (c : Chemical) (cur tgt v : R) :
  unrounded_dose f c cur tgt (2 * v) = 2 * unrounded_dose f c cur tgt v.
Proof. destruct f; unfold unrounded_dose, Rdiv; ring. Qed.

Lemma rounded_double_bound (x : R) (n : nat) :
  Rabs (py_round (2 * x) n - 2 * py_round x n) <= 3 / 2 / 10 ^ n.
Proof.
  pose proof (Rabs_le_bounds _ _ (py_round_error x n)) as H1.
  pose proof (Rabs_le_bounds _ _ (py_round_error (2 * x) n)) as H2.
  pose proof (pow10_nat_pos n) as Hp.
  replace (3 / 2 / 10 ^ n) with (1 / 2 / 10 ^ n + 2 * (1 / 2 / 10 ^ n))
    by (field; lra).
  apply Rabs_le. lra.
Qed.

Lemma py_round_2_down (x : R) (z : Z) :
  IZR z <= x * 100 < IZR z + 1 / 2 -> py_round x 2 = IZR z / 100.
Proof.
  intros H. unfold py_round.
  replace (10 ^ 2) with 100 by (cbn [pow]; lra).
  rewrite (round_half_even_down _ z) by exact H. reflexivity.
Qed.

Lemma py_round_2_up (x : R) (z : Z) :
  IZR z + 1 / 2 < x * 100 < IZR z + 1 -> py_round x 2 = IZR (z + 1) / 100.
Proof.
  intros H. unfold py_round.
  replace (10 ^ 2) with 100 by (cbn [pow]; lra).
  rewrite (round_half_even_up _ z) by exact H. reflexivity.
Qed.

(** C7, as stated, fails: raising free chlorine from 1 to 2 ppm with
    12.5% bleach takes 10.004 fl oz in 12,505 gallons, returned as
    10.0, and 20.008 fl oz in 25,010 gallons, returned as 20.01. *)
Lemma chlorine_dose_doubling_fails :
  exists d1 d2,
    calculate_chlorine_dose 1 2 12505 BLEACH_12_5 = Ok d1
    /\ calculate_chlorine_dose 1 2 (2 * 12505) BLEACH_12_5 = Ok d2
    /\ Dose.amount d1 = 10
    /\ Dose.amount d2 = 20.01
    /\ Dose.amount d2 <> 2 * Dose.amount d1.
Proof.
  destruct (calculate_chlorine_dose_amount 1 2 12505 BLEACH_12_5)
    as (c1 & d1 & Hc1 & Hd1 & Ha1); [lra |].
  destruct (calculate_chlorine_dose_amount 1 2 (2 * 12505) BLEACH_12_5)
    as (c2 & d2 & Hc2 & Hd2 & Ha2); [lra |].
  injection Hc1 as <-. injection Hc2 as <-.
  cbn [Chem.multiplier snd] in Ha1, Ha2.
  rewrite (py_round_2_down _ 1000) in Ha1 by lra.
  rewrite (py_round_2_up _ 2000) in Ha2 by lra.
  exists d1, d2. split; [exact Hd1 |]. split; [exact Hd2 |].
  assert (E1 : Dose.amount d1 = 10) by (rewrite Ha1; lra).
  assert (E2 : Dose.amount d2 = 20.01)
    by (rewrite Ha2; change (2000 + 1)%Z with 2001%Z; lra).
  split; [exact E1 |]. split; [exact E2 |].
  rewrite E1, E2. lra.
Qed.

(** C7 (amended).  For each of the six non-pH dosing functions, every
    current < target and every pool volume v > 0, the dose before
    rounding is exactly doubled when the volume is doubled; the amount
    returned is that dose rounded to 2 decimals (1 decimal, in pounds,
    for salt), so the amount returned for 2 v differs from twice the
    amount returned for v by at most 1.5 units of the last decimal. *)
Theorem dose_doubles_with_volume
    (f : dosing_function) (cur tgt v : R) (t : ChemicalType) :
  cur < tgt -> 0 < v ->
  exists c d1 d2,
    get_chemical (ChemicalType_value (dose_chemical f t)) = Ok c
    /\ run_dose f cur tgt v t = Ok d1
    /\ run_dose f cur tgt (2 * v) t = Ok d2
    /\ Dose.amount d1 = py_round (unrounded_dose f c cur tgt v) (dose_digits f)
    /\ Dose.amount d2
       = py_round (unrounded_dose f c cur tgt (2 * v)) (dose_digits f)
    /\ unrounded_dose f c cur tgt (2 * v) = 2 * unrounded_dose f c cur tgt v
    /\ Rabs (Dose.amount d2 - 2 * Dose.amount d1) <= 3 / 2 / 10 ^ dose_digits f.
Proof.
  intros Hlt Hv.
  destruct (run_dose_amount f cur tgt v t Hlt) as (c & d1 & Hc & Hd1 & Ha1).
  destruct (run_dose_amount f cur tgt (2 * v) t Hlt) as (c' & d2 & Hc' & Hd2 & Ha2).
  rewrite Hc in Hc'. injection Hc' as <-.
  exists c, d1, d2.
  split; [exact Hc |]. split; [exact Hd1 |]. split; [exact Hd2 |].
  split; [exact Ha1 |]. split; [exact Ha2 |].
  split; [apply unrounded_dose_double |].
  rewrite Ha1, Ha2, unrounded_dose_double. apply rounded_double_bound.
Qed.

Lemma dose_doubles_with_volume_witness :
  exists c d1 d2,
    get_chemical (ChemicalType_value BAKING_SODA) = Ok c
    /\ calculate_alkalinity_dose 60 80 15000 BAKING_SODA = Ok d1
    /\ calculate_alkalinity_dose 60 80 (2 * 15000) BAKING_SODA = Ok d2
    /\ unrounded_dose AlkalinityDose c 60 80 (2 * 15000)
       = 2 * unrounded_dose AlkalinityDose c 60 80 15000
    /\ Rabs (Dose.amount d2 - 2 * Dose.amount d1) <= 3 / 2 / 10 ^ 2.
Proof.
  destruct (dose_doubles_with_volume AlkalinityDose 60 80 15000 BAKING_SODA)
    as (c & d1 & d2 & Hc & Hd1 & Hd2 & _ & _ & Hdbl & Hbound); [lra | lra |].
  exists c, d1, d2. repeat split; assumption.
Defined.

(* ================================================================== *)
(** ** pH dosing *)
(* ================================================================== *)

(** The temperature polynomial of the adjustment factor is positive over
    the temperature range of the water model. *)
Lemma ph_temperature_polynomial_pos (T : R) :
  32 <= T <= 120 ->
  0 < 192.1626 - 60.1221 * ((T - 60) / 20) + 6.0752 * ((T - 60) / 20) ^ 2
      - 0.1943 * ((T - 60) / 20) ^ 3.
Proof.
  intros HT. set (t := (T - 60) / 20).
  assert (Ht : -1.4 <= t <= 3) by (unfold t; lra).
  assert (H2 : 0 <= t ^ 2) by (apply pow2_ge_0).
  assert (H3 : t ^ 3 <= 27).
  { replace (t ^ 3) with (t * t ^ 2) by ring.
    assert (t ^ 2 <= 9) by nra.
    destruct (Rle_lt_dec t 0); nra. }
  lra.
Qed.

Lemma ph_adjustment_factor_lt (T ta1 ta2 : R) :
  32 <= T <= 120 -> ta1 < ta2 ->
  _calculate_ph_adjustment_factor T ta1 < _calculate_ph_adjustment_factor T ta2.
Proof.
  intros HT Hta. unfold _calculate_ph_adjustment_factor. cbv zeta.
  pose proof (ph_temperature_polynomial_pos T HT) as HP.
  set (P := 192.1626 - 60.1221 * ((T - 60) / 20) + 6.0752 * ((T - 60) / 20) ^ 2
            - 0.1943 * ((T - 60) / 20) ^ 3) in *.
  unfold Rdiv. nra.
Qed.

(** The base amount in closed form. *)
Lemma ph_dose_base_amount_eq (ph_change ta T b : R) (raise_ph : bool)
    (c : Chemical) :
  0 < Chem.multiplier c ->
  ph_dose_base_amount ph_change ta T b raise_ph c
  = Ok (Rabs (ph_change * _calculate_ph_adjustment_factor T ta
              + _calculate_borate_correction T b ph_change)
        / Chem.multiplier c).
Proof.
  intros Hm. unfold ph_dose_base_amount. cbv zeta.
  set (delta := ph_change * _calculate_ph_adjustment_factor T ta).
  set (extra := _calculate_borate_correction T b ph_change).
  set (m := Chem.multiplier c) in *.
  destruct raise_ph; rewrite !py_truediv_ok by lra; cbn [bind]; f_equal.
  - replace (delta / m + extra / m) with ((delta + extra) / m) by (field; lra).
    unfold Rdiv. rewrite Rabs_mult.
    rewrite (Rabs_right (/ m)); [reflexivity |].
    apply Rle_ge. left. apply Rinv_0_lt_compat. exact Hm.
  - replace (delta / - m + extra / - m) with (- ((delta + extra) / m))
      by (field; lra).
    rewrite Rabs_Ropp. unfold Rdiv. rewrite Rabs_mult.
    rewrite (Rabs_right (/ m)); [reflexivity |].
    apply Rle_ge. left. apply Rinv_0_lt_compat. exact Hm.
Qed.

Lemma calculate_ph_dose_amount (cur tgt v ta T b : R) (rp : option bool)
    (ct : option ChemicalType) :
  0.01 <= Rabs (tgt - cur) ->
  exists c d,
    get_chemical (ChemicalType_value
                    (ph_chemical_type ct (ph_direction rp (tgt - cur)))) = Ok c
    /\ calculate_ph_dose cur tgt v ta T b rp ct = Ok d
    /\ Dose.amount d
       = py_round (Rabs ((tgt - cur) * _calculate_ph_adjustment_factor T ta
                         + _calculate_borate_correction T b (tgt - cur))
                   / Chem.multiplier c * v / 10000) 2.
Proof.
  intros Hchange.
  destruct (get_chemical_member
              (ph_chemical_type ct (ph_direction rp (tgt - cur))))
    as (c & Hc & _).
  pose proof (multiplier_pos _ c Hc) as Hm.
  unfold calculate_ph_dose. cbv zeta. rewrite Hc. cbn [bind].
  rewrite Rlt_dec_false by lra.
  rewrite ph_dose_base_amount_eq by exact Hm. cbn [bind].
  rewrite dose_result_let.
  exists c. eexists. split; [reflexivity |]. split; reflexivity.
Qed.

Lemma Rabs_neg_eq (x : R) : x <= 0 -> Rabs x = - x.
Proof. intros H. unfold Rabs. destruct (Rcase_abs x); lra. Qed.

(** With borates the correction term has the sign opposite to the base
    demand and can outweigh it: lowering pH from 7.8 to 7.5 in 10,000
    gallons at 80 F with 50 ppm borates returns 0.07 fl oz at TA 80 and
    0.04 fl oz at TA 100. *)
Lemma acid_dose_decreases_with_borates :
  exists d1 d2,
    calculate_ph_dose 7.8 7.5 10000 80 80 50 None None = Ok d1
    /\ calculate_ph_dose 7.8 7.5 10000 100 80 50 None None = Ok d2
    /\ Dose.amount d1 = 0.07
    /\ Dose.amount d2 = 0.04.
Proof.
  assert (Hchange : 0.01 <= Rabs (7.5 - 7.8)) by (rewrite Rabs_neg_eq; lra).
  destruct (calculate_ph_dose_amount 7.8 7.5 10000 80 80 50 None None Hchange)
    as (c1 & d1 & Hc1 & Hd1 & Ha1).
  destruct (calculate_ph_dose_amount 7.8 7.5 10000 100 80 50 None None Hchange)
    as (c2 & d2 & Hc2 & Hd2 & Ha2).
  unfold ph_direction, ph_chemical_type in Hc1, Hc2.
  rewrite Rlt_dec_false in Hc1, Hc2 by lra.
  injection Hc1 as <-. injection Hc2 as <-.
  cbn [Chem.multiplier snd] in Ha1, Ha2.
  unfold _calculate_ph_adjustment_factor, _calculate_borate_correction in Ha1, Ha2.
  cbv zeta in Ha1, Ha2.
  rewrite Rle_dec_false in Ha1, Ha2 by lra.
  rewrite Rabs_pos_eq in Ha1 by lra.
  rewrite Rabs_pos_eq in Ha2 by lra.
  rewrite (py_round_2_down _ 7) in Ha1 by lra.
  rewrite (py_round_2_down _ 4) in Ha2 by lra.
  exists d1, d2. split; [exact Hd1 |]. split; [exact Hd2 |].
  split; [rewrite Ha1; lra | rewrite Ha2; lra].
Qed.

(** Without borates, rounding hides a small increase: the same dose is
    returned as 0.14 fl oz at TA 80 and at TA 81. *)
Lemma acid_dose_same_after_rounding :
  exists d1 d2,
    calculate_ph_dose 7.8 7.5 10000 80 80 0 None None = Ok d1
    /\ calculate_ph_dose 7.8 7.5 10000 81 80 0 None None = Ok d2
    /\ Dose.amount d1 = 0.14
    /\ Dose.amount d2 = 0.14.
Proof.
  assert (Hchange : 0.01 <= Rabs (7.5 - 7.8)) by (rewrite Rabs_neg_eq; lra).
  destruct (calculate_ph_dose_amount 7.8 7.5 10000 80 80 0 None None Hchange)
    as (c1 & d1 & Hc1 & Hd1 & Ha1).
  destruct (calculate_ph_dose_amount 7.8 7.5 10000 81 80 0 None None Hchange)
    as (c2 & d2 & Hc2 & Hd2 & Ha2).
  unfold ph_direction, ph_chemical_type in Hc1, Hc2.
  rewrite Rlt_dec_false in Hc1, Hc2 by lra.
  injection Hc1 as <-. injection Hc2 as <-.
  cbn [Chem.multiplier snd] in Ha1, Ha2.
  unfold _calculate_ph_adjustment_factor, _calculate_borate_correction in Ha1, Ha2.
  cbv zeta in Ha1, Ha2.
  rewrite Rle_dec_true in Ha1, Ha2 by lra.
  rewrite Rabs_neg_eq in Ha1 by lra.
  rewrite Rabs_neg_eq in Ha2 by lra.
  rewrite (py_round_2_down _ 14) in Ha1 by lra.
  rewrite (py_round_2_down _ 14) in Ha2 by lra.
  exists d1, d2. split; [exact Hd1 |]. split; [exact Hd2 |].
  split; [rewrite Ha1; lra | rewrite Ha2; lra].
Qed.

(** C8, as stated, fails: in both cases above the alkalinity was
    strictly increased, with everything else fixed, and the returned
    acid amount did not strictly increase. *)
Lemma acid_dose_not_strictly_increasing :
  (exists d1 d2,
     calculate_ph_dose 7.8 7.5 10000 80 80 50 None None = Ok d1
     /\ calculate_ph_dose 7.8 7.5 10000 100 80 50 None None = Ok d2
     /\ ~ Dose.amount d1 < Dose.amount d2)
  /\ (exists d1 d2,
        calculate_ph_dose 7.8 7.5 10000 80 80 0 None None = Ok d1
        /\ calculate_ph_dose 7.8 7.5 10000 81 80 0 None None = Ok d2
        /\ ~ Dose.amount d1 < Dose.amount d2).
Proof.
  split.
  - destruct acid_dose_decreases_with_borates as (d1 & d2 & H1 & H2 & E1 & E2).
    exists d1, d2. split; [exact H1 |]. split; [exact H2 |].
    rewrite E1, E2. lra.
  - destruct acid_dose_same_after_rounding as (d1 & d2 & H1 & H2 & E1 & E2).
    exists d1, d2. split; [exact H1 |]. split; [exact H2 |].
    rewrite E1, E2. lra.
Qed.

(** C8 (amended).  For an acid dose (target at least 0.01 below the
    current pH), a pool volume > 0, a temperature within the model's
    32..120 F and a borate correction that does not outweigh the base
    demand at the lower alkalinity (delta + extra <= 0 there), strictly
    increasing total alkalinity strictly increases the dose before
    rounding; the amount returned is that dose rounded to 2 decimals and
    does not decrease. *)
Theorem acid_dose_increases_with_alkalinity
    (cur tgt v ta1 ta2 T b : R) (rp : option bool) (ct : option ChemicalType) :
  0.01 <= cur - tgt ->
  ta1 < ta2 ->
  0 < v ->
  32 <= T <= 120 ->
  (tgt - cur) * _calculate_ph_adjustment_factor T ta1
    + _calculate_borate_correction T b (tgt - cur) <= 0 ->
  exists c d1 d2 a1 a2,
    get_chemical (ChemicalType_value
                    (ph_chemical_type ct (ph_direction rp (tgt - cur)))) = Ok c
    /\ ph_dose_base_amount (tgt - cur) ta1 T b (ph_direction rp (tgt - cur)) c
       = Ok a1
    /\ ph_dose_base_amount (tgt - cur) ta2 T b (ph_direction rp (tgt - cur)) c
       = Ok a2
    /\ calculate_ph_dose cur tgt v ta1 T b rp ct = Ok d1
    /\ calculate_ph_dose cur tgt v ta2 T b rp ct = Ok d2
    /\ Dose.amount d1 = py_round (a1 * v / 10000) 2
    /\ Dose.amount d2 = py_round (a2 * v / 10000) 2
    /\ a1 * v / 10000 < a2 * v / 10000
    /\ Dose.amount d1 <= Dose.amount d2.
Proof.
  intros Hchange Hta Hv HT Hsign.
  assert (Habs : 0.01 <= Rabs (tgt - cur)) by (rewrite Rabs_neg_eq; lra).
  destruct (calculate_ph_dose_amount cur tgt v ta1 T b rp ct Habs)
    as (c & d1 & Hc & Hd1 & Ha1).
  destruct (calculate_ph_dose_amount cur tgt v ta2 T b rp ct Habs)
    as (c' & d2 & Hc' & Hd2 & Ha2).
  rewrite Hc in Hc'. injection Hc' as <-.
  pose proof (multiplier_pos _ c Hc) as Hm.
  pose proof (ph_adjustment_factor_lt T ta1 ta2 HT Hta) as Hadj.
  set (extra := _calculate_borate_correction T b (tgt - cur)) in *.
  set (adj1 := _calculate_ph_adjustment_factor T ta1) in *.
  set (adj2 := _calculate_ph_adjustment_factor T ta2) in *.
  assert (Hx : (tgt - cur) * adj2 + extra < (tgt - cur) * adj1 + extra) by nra.
  assert (Hlt : Rabs ((tgt - cur) * adj1 + extra) / Chem.multiplier c * v / 10000
                < Rabs ((tgt - cur) * adj2 + extra) / Chem.multiplier c * v / 10000).
  { rewrite !Rabs_neg_eq by lra.
    assert (Hi : 0 < / Chem.multiplier c) by (apply Rinv_0_lt_compat; exact Hm).
    unfold Rdiv.
    set (i := / Chem.multiplier c) in *.
    assert (H1 : - ((tgt - cur) * adj1 + extra) * i
                 < - ((tgt - cur) * adj2 + extra) * i) by nra.
    nra. }
  exists c, d1, d2.
  exists (Rabs ((tgt - cur) * adj1 + extra) / Chem.multiplier c),
         (Rabs ((tgt - cur) * adj2 + extra) / Chem.multiplier c).
  split; [exact Hc |].
  split; [apply ph_dose_base_amount_eq; exact Hm |].
  split; [apply ph_dose_base_amount_eq; exact Hm |].
  split; [exact Hd1 |]. split; [exact Hd2 |].
  split; [exact Ha1 |]. split; [exact Ha2 |].
  split; [exact Hlt |].
  rewrite Ha1, Ha2. apply py_round_mono. lra.
Qed.

Lemma acid_dose_increases_with_alkalinity_witness :
  exists d1 d2,
    calculate_ph_dose 7.8 7.5 15000 60 80 0 None None = Ok d1
    /\ calculate_ph_dose 7.8 7.5 15000 120 80 0 None None = Ok d2
    /\ Dose.amount d1 <= Dose.amount d2.
Proof.
  destruct (acid_dose_increases_with_alkalinity 7.8 7.5 15000 60 120 80 0
              None None)
    as (c & d1 & d2 & a1 & a2 & _ & _ & _ & Hd1 & Hd2 & _ & _ & _ & Hle).
  - lra.
  - lra.
  - lra.
  - lra.
  - unfold _calculate_ph_adjustment_factor, _calculate_borate_correction.
    cbv zeta. rewrite Rle_dec_true by lra. lra.
  - exists d1, d2. repeat split; assumption.
Defined.

(* ================================================================== *)
(** ** Effect prediction *)
(* ================================================================== *)

Lemma WaterChemistry_new_ok
    (ph temperature_f free_chlorine combined_chlorine total_alkalinity
     calcium_hardness cyanuric_acid salt borates tds : R) :
  WaterChemistry_valid
    (mkWaterChemistry ph temperature_f free_chlorine combined_chlorine
       total_alkalinity calcium_hardness cyanuric_acid salt borates tds) ->
  WaterChemistry_new ph temperature_f free_chlorine combined_chlorine
    total_alkalinity calcium_hardness cyanuric_acid salt borates tds
  = Ok (mkWaterChemistry ph temperature_f free_chlorine combined_chlorine
          total_alkalinity calcium_hardness cyanuric_acid salt borates tds).
Proof.
  unfold WaterChemistry_valid. cbn.
  intros ([? ?] & [? ?] & ? & ? & ? & ? & ? & ? & ? & ?).
  unfold WaterChemistry_new, in_range, nonneg.
  rewrite !Rle_dec_true by assumption. reflexivity.
Qed.

Lemma round_clamped_nonneg (x : R) (n : nat) : 0 <= py_round (Rmax 0 x) n.
Proof. apply py_round_nonneg. apply Rmax_l. Qed.

Lemma round_clamped_ph (x : R) : 0 <= py_round (Rmax 0 (Rmin 14 x)) 2 <= 14.
Proof.
  split; [apply round_clamped_nonneg |].
  rewrite <- (py_round_IZR 14 2) at 2. apply py_round_mono.
  apply Rmax_lub; [lra | apply Rmin_l].
Qed.

(** C9.  For every valid water state, chemical, amount and pool volume
    > 0, [predict_effect] returns a state whose free chlorine, combined
    chlorine, total alkalinity, calcium hardness, cyanuric acid, salt and
    borates are >= 0, whose pH lies in [0, 14], and whose temperature and
    TDS are those of the input state. *)
Theorem predict_effect_ranges
    (w : WaterChemistry) (t : ChemicalType) (amount_oz pool_gallons : R) :
  WaterChemistry_valid w ->
  0 < pool_gallons ->
  exists w',
    predict_effect w t amount_oz pool_gallons = Ok w'
    /\ 0 <= Water.free_chlorine w'
    /\ 0 <= Water.combined_chlorine w'
    /\ 0 <= Water.total_alkalinity w'
    /\ 0 <= Water.calcium_hardness w'
    /\ 0 <= Water.cyanuric_acid w'
    /\ 0 <= Water.salt w'
    /\ 0 <= Water.borates w'
    /\ 0 <= Water.ph w' <= 14
    /\ Water.temperature_f w' = Water.temperature_f w
    /\ Water.tds w' = Water.tds w.
Proof.
  intros Hvalid Hv.
  destruct Hvalid as (_ & HT & _ & _ & _ & _ & _ & _ & _ & Htds).
  destruct (get_chemical_member t) as (c & Hc & _).
  unfold predict_effect. rewrite Hc. cbn [bind].
  rewrite py_truediv_ok by lra. cbn [bind]. cbv zeta.
  set (s2 := fold_left _ _ _).
  rewrite WaterChemistry_new_ok.
  - eexists. split; [reflexivity |]. cbn.
    repeat split;
      first [ apply round_clamped_nonneg | apply round_clamped_ph ].
  - unfold WaterChemistry_valid. cbn.
    repeat split;
      first [ apply round_clamped_nonneg | apply round_clamped_ph
            | apply HT | exact Htds ].
Qed.

Lemma predict_effect_ranges_witness :
  exists w',
    predict_effect
      (mkWaterChemistry 7.5 84 2.0 0 80 300 50 0 0 1000) TRICHLOR 8 15000
    = Ok w'
    /\ 0 <= Water.free_chlorine w'
    /\ 0 <= Water.ph w' <= 14
    /\ Water.temperature_f w' = 84
    /\ Water.tds w' = 1000.
Proof.
  destruct (predict_effect_ranges
              (mkWaterChemistry 7.5 84 2.0 0 80 300 50 0 0 1000) TRICHLOR 8 15000)
    as (w' & Hrun & Hfc & _ & _ & _ & _ & _ & _ & Hph & HT & Htds).
  - unfold WaterChemistry_valid. cbn. lra.
  - lra.
  - exists w'. repeat split; try assumption; apply Hph.
Defined.

(* ================================================================== *)
(** ** Worked examples *)
(* ================================================================== *)

Lemma py_round_down (x : R) (n : nat) (z : Z) :
  IZR z <= x * 10 ^ n < IZR z + 1 / 2 -> py_round x n = IZR z / 10 ^ n.
Proof.
  intros H. unfold py_round.
  rewrite (round_half_even_down _ z) by exact H. reflexivity.
Qed.

Lemma py_round_up (x : R) (n : nat) (z : Z) :
  IZR z + 1 / 2 < x * 10 ^ n < IZR z + 1 -> py_round x n = IZR (z + 1) / 10 ^ n.
Proof.
  intros H. unfold py_round.
  rewrite (round_half_even_up _ z) by exact H. reflexivity.
Qed.

Lemma Rmax_0_nonneg (x : R) : 0 <= x -> Rmax 0 x = x.
Proof. intros H. apply Rmax_right. exact H. Qed.

Lemma Rmin_14_le (x : R) : x <= 14 -> Rmin 14 x = x.
Proof. intros H. apply Rmin_right. exact H. Qed.

Lemma apply_effect_free_chlorine (x : R) (s : effect_state) :
  apply_effect "free_chlorine" x s
  = mkEffectState (new_fc s + x) (new_cc s) (new_ph s) (new_ta s) (new_ch s)
                  (new_cya s) (new_salt s) (new_borates s).
Proof. reflexivity. Qed.

Lemma apply_effect_ph (x : R) (s : effect_state) :
  apply_effect "ph" x s
  = mkEffectState (new_fc s) (new_cc s) (new_ph s + x / 100) (new_ta s)
                  (new_ch s) (new_cya s) (new_salt s) (new_borates s).
Proof. reflexivity. Qed.

Lemma apply_effect_cyanuric_acid (x : R) (s : effect_state) :
  apply_effect "cyanuric_acid" x s
  = mkEffectState (new_fc s) (new_cc s) (new_ph s) (new_ta s) (new_ch s)
                  (new_cya s + x) (new_salt s) (new_borates s).
Proof. reflexivity. Qed.

Lemma apply_effect_salt (x : R) (s : effect_state) :
  apply_effect "salt" x s
  = mkEffectState (new_fc s) (new_cc s) (new_ph s) (new_ta s) (new_ch s)
                  (new_cya s) (new_salt s + x) (new_borates s).
Proof. reflexivity. Qed.

Ltac state_fields :=
  cbn [new_fc new_cc new_ph new_ta new_ch new_cya new_salt new_borates
       Water.free_chlorine Water.combined_chlorine Water.ph
       Water.total_alkalinity Water.calcium_hardness Water.cyanuric_acid
       Water.salt Water.borates Water.temperature_f Water.tds].

(** The docstring example of [predict_effect]: 8 oz of trichlor in
    15,000 gallons raises FC from 2.0 to 5.7, CYA from 50 to 52 and salt
    from 0 to 3, and leaves the rounded pH at 7.5. *)
Example predict_effect_trichlor :
  exists w',
    predict_effect (mkWaterChemistry 7.5 84 2.0 0 80 300 50 0 0 1000)
                   TRICHLOR 8 15000 = Ok w'
    /\ Water.free_chlorine w' = 5.7
    /\ Water.ph w' = 7.5
    /\ Water.cyanuric_acid w' = 52
    /\ Water.salt w' = 3
    /\ Water.total_alkalinity w' = 80
    /\ Water.calcium_hardness w' = 300.
Proof.
  assert (Hc : exists c, get_chemical (ChemicalType_value TRICHLOR) = Ok c
                         /\ Chem.affects c = "free_chlorine"
                         /\ Chem.multiplier c = 6854.95
                         /\ Chem.secondary_effects c
                            = [("cyanuric_acid", 4159.41); ("ph", -367.0);
                               ("salt", 5600.0)]).
  { eexists. split; [reflexivity |]. repeat split; reflexivity. }
  destruct Hc as (c & Hc & Haff & Hm & Hsec).
  unfold predict_effect. rewrite Hc. cbn [bind].
  rewrite py_truediv_ok by lra. cbn [bind]. cbv zeta.
  rewrite Haff, Hm, Hsec.
  cbn [fold_left fst snd].
  rewrite apply_effect_free_chlorine. state_fields.
  rewrite apply_effect_cyanuric_acid. state_fields.
  rewrite apply_effect_ph. state_fields.
  rewrite apply_effect_salt. state_fields.
  rewrite Rmin_14_le by lra. rewrite !Rmax_0_nonneg by lra.
  rewrite (py_round_up (7.5 + 8 / 15000 * -367.0 / 100) 2 749)
    by (cbn [pow]; lra).
  rewrite (py_round_up (2.0 + 8 / 15000 * 6854.95) 1 56) by (cbn [pow]; lra).
  rewrite (py_round_down 0 1 0) by (cbn [pow]; lra).
  rewrite (py_round_down 80 0 80) by (cbn [pow]; lra).
  rewrite (py_round_down 300 0 300) by (cbn [pow]; lra).
  rewrite (py_round_down (50 + 8 / 15000 * 4159.41) 0 52) by (cbn [pow]; lra).
  rewrite (py_round_up (0 + 8 / 15000 * 5600.0) 0 2) by (cbn [pow]; lra).
  rewrite (py_round_down 0 0 0) by (cbn [pow]; lra).
  rewrite WaterChemistry_new_ok.
  - eexists. split; [reflexivity |].
    state_fields. cbn [pow Z.add Pos.add Pos.succ].
    repeat split; lra.
  - unfold WaterChemistry_valid.
    state_fields. cbn [pow Z.add Pos.add Pos.succ].
    lra.
Qed.

(** Raising FC from 2 to 5 ppm in 15,000 gallons takes 36 fl oz of 12.5%
    bleach; liquid bleach has no volume conversion. *)
Example chlorine_dose_bleach :
  exists d,
    calculate_chlorine_dose 2 5 15000 BLEACH_12_5 = Ok d
    /\ Dose.amount d = 36
    /\ Dose.unit d = "fl_oz"
    /\ Dose.amount_volume d = None
    /\ Dose.notes d = None.
Proof.
  assert (Hc : exists c, get_chemical (ChemicalType_value BLEACH_12_5) = Ok c
                         /\ Chem.multiplier c = 1250.0
                         /\ Chem.unit c = "fl_oz"
                         /\ Chem.volume_factor c = None).
  { eexists. split; [reflexivity |]. repeat split; reflexivity. }
  destruct Hc as (c & Hc & Hm & Hu & Hvf).
  unfold calculate_chlorine_dose. rewrite Hc. cbn [bind]. cbv zeta.
  rewrite Rle_dec_false by lra.
  rewrite py_truediv_ok by lra. cbn [bind].
  unfold dose_volume. rewrite Hvf, Hm, Hu. cbn [truthy round_volume].
  rewrite (py_round_down ((5 - 2) * 15000 / 1250.0) 2 3600) by (cbn [pow]; lra).
  eexists. split; [reflexivity |].
  cbn [Dose.amount Dose.unit Dose.amount_volume Dose.notes pow].
  repeat split; lra.
Qed.

(** The zero dose: with the target not above the current level the
    amount is 0 and a note is attached. *)
Example chlorine_dose_at_target :
  exists d,
    calculate_chlorine_dose 5 5 15000 BLEACH_12_5 = Ok d
    /\ Dose.amount d = 0
    /\ Dose.notes d = Some (Text "FC is already at or above target").
Proof.
  destruct (get_chemical_member BLEACH_12_5) as (c & Hc & _).
  unfold calculate_chlorine_dose. rewrite Hc. cbn [bind]. cbv zeta.
  rewrite Rle_dec_true by lra.
  eexists. split; [reflexivity |]. split; reflexivity.
Qed.

(* ================================================================== *)
(** ** Shape of the lookup functions *)
(* ================================================================== *)

Lemma temperature_cases (x : R) :
  (x <= 32 /\ interpolate_temperature_factor x = Ok 0.0)
  \/ (32 <= x < 37 /\
      interpolate_temperature_factor x = Ok (0.0 + (0.1 - 0.0) * (x - 32) / (37 - 32)))
  \/ (37 <= x < 46 /\
      interpolate_temperature_factor x = Ok (0.1 + (0.2 - 0.1) * (x - 37) / (46 - 37)))
  \/ (46 <= x < 53 /\
      interpolate_temperature_factor x = Ok (0.2 + (0.3 - 0.2) * (x - 46) / (53 - 46)))
  \/ (53 <= x < 60 /\
      interpolate_temperature_factor x = Ok (0.3 + (0.4 - 0.3) * (x - 53) / (60 - 53)))
  \/ (60 <= x < 66 /\
      interpolate_temperature_factor x = Ok (0.4 + (0.5 - 0.4) * (x - 60) / (66 - 60)))
  \/ (66 <= x < 76 /\
      interpolate_temperature_factor x = Ok (0.5 + (0.6 - 0.5) * (x - 66) / (76 - 66)))
  \/ (76 <= x < 84 /\
      interpolate_temperature_factor x = Ok (0.6 + (0.7 - 0.6) * (x - 76) / (84 - 76)))
  \/ (84 <= x < 94 /\
      interpolate_temperature_factor x = Ok (0.7 + (0.8 - 0.7) * (x - 84) / (94 - 84)))
  \/ (94 <= x < 105 /\
      interpolate_temperature_factor x = Ok (0.8 + (0.9 - 0.8) * (x - 94) / (105 - 94)))
  \/ (105 <= x /\ interpolate_temperature_factor x = Ok 0.9).
Proof.
  destruct (Rle_lt_dec x 32) as [H | H]; [left; split; [exact H | apply temperature_below; exact H] | right].
  destruct (Rlt_le_dec x 37) as [H0 | H0];
    [left; split; [lra | apply (temperature_between 32 0.0 37 0.1); [pick_pair | lra]] | right].
  destruct (Rlt_le_dec x 46) as [H1 | H1];
    [left; split; [lra | apply (temperature_between 37 0.1 46 0.2); [pick_pair | lra]] | right].
  destruct (Rlt_le_dec x 53) as [H2 | H2];
    [left; split; [lra | apply (temperature_between 46 0.2 53 0.3); [pick_pair | lra]] | right].
  destruct (Rlt_le_dec x 60) as [H3 | H3];
    [left; split; [lra | apply (temperature_between 53 0.3 60 0.4); [pick_pair | lra]] | right].
  destruct (Rlt_le_dec x 66) as [H4 | H4];
    [left; split; [lra | apply (temperature_between 60 0.4 66 0.5); [pick_pair | lra]] | right].
  destruct (Rlt_le_dec x 76) as [H5 | H5];
    [left; split; [lra | apply (temperature_between 66 0.5 76 0.6); [pick_pair | lra]] | right].
  destruct (Rlt_le_dec x 84) as [H6 | H6];
    [left; split; [lra | apply (temperature_between 76 0.6 84 0.7); [pick_pair | lra]] | right].
  destruct (Rlt_le_dec x 94) as [H7 | H7];
    [left; split; [lra | apply (temperature_between 84 0.7 94 0.8); [pick_pair | lra]] | right].
  destruct (Rlt_le_dec x 105) as [H8 | H8];
    [left; split; [lra | apply (temperature_between 94 0.8 105 0.9); [pick_pair | lra]] | right].
  split; [lra | apply temperature_above; lra].
Qed.

Lemma temperature_factor_shape (x y : R) :
  x <= y ->
  exists a b,
    interpolate_temperature_factor x = Ok a
    /\ interpolate_temperature_factor y = Ok b
    /\ 0 <= a
    /\ a <= b
    /\ b <= 0.9
    /\ b - a <= 0.02 * (y - x).
Proof.
  intros Hxy.
  destruct (temperature_cases x) as
    [[Hx Ex] | [[Hx Ex] | [[Hx Ex] | [[Hx Ex] | [[Hx Ex] | [[Hx Ex] | [[Hx Ex] | [[Hx Ex] | [[Hx Ex] | [[Hx Ex] | [Hx Ex]]]]]]]]]]].
  all: destruct (temperature_cases y) as
    [[Hy Ey] | [[Hy Ey] | [[Hy Ey] | [[Hy Ey] | [[Hy Ey] | [[Hy Ey] | [[Hy Ey] | [[Hy Ey] | [[Hy Ey] | [[Hy Ey] | [Hy Ey]]]]]]]]]]].
  all: rewrite Ex, Ey; do 2 eexists;
       (split; [reflexivity |]); (split; [reflexivity |]); lra.
Qed.

(** X1.  The temperature factor never decreases when the temperature rises,
    stays within 0 .. 0.9, and has no jump: it changes by at most 0.02
    per degree Fahrenheit. *)
Theorem temperature_factor_monotone (x y : R) :
  x <= y ->
  exists a b,
    interpolate_temperature_factor x = Ok a
    /\ interpolate_temperature_factor y = Ok b
    /\ 0 <= a
    /\ a <= b
    /\ b <= 0.9
    /\ b - a <= 0.02 * (y - x).
Proof. exact (temperature_factor_shape x y). Qed.


Lemma cya_factor_cases (x : R) :
  (x <= 7.0 /\ get_cya_correction_factor x = Ok 0.22)
  \/ (7.0 <= x < 7.2 /\
      get_cya_correction_factor x = Ok (0.22 + (0.27 - 0.22) * (x - 7.0) / (7.2 - 7.0)))
  \/ (7.2 <= x < 7.4 /\
      get_cya_correction_factor x = Ok (0.27 + (0.31 - 0.27) * (x - 7.2) / (7.4 - 7.2)))
  \/ (7.4 <= x < 7.5 /\
      get_cya_correction_factor x = Ok (0.31 + (0.33 - 0.31) * (x - 7.4) / (7.5 - 7.4)))
  \/ (7.5 <= x < 7.6 /\
      get_cya_correction_factor x = Ok (0.33 + (0.33 - 0.33) * (x - 7.5) / (7.6 - 7.5)))
  \/ (7.6 <= x < 7.8 /\
      get_cya_correction_factor x = Ok (0.33 + (0.35 - 0.33) * (x - 7.6) / (7.8 - 7.6)))
  \/ (7.8 <= x < 8.0 /\
      get_cya_correction_factor x = Ok (0.35 + (0.38 - 0.35) * (x - 7.8) / (8.0 - 7.8)))
  \/ (8.0 <= x /\ get_cya_correction_factor x = Ok 0.38).
Proof.
  destruct (Rle_lt_dec x 7.0) as [H | H]; [left; split; [exact H | apply cya_factor_below; exact H] | right].
  destruct (Rlt_le_dec x 7.2) as [H0 | H0];
    [left; split; [lra | apply (cya_factor_between 7.0 0.22 7.2 0.27); [pick_pair | lra]] | right].
  destruct (Rlt_le_dec x 7.4) as [H1 | H1];
    [left; split; [lra | apply (cya_factor_between 7.2 0.27 7.4 0.31); [pick_pair | lra]] | right].
  destruct (Rlt_le_dec x 7.5) as [H2 | H2];
    [left; split; [lra | apply (cya_factor_between 7.4 0.31 7.5 0.33); [pick_pair | lra]] | right].
  destruct (Rlt_le_dec x 7.6) as [H3 | H3];
    [left; split; [lra | apply (cya_factor_between 7.5 0.33 7.6 0.33); [pick_pair | lra]] | right].
  destruct (Rlt_le_dec x 7.8) as [H4 | H4];
    [left; split; [lra | apply (cya_factor_between 7.6 0.33 7.8 0.35); [pick_pair | lra]] | right].
  destruct (Rlt_le_dec x 8.0) as [H5 | H5];
    [left; split; [lra | apply (cya_factor_between 7.8 0.35 8.0 0.38); [pick_pair | lra]] | right].
  split; [lra | apply cya_factor_above; lra].
Qed.

Lemma cya_correction_factor_shape (x y : R) :
  x <= y ->
  exists a b,
    get_cya_correction_factor x = Ok a
    /\ get_cya_correction_factor y = Ok b
    /\ 0.22 <= a
    /\ a <= b
    /\ b <= 0.38
    /\ b - a <= 0.25 * (y - x).
Proof.
  intros Hxy.
  destruct (cya_factor_cases x) as
    [[Hx Ex] | [[Hx Ex] | [[Hx Ex] | [[Hx Ex] | [[Hx Ex] | [[Hx Ex] | [[Hx Ex] | [Hx Ex]]]]]]]].
  all: destruct (cya_factor_cases y) as
    [[Hy Ey] | [[Hy Ey] | [[Hy Ey] | [[Hy Ey] | [[Hy Ey] | [[Hy Ey] | [[Hy Ey] | [Hy Ey]]]]]]]].
  all: rewrite Ex, Ey; do 2 eexists;
       (split; [reflexivity |]); (split; [reflexivity |]); lra.
Qed.

(** X2.  The CYA correction factor never decreases when pH rises, stays
    within 0.22 .. 0.38, and has no jump: it changes by at most 0.25 per
    pH unit. *)
Theorem cya_correction_factor_monotone (x y : R) :
  x <= y ->
  exists a b,
    get_cya_correction_factor x = Ok a
    /\ get_cya_correction_factor y = Ok b
    /\ 0.22 <= a
    /\ a <= b
    /\ b <= 0.38
    /\ b - a <= 0.25 * (y - x).
Proof. exact (cya_correction_factor_shape x y). Qed.


Lemma temperature_factor_monotone_witness :
  exists a b,
    interpolate_temperature_factor 70 = Ok a
    /\ interpolate_temperature_factor 90 = Ok b
    /\ a <= b.
Proof.
  destruct (temperature_factor_monotone 70 90) as (a & b & Ha & Hb & _ & Hab & _);
    [lra |].
  exists a, b. repeat split; assumption.
Defined.

Lemma cya_correction_factor_monotone_witness :
  exists a b,
    get_cya_correction_factor 7.2 = Ok a
    /\ get_cya_correction_factor 7.8 = Ok b
    /\ a <= b.
Proof.
  destruct (cya_correction_factor_monotone 7.2 7.8) as (a & b & Ha & Hb & _ & Hab & _);
    [lra |].
  exists a, b. repeat split; assumption.
Defined.

(* ================================================================== *)
(** ** Ionic strength and the logarithmic factors *)
(* ================================================================== *)

(** X3.  Ionic strength strictly increases with calcium hardness and
    with total alkalinity and never decreases with salt; salt counts
    only above 1.1678 CH, below that the result is (1.5 CH + TA) / 50045. *)
Theorem ionic_strength_monotone :
  (forall ch1 ch2 ta s, ch1 < ch2 ->
     calculate_ionic_strength ch1 ta s < calculate_ionic_strength ch2 ta s)
  /\ (forall ch ta1 ta2 s, ta1 < ta2 ->
        calculate_ionic_strength ch ta1 s < calculate_ionic_strength ch ta2 s)
  /\ (forall ch ta s1 s2, s1 <= s2 ->
        calculate_ionic_strength ch ta s1 <= calculate_ionic_strength ch ta s2)
  /\ (forall ch ta s, s <= 1.1678 * ch ->
        calculate_ionic_strength ch ta s = (1.5 * ch + ta) / 50045)
  /\ (forall ch ta s, 1.1678 * ch <= s ->
        calculate_ionic_strength ch ta s
        = (1.5 * ch + ta) / 50045 + (s - 1.1678 * ch) / 58440).
Proof.
  unfold calculate_ionic_strength, IONIC_CH_COEFFICIENT, IONIC_TA_COEFFICIENT,
    IONIC_DIVISOR, IONIC_NACL_DIVISOR, CH_TO_NACL_RATIO. cbv zeta.
  repeat split; intros; unfold Rmax;
    repeat match goal with
           | |- context [Rle_dec ?a ?b] => destruct (Rle_dec a b)
           end; lra.
Qed.

Lemma ln_10_pos : 0 < ln 10.
Proof. rewrite <- ln_1. apply ln_increasing; lra. Qed.

Lemma log10_increasing (a b : R) : 0 < a -> a < b -> log10 a < log10 b.
Proof.
  intros Ha Hab. unfold log10, Rdiv.
  apply Rmult_lt_compat_r.
  - apply Rinv_0_lt_compat. exact ln_10_pos.
  - apply ln_increasing; assumption.
Qed.

Lemma log10_times_10 (a : R) : 0 < a -> log10 (10 * a) = log10 a + 1.
Proof.
  intros Ha. unfold log10. rewrite ln_mult by lra.
  pose proof ln_10_pos. field. lra.
Qed.

(** X4.  [calculate_calcium_factor] and [calculate_alkalinity_factor]
    raise [ValueError] exactly for arguments <= 0; on positive arguments
    they are strictly increasing and a tenfold argument adds exactly 1. *)
Theorem log_factor_behaviour :
  (forall x, x <= 0 ->
     calculate_calcium_factor x
     = Raise (ValueError "Calcium hardness must be greater than 0")
     /\ calculate_alkalinity_factor x
        = Raise (ValueError "Alkalinity must be greater than 0"))
  /\ (forall x, returns_value (calculate_calcium_factor x) <-> 0 < x)
  /\ (forall x, returns_value (calculate_alkalinity_factor x) <-> 0 < x)
  /\ (forall a b, 0 < a -> a < b ->
        exists fa fb,
          calculate_calcium_factor a = Ok fa
          /\ calculate_calcium_factor b = Ok fb
          /\ calculate_alkalinity_factor a = Ok fa
          /\ calculate_alkalinity_factor b = Ok fb
          /\ fa < fb)
  /\ (forall x, 0 < x ->
        exists f,
          calculate_calcium_factor x = Ok f
          /\ calculate_calcium_factor (10 * x) = Ok (f + 1)
          /\ calculate_alkalinity_factor x = Ok f
          /\ calculate_alkalinity_factor (10 * x) = Ok (f + 1)).
Proof.
  assert (Hpos : forall x, 0 < x ->
            calculate_calcium_factor x = Ok (log10 x)
            /\ calculate_alkalinity_factor x = Ok (log10 x)).
  { intros x Hx. unfold calculate_calcium_factor, calculate_alkalinity_factor,
      math_log10.
    rewrite !Rle_dec_false by lra. rewrite Rlt_dec_true by lra. split; reflexivity. }
  assert (Hneg : forall x, x <= 0 ->
            calculate_calcium_factor x
            = Raise (ValueError "Calcium hardness must be greater than 0")
            /\ calculate_alkalinity_factor x
               = Raise (ValueError "Alkalinity must be greater than 0")).
  { intros x Hx. unfold calculate_calcium_factor, calculate_alkalinity_factor.
    rewrite !Rle_dec_true by lra. split; reflexivity. }
  split; [exact Hneg |].
  split.
  { intros x. split.
    - intros [v Hv]. destruct (Rle_lt_dec x 0) as [Hle | Hlt]; [| exact Hlt].
      destruct (Hneg x Hle) as [E _]. rewrite E in Hv. discriminate Hv.
    - intros Hx. exists (log10 x). apply (Hpos x Hx). }
  split.
  { intros x. split.
    - intros [v Hv]. destruct (Rle_lt_dec x 0) as [Hle | Hlt]; [| exact Hlt].
      destruct (Hneg x Hle) as [_ E]. rewrite E in Hv. discriminate Hv.
    - intros Hx. exists (log10 x). apply (Hpos x Hx). }
  split.
  { intros a b Ha Hab. exists (log10 a), (log10 b).
    destruct (Hpos a Ha) as [E1 E2]. destruct (Hpos b) as [E3 E4]; [lra |].
    repeat split; try assumption. apply log10_increasing; assumption. }
  intros x Hx. exists (log10 x).
  destruct (Hpos x Hx) as [E1 E2]. destruct (Hpos (10 * x)) as [E3 E4]; [lra |].
  rewrite log10_times_10 in E3, E4 by exact Hx.
  repeat split; assumption.
Qed.

(* ================================================================== *)
(** ** How the index functions respond to their inputs *)
(* ================================================================== *)

(** What a returned CSI says about the inputs: the converse of
    [calculate_csi_run]. *)
Lemma calculate_csi_ok_inv
    (water : option WaterChemistry) (ph0 t0 ch0 ta0 : option R)
    (cya0 salt0 bor0 pH T CH TA CYA SALT BOR v : R) :
  csi_inputs water ph0 t0 ch0 ta0 cya0 salt0 bor0
  = (Some pH, Some T, Some CH, Some TA, CYA, SALT, BOR) ->
  calculate_csi water ph0 t0 ch0 ta0 cya0 salt0 bor0 = Ok v ->
  0 < CH
  /\ 0 < carbonate_alkalinity_spec TA CYA pH BOR
  /\ 0 <= calculate_ionic_strength CH TA SALT
  /\ (T - 32) * 5 / 9 + 273.15 <> 0.
Proof.
  intros Hin. unfold calculate_csi. open_inputs Hin.
  destruct (Rle_dec CH 0) as [Hch | Hch]; [discriminate |].
  rewrite carbonate_alkalinity_spec_ok. cbn [bind].
  destruct (Rle_dec (carbonate_alkalinity_spec TA CYA pH BOR) 0) as [Hc | Hc];
    [discriminate |].
  unfold math_sqrt.
  destruct (Rle_dec 0 (calculate_ionic_strength CH TA SALT)) as [Hi | Hi];
    [| discriminate].
  cbn [bind].
  pose proof (sqrt_pos (calculate_ionic_strength CH TA SALT)) as Hs.
  rewrite py_truediv_ok
    by (unfold CSI_IONIC_DENOMINATOR_COEFFICIENT; lra).
  cbn [bind]. unfold py_truediv at 1.
  destruct (Req_dec_T ((T - 32) * 5 / 9 + 273.15) 0) as [Ht | Ht];
    [discriminate |].
  intros _. repeat split; first [lra | exact Ht].
Qed.

Lemma ionic_term_monotone (a b : R) :
  0 <= a -> a <= b ->
  2.56 * a / (1 + 1.65 * a) <= 2.56 * b / (1 + 1.65 * b).
Proof.
  intros Ha Hab.
  assert (E : 2.56 * b / (1 + 1.65 * b) - 2.56 * a / (1 + 1.65 * a)
              = 2.56 * (b - a) * / ((1 + 1.65 * a) * (1 + 1.65 * b)))
    by (field; lra).
  assert (Hi : 0 < / ((1 + 1.65 * a) * (1 + 1.65 * b))).
  { apply Rinv_0_lt_compat. apply Rmult_lt_0_compat; lra. }
  assert (Hd : 0 <= 2.56 * (b - a) * / ((1 + 1.65 * a) * (1 + 1.65 * b))).
  { apply Rmult_le_pos; lra. }
  lra.
Qed.



(** X6.  Salt never raises the CSI: when [calculate_csi] returns a value
    and only the salt level is increased, it still returns a value, and
    one that is not larger. *)
Theorem csi_not_raised_by_salt
    (pH T CH TA CYA BOR s1 s2 v1 : R) :
  s1 <= s2 ->
  calculate_csi None (Some pH) (Some T) (Some CH) (Some TA) CYA s1 BOR = Ok v1 ->
  exists v2,
    calculate_csi None (Some pH) (Some T) (Some CH) (Some TA) CYA s2 BOR = Ok v2
    /\ v2 <= v1.
Proof.
  intros Hs Hv1.
  destruct (calculate_csi_ok_inv None (Some pH) (Some T) (Some CH) (Some TA)
              CYA s1 BOR pH T CH TA CYA s1 BOR v1 eq_refl Hv1)
    as (Hch & Hcarb & Hion & Htemp).
  assert (Hle : calculate_ionic_strength CH TA s1
                <= calculate_ionic_strength CH TA s2).
  { unfold calculate_ionic_strength, IONIC_NACL_DIVISOR. cbv zeta.
    assert (Rmax 0.0 (s1 - CH_TO_NACL_RATIO * CH)
            <= Rmax 0.0 (s2 - CH_TO_NACL_RATIO * CH)).
    { apply Rle_max_compat_l. lra. }
    lra. }
  rewrite (calculate_csi_run None (Some pH) (Some T) (Some CH) (Some TA)
             CYA s1 BOR pH T CH TA CYA s1 BOR eq_refl Hch Hcarb Hion Htemp)
    in Hv1.
  injection Hv1 as <-.
  eexists. split.
  - apply (calculate_csi_run None (Some pH) (Some T) (Some CH) (Some TA)
             CYA s2 BOR pH T CH TA CYA s2 BOR eq_refl Hch Hcarb); [lra | exact Htemp].
  - pose proof (sqrt_pos (calculate_ionic_strength CH TA s1)) as H1.
    pose proof (sqrt_le_1_alt _ _ Hle) as H2.
    pose proof (ionic_term_monotone _ _ H1 H2) as H3.
    lra.
Qed.

(** X7.  Above absolute zero the CSI strictly increases with the
    temperature: when [calculate_csi] returns a value and only the
    temperature is raised, it returns a strictly larger value. *)
Theorem csi_raised_by_temperature
    (pH T1 T2 CH TA CYA SALT BOR v1 : R) :
  -459.67 < T1 ->
  T1 < T2 ->
  calculate_csi None (Some pH) (Some T1) (Some CH) (Some TA) CYA SALT BOR = Ok v1 ->
  exists v2,
    calculate_csi None (Some pH) (Some T2) (Some CH) (Some TA) CYA SALT BOR = Ok v2
    /\ v1 < v2.
Proof.
  intros Habs HT Hv1.
  destruct (calculate_csi_ok_inv None (Some pH) (Some T1) (Some CH) (Some TA)
              CYA SALT BOR pH T1 CH TA CYA SALT BOR v1 eq_refl Hv1)
    as (Hch & Hcarb & Hion & Htemp).
  rewrite (calculate_csi_run None (Some pH) (Some T1) (Some CH) (Some TA)
             CYA SALT BOR pH T1 CH TA CYA SALT BOR eq_refl Hch Hcarb Hion Htemp)
    in Hv1.
  injection Hv1 as <-.
  assert (Hd1 : 0 < (T1 - 32) * 5 / 9 + 273.15) by lra.
  assert (Hd2 : (T1 - 32) * 5 / 9 + 273.15 < (T2 - 32) * 5 / 9 + 273.15) by lra.
  eexists. split.
  - apply (calculate_csi_run None (Some pH) (Some T2) (Some CH) (Some TA)
             CYA SALT BOR pH T2 CH TA CYA SALT BOR eq_refl Hch Hcarb Hion). lra.
  - assert (Hinv : / ((T2 - 32) * 5 / 9 + 273.15) < / ((T1 - 32) * 5 / 9 + 273.15)).
    { apply Rinv_lt_contravar; [| exact Hd2].
      apply Rmult_lt_0_compat; lra. }
    set (g := 2.56 * sqrt (calculate_ionic_strength CH TA SALT)
              / (1 + 1.65 * sqrt (calculate_ionic_strength CH TA SALT))).
    set (d1 := (T1 - 32) * 5 / 9 + 273.15) in *.
    set (d2 := (T2 - 32) * 5 / 9 + 273.15) in *.
    unfold Rdiv. lra.
Qed.

Lemma csi_example_run (T s : R) :
  32 <= T ->
  exists v, calculate_csi None (Some 7.5) (Some T) (Some 300) (Some 80) 50 s 0 = Ok v.
Proof.
  intros HT. eexists.
  apply (calculate_csi_run None (Some 7.5) (Some T) (Some 300) (Some 80) 50 s 0
           7.5 T 300 80 50 s 0 eq_refl).
  - lra.
  - apply carbonate_alkalinity_spec_pos; lra.
  - apply ionic_strength_nonneg; lra.
  - lra.
Qed.

Lemma csi_not_raised_by_salt_witness :
  exists v1 v2,
    calculate_csi None (Some 7.5) (Some 84) (Some 300) (Some 80) 50 0 0 = Ok v1
    /\ calculate_csi None (Some 7.5) (Some 84) (Some 300) (Some 80) 50 3200 0 = Ok v2
    /\ v2 <= v1.
Proof.
  destruct (csi_example_run 84 0) as [v1 Hv1]; [lra |].
  destruct (csi_not_raised_by_salt 7.5 84 300 80 50 0 0 3200 v1) as (v2 & Hv2 & Hle);
    [lra | exact Hv1 |].
  exists v1, v2. repeat split; assumption.
Defined.

Lemma csi_raised_by_temperature_witness :
  exists v1 v2,
    calculate_csi None (Some 7.5) (Some 70) (Some 300) (Some 80) 50 0 0 = Ok v1
    /\ calculate_csi None (Some 7.5) (Some 90) (Some 300) (Some 80) 50 0 0 = Ok v2
    /\ v1 < v2.
Proof.
  destruct (csi_example_run 70 0) as [v1 Hv1]; [lra |].
  destruct (csi_raised_by_temperature 7.5 70 90 300 80 50 0 0 v1)
    as (v2 & Hv2 & Hlt); [lra | lra | exact Hv1 |].
  exists v1, v2. repeat split; assumption.
Defined.

(** What a returned LSI says about the inputs. *)
Lemma calculate_lsi_ok_inv (pH T CH TA CYA tds0 v : R) :
  calculate_lsi None (Some pH) (Some T) (Some CH) (Some TA) CYA tds0 = Ok v ->
  exists f tf,
    get_cya_correction_factor pH = Ok f
    /\ calculate_temperature_factor T = Ok tf
    /\ 0 < CH
    /\ 0 < TA - CYA * f
    /\ v = pH + tf + log10 CH + log10 (TA - CYA * f) - 12.1.
Proof.
  intros Hv.
  destruct (cya_factor_total pH) as [f Hf].
  destruct (temperature_total T) as [tf Htf].
  destruct (calculate_lsi_present None (Some pH) (Some T) (Some CH) (Some TA)
              CYA tds0 pH T CH TA CYA f eq_refl Hf) as (Hbad_ch & Hbad_carb & _).
  destruct (Rle_lt_dec CH 0) as [Hle | Hch].
  { rewrite (Hbad_ch Hle) in Hv. discriminate Hv. }
  destruct (Rle_lt_dec (TA - CYA * f) 0) as [Hle | Hcarb].
  { rewrite (Hbad_carb Hch Hle) in Hv. discriminate Hv. }
  rewrite (calculate_lsi_run None (Some pH) (Some T) (Some CH) (Some TA) CYA tds0
             pH T CH TA CYA f tf eq_refl Hch Hf Htf Hcarb) in Hv.
  injection Hv as <-.
  exists f, tf. repeat split; assumption.
Qed.

(** X8.  A returned LSI is the sum the module documents,
    pH + TF + CF + AF - 12.1, of the three factor functions of
    [factors.py]: the temperature factor, the calcium factor of CH and
    the alkalinity factor of TA - CYA * correction(pH); none of them
    fails when an LSI is returned. *)
Theorem lsi_is_sum_of_factors (pH T CH TA CYA tds0 v : R) :
  calculate_lsi None (Some pH) (Some T) (Some CH) (Some TA) CYA tds0 = Ok v ->
  exists f tf cf af,
    get_cya_correction_factor pH = Ok f
    /\ calculate_temperature_factor T = Ok tf
    /\ calculate_calcium_factor CH = Ok cf
    /\ calculate_alkalinity_factor (TA - CYA * f) = Ok af
    /\ v = pH + tf + cf + af - LSI_CONSTANT.
Proof.
  intros Hv.
  destruct (calculate_lsi_ok_inv _ _ _ _ _ _ _ Hv)
    as (f & tf & Hf & Htf & Hch & Hcarb & ->).
  exists f, tf, (log10 CH), (log10 (TA - CYA * f)).
  split; [exact Hf |]. split; [exact Htf |].
  unfold calculate_calcium_factor, calculate_alkalinity_factor, math_log10.
  rewrite !Rle_dec_false by lra. rewrite !Rlt_dec_true by lra.
  repeat split; reflexivity.
Qed.

Lemma lsi_example_run (T CH : R) :
  0 < CH ->
  exists v, calculate_lsi None (Some 7.5) (Some T) (Some CH) (Some 80) 30 1000 = Ok v.
Proof.
  intros Hch.
  destruct (temperature_total T) as [tf Htf].
  eexists.
  apply (calculate_lsi_run None (Some 7.5) (Some T) (Some CH) (Some 80) 30 1000
           7.5 T CH 80 30 (0.33 + (0.33 - 0.33) * (7.5 - 7.5) / (7.6 - 7.5)) tf
           eq_refl Hch).
  - apply (cya_factor_between 7.5 0.33 7.6 0.33); [pick_pair | lra].
  - exact Htf.
  - lra.
Qed.

Lemma lsi_is_sum_of_factors_witness :
  exists v f tf cf af,
    calculate_lsi None (Some 7.5) (Some 84) (Some 300) (Some 80) 30 1000 = Ok v
    /\ get_cya_correction_factor 7.5 = Ok f
    /\ calculate_temperature_factor 84 = Ok tf
    /\ calculate_calcium_factor 300 = Ok cf
    /\ calculate_alkalinity_factor (80 - 30 * f) = Ok af
    /\ v = 7.5 + tf + cf + af - LSI_CONSTANT.
Proof.
  destruct (lsi_example_run 84 300) as [v Hv]; [lra |].
  destruct (lsi_is_sum_of_factors 7.5 84 300 80 30 1000 v Hv)
    as (f & tf & cf & af & H1 & H2 & H3 & H4 & H5).
  exists v, f, tf, cf, af. repeat split; assumption.
Defined.

(** X9.  When [calculate_lsi] returns a value, raising the temperature
    never lowers it, raising calcium hardness strictly raises it, and
    the TDS argument has no influence. *)
Theorem lsi_monotone (pH T1 T2 CH1 CH2 TA CYA tds1 tds2 v1 : R) :
  T1 <= T2 ->
  CH1 <= CH2 ->
  calculate_lsi None (Some pH) (Some T1) (Some CH1) (Some TA) CYA tds1 = Ok v1 ->
  exists v2,
    calculate_lsi None (Some pH) (Some T2) (Some CH2) (Some TA) CYA tds2 = Ok v2
    /\ v1 <= v2
    /\ (CH1 < CH2 -> v1 < v2)
    /\ (T1 = T2 -> CH1 = CH2 -> v1 = v2).
Proof.
  intros HT HCH Hv1.
  destruct (calculate_lsi_ok_inv _ _ _ _ _ _ _ Hv1)
    as (f & tf1 & Hf & Htf1 & Hch & Hcarb & ->).
  destruct (temperature_factor_shape T1 T2 HT)
    as (a & b & Ha & Hb & _ & Hab & _).
  unfold calculate_temperature_factor in Htf1. rewrite Ha in Htf1.
  injection Htf1 as <-.
  assert (Hch2 : 0 < CH2) by lra.
  eexists. split.
  - apply (calculate_lsi_run None (Some pH) (Some T2) (Some CH2) (Some TA) CYA tds2
             pH T2 CH2 TA CYA f b eq_refl Hch2 Hf Hb Hcarb).
  - split; [| split].
    + destruct (Req_dec_T CH1 CH2) as [-> | Hne]; [lra |].
      assert (CH1 < CH2) by lra.
      pose proof (log10_increasing CH1 CH2 Hch H). lra.
    + intros Hlt. pose proof (log10_increasing CH1 CH2 Hch Hlt). lra.
    + intros -> ->. rewrite Ha in Hb. injection Hb as <-. reflexivity.
Qed.

Lemma lsi_monotone_witness :
  exists v1 v2,
    calculate_lsi None (Some 7.5) (Some 70) (Some 200) (Some 80) 30 1000 = Ok v1
    /\ calculate_lsi None (Some 7.5) (Some 90) (Some 400) (Some 80) 30 500 = Ok v2
    /\ v1 < v2.
Proof.
  destruct (lsi_example_run 70 200) as [v1 Hv1]; [lra |].
  destruct (lsi_monotone 7.5 70 90 200 400 80 30 1000 500 v1)
    as (v2 & Hv2 & _ & Hlt & _); [lra | lra | exact Hv1 |].
  exists v1, v2. split; [exact Hv1 |]. split; [exact Hv2 |]. apply Hlt. lra.
Defined.

(* ================================================================== *)
(** ** Interpretation bands *)
(* ================================================================== *)

Ltac band_cases :=
  repeat match goal with
         | |- context [Rle_dec ?a ?b] => destruct (Rle_dec a b)
         | |- context [Rlt_dec ?a ?b] => destruct (Rlt_dec a b)
         | H : context [Rle_dec ?a ?b] |- _ => destruct (Rle_dec a b)
         | H : context [Rlt_dec ?a ?b] |- _ => destruct (Rlt_dec a b)
         end.

Ltac band_solve :=
  try lra; try reflexivity; try discriminate;
  try (left; reflexivity); try (right; reflexivity); try (exfalso; lra);
  try match goal with
      | H : _ \/ _ |- _ => destruct H; try discriminate; exfalso; lra
      end.

(** X10.  The five CSI labels and the four LSI labels partition the
    real line at -0.6, -0.3, 0.3, 0.6 and at -0.31, 0, 0.30.  A value
    is inside the default CSI target range [-0.3, 0.3] exactly when it
    is labelled balanced or equals -0.3, which is labelled slightly
    corrosive; every value the LSI labels ideal the CSI labels balanced,
    and every balanced value the LSI labels acceptable or ideal. *)
Theorem interpretation_bands (x : R) :
  (interpret_csi x = "Corrosive (aggressive water, will etch surfaces)"
   <-> x <= -0.6)
  /\ (interpret_csi x = "Slightly corrosive (may cause slow corrosion)"
      <-> -0.6 < x <= -0.3)
  /\ (interpret_csi x = "Balanced (ideal)" <-> -0.3 < x <= 0.3)
  /\ (interpret_csi x = "Slightly scale-forming (may form light scale)"
      <-> 0.3 < x <= 0.6)
  /\ (interpret_csi x = "Scale-forming (scale formation likely)" <-> 0.6 < x)
  /\ (interpret_lsi x = "Red - Aggressive (corrosive, will etch surfaces)"
      <-> x <= -0.31)
  /\ (interpret_lsi x = "Yellow - Acceptable (close to balanced)"
      <-> -0.31 < x < 0)
  /\ (interpret_lsi x = "Green - Ideal (perfectly balanced)" <-> 0 <= x <= 0.30)
  /\ (interpret_lsi x = "Purple - Over-saturated (scale-forming)" <-> 0.30 < x)
  /\ (is_in_range DEFAULT_CSI_RANGE x = true
      <-> interpret_csi x = "Balanced (ideal)" \/ x = -0.3)
  /\ (interpret_lsi x = "Green - Ideal (perfectly balanced)" ->
      interpret_csi x = "Balanced (ideal)")
  /\ (interpret_csi x = "Balanced (ideal)" ->
      interpret_lsi x = "Yellow - Acceptable (close to balanced)"
      \/ interpret_lsi x = "Green - Ideal (perfectly balanced)").
Proof.
  unfold interpret_csi, interpret_lsi, is_in_range, DEFAULT_CSI_RANGE.
  cbn [Range.minimum Range.maximum].
  repeat split; intros; band_cases; band_solve.
Qed.

(* ================================================================== *)
(** ** Order and monotonicity of the FC thresholds *)
(* ================================================================== *)

Lemma floor_le_self (x : R) : IZR (math_floor x) <= x.
Proof. unfold math_floor. apply (Zfloor_bound x). Qed.

Lemma floor_mono (x y : R) : x <= y -> IZR (math_floor x) <= IZR (math_floor y).
Proof. intros H. unfold math_floor. apply IZR_le. apply Zfloor_le. exact H. Qed.

(** Comparing two thresholds max(a, floor x) and max(b, floor y). *)
Lemma max_floor_le (a b x y : R) :
  a <= b -> x <= y \/ x <= b ->
  Rmax a (IZR (math_floor x)) <= Rmax b (IZR (math_floor y)).
Proof.
  intros Hab Hxy. apply Rmax_lub.
  - apply Rle_trans with b; [exact Hab | apply Rmax_l].
  - destruct Hxy as [Hxy | Hxb].
    + apply Rle_trans with (IZR (math_floor y)); [apply floor_mono; exact Hxy |].
      apply Rmax_r.
    + apply Rle_trans with b; [| apply Rmax_l].
      pose proof (floor_le_self x). lra.
Qed.

Lemma max_floor_whole (k : Z) (x : R) :
  exists z : Z, Rmax (IZR k) (IZR (math_floor x)) = IZR z.
Proof.
  unfold Rmax. destruct (Rle_dec (IZR k) (IZR (math_floor x))); eexists; reflexivity.
Qed.

Ltac fc_unfold :=
  unfold calculate_min_fc, calculate_target_fc, calculate_shock_fc,
    calculate_mustard_algae_shock_fc.

Lemma min_fc_ge_1 (cya : R) (is_swg : bool) : 1 <= calculate_min_fc cya is_swg.
Proof.
  fc_unfold. destruct (Rle_dec cya 0); [lra |].
  destruct is_swg;
    match goal with |- _ <= Rmax ?a ?b => pose proof (Rmax_l a b) end; lra.
Qed.

Lemma min_fc_mono (c1 c2 : R) (is_swg : bool) :
  c1 <= c2 -> calculate_min_fc c1 is_swg <= calculate_min_fc c2 is_swg.
Proof.
  intros Hc. pose proof (min_fc_ge_1 c2 is_swg) as H2. revert H2. fc_unfold.
  destruct (Rle_dec c1 0); [intros; lra |].
  rewrite Rle_dec_false by lra. intros _.
  destruct is_swg; apply max_floor_le; lra.
Qed.

Lemma min_fc_swg_le (cya : R) :
  calculate_min_fc cya true <= calculate_min_fc cya false.
Proof.
  fc_unfold. destruct (Rle_dec cya 0); [lra |].
  apply max_floor_le; lra.
Qed.

Lemma min_fc_le_target_low (cya : R) (is_swg : bool) :
  calculate_min_fc cya is_swg <= fst (calculate_target_fc cya is_swg).
Proof.
  fc_unfold. destruct (Rle_dec cya 0); [cbn [fst]; lra |].
  destruct is_swg; cbv zeta; cbn [fst]; apply max_floor_le; lra.
Qed.

(** The floors of the thresholds. *)
Lemma fc_threshold_order_aux (cya : R) (is_swg : bool) :
  3 <= fst (calculate_target_fc cya is_swg)
  /\ 3 <= snd (calculate_target_fc cya is_swg)
  /\ 10 <= calculate_shock_fc cya
  /\ 12 <= calculate_mustard_algae_shock_fc cya.
Proof.
  fc_unfold. destruct (Rle_dec cya 0); [cbn [fst snd]; lra |].
  destruct is_swg; cbv zeta; cbn [fst snd];
    repeat split;
    match goal with |- _ <= Rmax ?a ?b => pose proof (Rmax_l a b) end; lra.
Qed.

(** X11.  For every CYA level and generator type the thresholds are
    ordered: 1 <= minimum FC <= target low <= target high <= shock level
    <= mustard-algae shock level, with the target at least 3, the shock
    level at least 10 and the mustard-algae level at least 12; with a
    salt-water generator the target range is a single value. *)
Theorem fc_thresholds_ordered (cya : R) (is_swg : bool) :
  1 <= calculate_min_fc cya is_swg
  /\ calculate_min_fc cya is_swg <= fst (calculate_target_fc cya is_swg)
  /\ 3 <= fst (calculate_target_fc cya is_swg)
  /\ fst (calculate_target_fc cya is_swg) <= snd (calculate_target_fc cya is_swg)
  /\ snd (calculate_target_fc cya is_swg) <= calculate_shock_fc cya
  /\ 10 <= calculate_shock_fc cya
  /\ calculate_shock_fc cya <= calculate_mustard_algae_shock_fc cya
  /\ 12 <= calculate_mustard_algae_shock_fc cya
  /\ (is_swg = true ->
      fst (calculate_target_fc cya is_swg) = snd (calculate_target_fc cya is_swg)).
Proof.
  split; [apply min_fc_ge_1 |].
  split; [apply min_fc_le_target_low |].
  fc_unfold. destruct (Rle_dec cya 0) as [Hc | Hc].
  { cbn [fst snd]. repeat split; try lra. }
  assert (Hpos : 0 < cya) by lra.
  destruct is_swg; cbv zeta; cbn [fst snd];
    repeat split; intros;
    first [ reflexivity | discriminate | lra
          | apply max_floor_le; lra
          | match goal with
            | |- _ <= Rmax ?a ?b => pose proof (Rmax_l a b); lra
            end ].
Qed.

(** X12.  No threshold decreases when CYA rises, and each one is a whole
    number. *)
Theorem fc_thresholds_monotone_whole :
  (forall c1 c2 is_swg, c1 <= c2 ->
     calculate_min_fc c1 is_swg <= calculate_min_fc c2 is_swg
     /\ fst (calculate_target_fc c1 is_swg) <= fst (calculate_target_fc c2 is_swg)
     /\ snd (calculate_target_fc c1 is_swg) <= snd (calculate_target_fc c2 is_swg)
     /\ calculate_shock_fc c1 <= calculate_shock_fc c2
     /\ calculate_mustard_algae_shock_fc c1 <= calculate_mustard_algae_shock_fc c2)
  /\ (forall cya is_swg,
        exists m lo hi s a : Z,
          calculate_min_fc cya is_swg = IZR m
          /\ calculate_target_fc cya is_swg = (IZR lo, IZR hi)
          /\ calculate_shock_fc cya = IZR s
          /\ calculate_mustard_algae_shock_fc cya = IZR a).
Proof.
  split.
  - intros c1 c2 is_swg Hc.
    split; [apply min_fc_mono; exact Hc |].
    pose proof (fc_threshold_order_aux c2 is_swg) as Hfloor.
    revert Hfloor. fc_unfold.
    destruct (Rle_dec c1 0) as [H1 | H1].
    + cbn [fst snd]. intros (Ha & Hb & Hc' & Hd). repeat split; lra.
    + rewrite !Rle_dec_false by lra. intros _.
      destruct is_swg; cbv zeta; cbn [fst snd];
        repeat split; apply max_floor_le; lra.
  - intros cya is_swg. fc_unfold.
    destruct (Rle_dec cya 0).
    + exists 1%Z, 3%Z, 3%Z, 10%Z, 12%Z.
      repeat split; try (f_equal; lra); lra.
    + replace 1.0 with (IZR 1) by lra. replace 3.0 with (IZR 3) by lra.
      replace 10.0 with (IZR 10) by lra. replace 12.0 with (IZR 12) by lra.
      destruct is_swg; cbv zeta.
      * destruct (max_floor_whole 1 (cya * 0.045 + 0.7)) as [m Hm].
        destruct (max_floor_whole 3 (cya * 0.075)) as [t Ht].
        destruct (max_floor_whole 10 (cya * 0.393 + 0.5)) as [s Hs].
        destruct (max_floor_whole 12 (cya / 2 + 4.5)) as [a Ha].
        exists m, t, t, s, a. rewrite Hm, Ht, Hs, Ha. repeat split.
      * destruct (max_floor_whole 1 (cya * 0.075 + 0.7)) as [m Hm].
        destruct (max_floor_whole 3 (cya / 10 + 1.5)) as [lo Hlo].
        destruct (max_floor_whole 3 (cya / 10 + 3.5)) as [hi Hhi].
        destruct (max_floor_whole 10 (cya * 0.393 + 0.5)) as [s Hs].
        destruct (max_floor_whole 12 (cya / 2 + 4.5)) as [a Ha].
        exists m, lo, hi, s, a. rewrite Hm, Hlo, Hhi, Hs, Ha. repeat split.
Qed.

Lemma is_fc_adequate_true (fc cya : R) (is_swg : bool) :
  is_fc_adequate fc cya is_swg = true <-> calculate_min_fc cya is_swg <= fc.
Proof.
  unfold is_fc_adequate. cbv zeta.
  destruct (Rge_dec fc (calculate_min_fc cya is_swg)); split; intros;
    try reflexivity; try discriminate; lra.
Qed.

(** X13.  [is_fc_adequate] is upward closed in FC and downward closed in
    CYA; FC adequate without a generator is adequate with one; the low
    end of the target range, and hence the shock level, is always
    adequate, while less than 1 ppm never is. *)
Theorem fc_adequacy :
  (forall fc fc' cya is_swg, fc <= fc' ->
     is_fc_adequate fc cya is_swg = true -> is_fc_adequate fc' cya is_swg = true)
  /\ (forall fc c1 c2 is_swg, c1 <= c2 ->
        is_fc_adequate fc c2 is_swg = true -> is_fc_adequate fc c1 is_swg = true)
  /\ (forall fc cya,
        is_fc_adequate fc cya false = true -> is_fc_adequate fc cya true = true)
  /\ (forall cya is_swg,
        is_fc_adequate (fst (calculate_target_fc cya is_swg)) cya is_swg = true
        /\ is_fc_adequate (calculate_shock_fc cya) cya is_swg = true)
  /\ (forall fc cya is_swg, fc < 1 -> is_fc_adequate fc cya is_swg = false).
Proof.
  repeat split.
  - intros fc fc' cya is_swg Hle H. apply is_fc_adequate_true in H.
    apply is_fc_adequate_true. lra.
  - intros fc c1 c2 is_swg Hle H. apply is_fc_adequate_true in H.
    apply is_fc_adequate_true. pose proof (min_fc_mono c1 c2 is_swg Hle). lra.
  - intros fc cya H. apply is_fc_adequate_true in H.
    apply is_fc_adequate_true. pose proof (min_fc_swg_le cya). lra.
  - apply is_fc_adequate_true. apply min_fc_le_target_low.
  - apply is_fc_adequate_true.
    pose proof (min_fc_le_target_low cya is_swg) as H1.
    assert (H2 : fst (calculate_target_fc cya is_swg) <= calculate_shock_fc cya).
    { fc_unfold. destruct (Rle_dec cya 0); [cbn [fst]; lra |].
      destruct is_swg; cbv zeta; cbn [fst]; apply max_floor_le; lra. }
    lra.
  - intros fc cya is_swg Hlt.
    destruct (is_fc_adequate fc cya is_swg) eqn:E; [| reflexivity].
    apply is_fc_adequate_true in E. pose proof (min_fc_ge_1 cya is_swg). lra.
Qed.

(* ================================================================== *)
(** ** Dosing: zero doses, signs and monotonicity *)
(* ================================================================== *)

Lemma run_dose_zero (f : dosing_function) (cur tgt v : R) (t : ChemicalType) :
  tgt <= cur ->
  exists c d,
    get_chemical (ChemicalType_value (dose_chemical f t)) = Ok c
    /\ run_dose f cur tgt v t = Ok d
    /\ zero_dose_of c d.
Proof.
  intros Hle.
  destruct (get_chemical_member (dose_chemical f t)) as (c & Hc & _).
  exists c.
  destruct f; cbn [run_dose dose_chemical] in *;
    unfold calculate_alkalinity_dose, calculate_calcium_dose, calculate_cya_dose,
      simple_dose, calculate_chlorine_dose, calculate_salt_dose,
      calculate_borate_dose;
    rewrite Hc; cbn [bind]; cbv zeta; rewrite Rle_dec_true by lra;
    eexists; (split; [reflexivity |]);
    unfold zero_dose_of; cbn [Dose.chemical Dose.amount Dose.amount_volume
                                Dose.volume_unit Dose.notes];
    repeat split; eexists; reflexivity.
Qed.

Lemma calculate_ph_dose_zero (cur tgt v ta T b : R) (rp : option bool)
    (ct : option ChemicalType) :
  Rabs (tgt - cur) < 0.01 ->
  exists c d,
    get_chemical (ChemicalType_value
                    (ph_chemical_type ct (ph_direction rp (tgt - cur)))) = Ok c
    /\ calculate_ph_dose cur tgt v ta T b rp ct = Ok d
    /\ zero_dose_of c d.
Proof.
  intros Habs.
  destruct (get_chemical_member
              (ph_chemical_type ct (ph_direction rp (tgt - cur))))
    as (c & Hc & _).
  exists c. unfold calculate_ph_dose. cbv zeta. rewrite Hc. cbn [bind].
  rewrite Rlt_dec_true by lra.
  eexists. split; [reflexivity |]. split; [reflexivity |].
  unfold zero_dose_of.
  cbn [Dose.chemical Dose.amount Dose.amount_volume Dose.volume_unit Dose.notes].
  repeat split. eexists. reflexivity.
Qed.

(** X14.  Nothing to add: with the target not above the current level
    each of the six non-pH dosing functions, and with a pH change below
    0.01 the pH function, returns the chemical with amount 0, no volume
    and an advisory note, whatever the pool volume and the other
    arguments are. *)
Theorem zero_doses :
  (forall f cur tgt v t, tgt <= cur ->
     exists c d,
       get_chemical (ChemicalType_value (dose_chemical f t)) = Ok c
       /\ run_dose f cur tgt v t = Ok d
       /\ zero_dose_of c d)
  /\ (forall cur tgt v ta T b rp ct, Rabs (tgt - cur) < 0.01 ->
        exists c d,
          get_chemical (ChemicalType_value
                          (ph_chemical_type ct (ph_direction rp (tgt - cur))))
          = Ok c
          /\ calculate_ph_dose cur tgt v ta T b rp ct = Ok d
          /\ zero_dose_of c d).
Proof.
  split.
  - intros. apply run_dose_zero. assumption.
  - intros. apply calculate_ph_dose_zero. assumption.
Qed.

Lemma unrounded_dose_nonneg (f : dosing_function) (c : Chemical) (cur tgt v : R) :
  0 < Chem.multiplier c -> cur <= tgt -> 0 <= v -> 0 <= unrounded_dose f c cur tgt v.
Proof.
  intros Hm Hle Hv.
  assert (Hi : 0 < / Chem.multiplier c) by (apply Rinv_0_lt_compat; exact Hm).
  assert (Hp : 0 <= (tgt - cur) * v) by (apply Rmult_le_pos; lra).
  assert (Hq : 0 <= (tgt - cur) * v * / Chem.multiplier c)
    by (apply Rmult_le_pos; lra).
  destruct f; unfold unrounded_dose, Rdiv; lra.
Qed.

Lemma unrounded_dose_mono (f : dosing_function) (c : Chemical)
    (cur tgt1 tgt2 v1 v2 : R) :
  0 < Chem.multiplier c -> cur <= tgt1 -> tgt1 <= tgt2 -> 0 <= v1 -> v1 <= v2 ->
  unrounded_dose f c cur tgt1 v1 <= unrounded_dose f c cur tgt2 v2.
Proof.
  intros Hm H1 H2 H3 H4.
  assert (Hi : 0 < / Chem.multiplier c) by (apply Rinv_0_lt_compat; exact Hm).
  assert (Hp : (tgt1 - cur) * v1 <= (tgt2 - cur) * v2)
    by (apply Rmult_le_compat; lra).
  assert (Hq : (tgt1 - cur) * v1 * / Chem.multiplier c
               <= (tgt2 - cur) * v2 * / Chem.multiplier c)
    by (apply Rmult_le_compat_r; lra).
  destruct f; unfold unrounded_dose, Rdiv; lra.
Qed.

Lemma run_dose_nonneg (f : dosing_function) (cur tgt v : R) (t : ChemicalType) :
  0 <= v ->
  exists d, run_dose f cur tgt v t = Ok d /\ 0 <= Dose.amount d.
Proof.
  intros Hv. destruct (Rle_lt_dec tgt cur) as [Hle | Hlt].
  - destruct (run_dose_zero f cur tgt v t Hle) as (c & d & _ & Hd & _ & Ha & _).
    exists d. split; [exact Hd | lra].
  - destruct (run_dose_amount f cur tgt v t Hlt) as (c & d & Hc & Hd & Ha).
    exists d. split; [exact Hd |]. rewrite Ha. apply py_round_nonneg.
    apply unrounded_dose_nonneg; [eapply multiplier_pos; exact Hc | lra | exact Hv].
Qed.

(** X15.  For every member chemical and all real arguments with a pool
    volume >= 0 the seven dosing functions return a result, never an
    error, and the amount is never negative. *)
Theorem doses_never_negative :
  (forall f cur tgt v t, 0 <= v ->
     exists d, run_dose f cur tgt v t = Ok d /\ 0 <= Dose.amount d)
  /\ (forall cur tgt v ta T b rp ct, 0 <= v ->
        exists d,
          calculate_ph_dose cur tgt v ta T b rp ct = Ok d /\ 0 <= Dose.amount d).
Proof.
  split; [exact run_dose_nonneg |].
  intros cur tgt v ta T b rp ct Hv.
  destruct (Rlt_le_dec (Rabs (tgt - cur)) 0.01) as [Hlt | Hge].
  - destruct (calculate_ph_dose_zero cur tgt v ta T b rp ct Hlt)
      as (c & d & _ & Hd & _ & Ha & _).
    exists d. split; [exact Hd | lra].
  - destruct (calculate_ph_dose_amount cur tgt v ta T b rp ct Hge)
      as (c & d & Hc & Hd & Ha).
    exists d. split; [exact Hd |]. rewrite Ha. apply py_round_nonneg.
    pose proof (multiplier_pos _ c Hc) as Hm.
    assert (Hi : 0 < / Chem.multiplier c) by (apply Rinv_0_lt_compat; exact Hm).
    set (X := (tgt - cur) * _calculate_ph_adjustment_factor T ta
              + _calculate_borate_correction T b (tgt - cur)).
    pose proof (Rabs_pos X) as HX.
    unfold Rdiv.
    assert (0 <= Rabs X * / Chem.multiplier c) by (apply Rmult_le_pos; lra).
    assert (0 <= Rabs X * / Chem.multiplier c * v) by (apply Rmult_le_pos; lra).
    lra.
Qed.

(** X16.  A higher target or a larger pool never gets a smaller dose:
    for each of the six non-pH dosing functions, with the current level
    and the chemical fixed, the returned amount does not decrease when
    the target rises and the (non-negative) pool volume grows. *)
Theorem dose_monotone
    (f : dosing_function) (cur tgt1 tgt2 v1 v2 : R) (t : ChemicalType) :
  tgt1 <= tgt2 -> 0 <= v1 -> v1 <= v2 ->
  exists d1 d2,
    run_dose f cur tgt1 v1 t = Ok d1
    /\ run_dose f cur tgt2 v2 t = Ok d2
    /\ Dose.amount d1 <= Dose.amount d2.
Proof.
  intros Ht Hv1 Hv2.
  destruct (Rle_lt_dec tgt1 cur) as [Hle | Hlt].
  - destruct (run_dose_zero f cur tgt1 v1 t Hle) as (c & d1 & _ & Hd1 & _ & Ha1 & _).
    destruct (run_dose_nonneg f cur tgt2 v2 t) as (d2 & Hd2 & Ha2); [lra |].
    exists d1, d2. split; [exact Hd1 |]. split; [exact Hd2 |]. lra.
  - destruct (run_dose_amount f cur tgt1 v1 t Hlt) as (c & d1 & Hc & Hd1 & Ha1).
    destruct (run_dose_amount f cur tgt2 v2 t) as (c' & d2 & Hc' & Hd2 & Ha2);
      [lra |].
    rewrite Hc in Hc'. injection Hc' as <-.
    exists d1, d2. split; [exact Hd1 |]. split; [exact Hd2 |].
    rewrite Ha1, Ha2. apply py_round_mono.
    apply unrounded_dose_mono; try lra. eapply multiplier_pos; exact Hc.
Qed.

Lemma dose_monotone_witness :
  exists d1 d2,
    calculate_chlorine_dose 2 5 10000 BLEACH_12_5 = Ok d1
    /\ calculate_chlorine_dose 2 5 20000 BLEACH_12_5 = Ok d2
    /\ Dose.amount d1 <= Dose.amount d2.
Proof.
  destruct (dose_monotone ChlorineDose 2 5 5 10000 20000 BLEACH_12_5)
    as (d1 & d2 & H1 & H2 & H3); [lra | lra | lra |].
  exists d1, d2. repeat split; assumption.
Defined.

(* ================================================================== *)
(** ** Effect prediction: what is returned and what is left alone *)
(* ================================================================== *)

Lemma clamped_state_valid (w : WaterChemistry) (s : effect_state) :
  WaterChemistry_valid w -> WaterChemistry_valid (clamped_state w s).
Proof.
  intros (_ & HT & _ & _ & _ & _ & _ & _ & _ & Htds).
  unfold WaterChemistry_valid, clamped_state.
  cbn [Water.free_chlorine Water.combined_chlorine Water.ph
       Water.total_alkalinity Water.calcium_hardness Water.cyanuric_acid
       Water.salt Water.borates Water.temperature_f Water.tds].
  repeat split;
    first [ apply round_clamped_nonneg | apply round_clamped_ph
          | apply HT | exact Htds ].
Qed.

(** [predict_effect] in closed form. *)
Lemma predict_effect_eq (w : WaterChemistry) (t : ChemicalType) (c : Chemical)
    (amount_oz pool_gallons : R) :
  WaterChemistry_valid w ->
  pool_gallons <> 0 ->
  get_chemical (ChemicalType_value t) = Ok c ->
  predict_effect w t amount_oz pool_gallons
  = Ok (clamped_state w (effects_applied w c (amount_oz / pool_gallons))).
Proof.
  intros Hvalid Hv Hc.
  unfold predict_effect. rewrite Hc. cbn [bind].
  rewrite py_truediv_ok by exact Hv. cbn [bind]. cbv zeta.
  fold (effects_applied w c (amount_oz / pool_gallons)).
  apply (WaterChemistry_new_ok
           (py_round (Rmax 0 (Rmin 14 (new_ph _))) 2) (Water.temperature_f w)).
  apply (clamped_state_valid w _ Hvalid).
Qed.

Lemma predict_effect_zero_volume (w : WaterChemistry) (t : ChemicalType)
    (amount_oz : R) :
  predict_effect w t amount_oz 0 = Raise ZeroDivisionError.
Proof.
  destruct (get_chemical_member t) as (c & Hc & _).
  unfold predict_effect. rewrite Hc. cbn [bind].
  unfold py_truediv. rewrite Req_dec_true by reflexivity. reflexivity.
Qed.

(** X17.  For a validated water state and a member chemical,
    [predict_effect] fails exactly when the pool volume is 0, and then
    with [ZeroDivisionError]; for every other volume and every amount,
    negative ones included, it returns a state that passes the model's
    validation and keeps temperature and TDS. *)
Theorem predict_effect_fails_iff_zero_volume
    (w : WaterChemistry) (t : ChemicalType) (amount_oz pool_gallons : R) :
  WaterChemistry_valid w ->
  (pool_gallons = 0 ->
   predict_effect w t amount_oz pool_gallons = Raise ZeroDivisionError)
  /\ (pool_gallons <> 0 ->
      exists w',
        predict_effect w t amount_oz pool_gallons = Ok w'
        /\ WaterChemistry_valid w'
        /\ Water.temperature_f w' = Water.temperature_f w
        /\ Water.tds w' = Water.tds w).
Proof.
  intros Hvalid. split.
  - intros ->. apply predict_effect_zero_volume.
  - intros Hv. destruct (get_chemical_member t) as (c & Hc & _).
    eexists. split; [apply (predict_effect_eq w t c); assumption |].
    split; [apply clamped_state_valid; exact Hvalid |].
    split; reflexivity.
Qed.

Lemma predict_effect_fails_iff_zero_volume_witness :
  predict_effect (mkWaterChemistry 7.5 84 2.0 0 80 300 50 0 0 1000)
    BLEACH_12_5 64 0 = Raise ZeroDivisionError.
Proof.
  apply (proj1 (predict_effect_fails_iff_zero_volume
                  (mkWaterChemistry 7.5 84 2.0 0 80 300 50 0 0 1000)
                  BLEACH_12_5 64 0
                  ltac:(unfold WaterChemistry_valid; cbn; lra))).
  reflexivity.
Defined.

Ltac effect_cases p :=
  unfold apply_effect;
  destruct (String.eqb p "free_chlorine") eqn:?;
  [| destruct (String.eqb p "ph") eqn:?;
     [| destruct (String.eqb p "total_alkalinity") eqn:?;
        [| destruct (String.eqb p "calcium_hardness") eqn:?;
           [| destruct (String.eqb p "cyanuric_acid") eqn:?;
              [| destruct (String.eqb p "salt") eqn:?;
                 [| destruct (String.eqb p "borates") eqn:?]]]]]].

Lemma apply_effect_new_cc (p : string) (x : R) (s : effect_state) :
  new_cc (apply_effect p x s) = new_cc s.
Proof. effect_cases p; reflexivity. Qed.

Lemma apply_effect_zero (p : string) (x : R) (s : effect_state) :
  x = 0 -> apply_effect p x s = s.
Proof.
  intros ->. destruct s. effect_cases p;
    cbn [new_fc new_cc new_ph new_ta new_ch new_cya new_salt new_borates];
    try reflexivity; f_equal; lra.
Qed.

Lemma fold_effects_new_cc (ef : R) (l : list (string * R)) (s : effect_state) :
  new_cc (fold_left (fun s e => apply_effect (fst e) (ef * snd e) s) l s)
  = new_cc s.
Proof.
  revert s. induction l as [| e l IH]; intros s; cbn [fold_left].
  - reflexivity.
  - rewrite IH. apply apply_effect_new_cc.
Qed.

Lemma fold_effects_zero (ef : R) (l : list (string * R)) (s : effect_state) :
  ef = 0 ->
  fold_left (fun s e => apply_effect (fst e) (ef * snd e) s) l s = s.
Proof.
  intros ->. revert s. induction l as [| e l IH]; intros s; cbn [fold_left].
  - reflexivity.
  - rewrite apply_effect_zero by lra. apply IH.
Qed.

Lemma effects_applied_new_cc (w : WaterChemistry) (c : Chemical) (ef : R) :
  new_cc (effects_applied w c ef) = Water.combined_chlorine w.
Proof.
  unfold effects_applied. rewrite fold_effects_new_cc, apply_effect_new_cc.
  reflexivity.
Qed.

Lemma effects_applied_zero (w : WaterChemistry) (c : Chemical) (ef : R) :
  ef = 0 ->
  effects_applied w c ef
  = mkEffectState (Water.free_chlorine w) (Water.combined_chlorine w)
      (Water.ph w) (Water.total_alkalinity w) (Water.calcium_hardness w)
      (Water.cyanuric_acid w) (Water.salt w) (Water.borates w).
Proof.
  intros Hef. unfold effects_applied.
  rewrite fold_effects_zero by exact Hef.
  apply apply_effect_zero. subst ef. lra.
Qed.

Lemma py_round_idem (x : R) (n : nat) : py_round (py_round x n) n = py_round x n.
Proof.
  pose proof (pow10_nat_pos n) as Hp.
  change (py_round x n) with (IZR (round_half_even (x * 10 ^ n)) / 10 ^ n).
  set (k := round_half_even (x * 10 ^ n)).
  unfold py_round.
  replace (IZR k / 10 ^ n * 10 ^ n) with (IZR k) by (field; lra).
  rewrite round_half_even_IZR. reflexivity.
Qed.

(** One field of the running state, and the one name under which the
    [match] of [predict_effect] changes it. *)
Section Frame.

Variable field : effect_state -> R.
Variable name : string.

Hypothesis field_other : forall p x s,
  String.eqb p name = false -> field (apply_effect p x s) = field s.

Lemma fold_effects_frame (ef : R) (l : list (string * R)) (s : effect_state) :
  existsb (fun e => String.eqb (fst e) name) l = false ->
  field (fold_left (fun s e => apply_effect (fst e) (ef * snd e) s) l s)
  = field s.
Proof.
  revert s. induction l as [| e l IH]; intros s Hl; cbn [fold_left].
  - reflexivity.
  - cbn [existsb] in Hl. apply orb_false_elim in Hl. destruct Hl as [He Hl].
    rewrite IH by exact Hl. apply field_other. exact He.
Qed.

Lemma effects_applied_frame (w : WaterChemistry) (c : Chemical) (ef : R) :
  names_parameter c name = false ->
  field (effects_applied w c ef)
  = field (mkEffectState (Water.free_chlorine w) (Water.combined_chlorine w)
             (Water.ph w) (Water.total_alkalinity w) (Water.calcium_hardness w)
             (Water.cyanuric_acid w) (Water.salt w) (Water.borates w)).
Proof.
  intros Hn. unfold names_parameter in Hn.
  apply orb_false_elim in Hn. destruct Hn as [Ha Hs].
  unfold effects_applied.
  rewrite fold_effects_frame by exact Hs.
  apply field_other. exact Ha.
Qed.

Hypothesis field_same : forall x s,
  field (apply_effect name x s) = field s + x.

Lemma effects_applied_primary (w : WaterChemistry) (c : Chemical) (ef : R) :
  Chem.affects c = name ->
  existsb (fun e => String.eqb (fst e) name) (Chem.secondary_effects c) = false ->
  field (effects_applied w c ef)
  = field (mkEffectState (Water.free_chlorine w) (Water.combined_chlorine w)
             (Water.ph w) (Water.total_alkalinity w) (Water.calcium_hardness w)
             (Water.cyanuric_acid w) (Water.salt w) (Water.borates w))
    + ef * Chem.multiplier c.
Proof.
  intros Ha Hs. unfold effects_applied.
  rewrite fold_effects_frame by exact Hs.
  rewrite Ha. apply field_same.
Qed.

End Frame.

Ltac other_field p :=
  let H := fresh "Hp" in
  intros H; effect_cases p; try reflexivity; congruence.

Lemma new_fc_other (p : string) (x : R) (s : effect_state) :
  String.eqb p "free_chlorine" = false -> new_fc (apply_effect p x s) = new_fc s.
Proof. other_field p. Qed.

Lemma new_ph_other (p : string) (x : R) (s : effect_state) :
  String.eqb p "ph" = false -> new_ph (apply_effect p x s) = new_ph s.
Proof. other_field p. Qed.

Lemma new_ta_other (p : string) (x : R) (s : effect_state) :
  String.eqb p "total_alkalinity" = false -> new_ta (apply_effect p x s) = new_ta s.
Proof. other_field p. Qed.

Lemma new_ch_other (p : string) (x : R) (s : effect_state) :
  String.eqb p "calcium_hardness" = false -> new_ch (apply_effect p x s) = new_ch s.
Proof. other_field p. Qed.

Lemma new_cya_other (p : string) (x : R) (s : effect_state) :
  String.eqb p "cyanuric_acid" = false -> new_cya (apply_effect p x s) = new_cya s.
Proof. other_field p. Qed.

Lemma new_salt_other (p : string) (x : R) (s : effect_state) :
  String.eqb p "salt" = false -> new_salt (apply_effect p x s) = new_salt s.
Proof. other_field p. Qed.

Lemma new_borates_other (p : string) (x : R) (s : effect_state) :
  String.eqb p "borates" = false -> new_borates (apply_effect p x s) = new_borates s.
Proof. other_field p. Qed.

Lemma clamp_round_valid (x : R) (n : nat) :
  0 <= x -> py_round (Rmax 0 x) n = py_round x n.
Proof. intros H. rewrite Rmax_0_nonneg by exact H. reflexivity. Qed.

Lemma clamp_round_ph_valid (x : R) :
  0 <= x <= 14 -> py_round (Rmax 0 (Rmin 14 x)) 2 = py_round x 2.
Proof.
  intros H. rewrite Rmin_14_le by lra. rewrite Rmax_0_nonneg by lra. reflexivity.
Qed.

(** X18.  A prediction changes only what the chemical names.  For a valid
    state and a volume other than 0, [predict_effect] returns a state in
    which combined chlorine is the input's, rounded to one decimal, and so
    is every parameter that is neither the chemical's primary parameter
    nor a key of its secondary effects: the input's value rounded to the
    parameter's display precision (pH two decimals, free chlorine one,
    the others none). *)
Theorem predict_effect_frame (w : WaterChemistry) (t : ChemicalType) (c : Chemical)
    (amount_oz pool_gallons : R) :
  WaterChemistry_valid w ->
  pool_gallons <> 0 ->
  get_chemical (ChemicalType_value t) = Ok c ->
  exists w',
    predict_effect w t amount_oz pool_gallons = Ok w'
    /\ Water.combined_chlorine w' = py_round (Water.combined_chlorine w) 1
    /\ (names_parameter c "free_chlorine" = false ->
        Water.free_chlorine w' = py_round (Water.free_chlorine w) 1)
    /\ (names_parameter c "ph" = false ->
        Water.ph w' = py_round (Water.ph w) 2)
    /\ (names_parameter c "total_alkalinity" = false ->
        Water.total_alkalinity w' = py_round (Water.total_alkalinity w) 0)
    /\ (names_parameter c "calcium_hardness" = false ->
        Water.calcium_hardness w' = py_round (Water.calcium_hardness w) 0)
    /\ (names_parameter c "cyanuric_acid" = false ->
        Water.cyanuric_acid w' = py_round (Water.cyanuric_acid w) 0)
    /\ (names_parameter c "salt" = false ->
        Water.salt w' = py_round (Water.salt w) 0)
    /\ (names_parameter c "borates" = false ->
        Water.borates w' = py_round (Water.borates w) 0).
Proof.
  intros Hvalid Hv Hc.
  pose proof Hvalid as (Hph & _ & Hfc & Hcc & Hta & Hch & Hcya & Hsalt & Hbor & _).
  eexists. split; [apply (predict_effect_eq w t c _ _ Hvalid Hv Hc) |].
  unfold clamped_state.
  cbn [Water.free_chlorine Water.combined_chlorine Water.ph
       Water.total_alkalinity Water.calcium_hardness Water.cyanuric_acid
       Water.salt Water.borates].
  split; [rewrite effects_applied_new_cc; apply clamp_round_valid; exact Hcc |].
  split; [intros Hn; rewrite (effects_applied_frame new_fc _ new_fc_other) by exact Hn;
          apply clamp_round_valid; exact Hfc |].
  split; [intros Hn; rewrite (effects_applied_frame new_ph _ new_ph_other) by exact Hn;
          apply clamp_round_ph_valid; exact Hph |].
  split; [intros Hn; rewrite (effects_applied_frame new_ta _ new_ta_other) by exact Hn;
          apply clamp_round_valid; exact Hta |].
  split; [intros Hn; rewrite (effects_applied_frame new_ch _ new_ch_other) by exact Hn;
          apply clamp_round_valid; exact Hch |].
  split; [intros Hn; rewrite (effects_applied_frame new_cya _ new_cya_other) by exact Hn;
          apply clamp_round_valid; exact Hcya |].
  split; [intros Hn; rewrite (effects_applied_frame new_salt _ new_salt_other) by exact Hn;
          apply clamp_round_valid; exact Hsalt |].
  intros Hn; rewrite (effects_applied_frame new_borates _ new_borates_other) by exact Hn;
    apply clamp_round_valid; exact Hbor.
Qed.

Lemma predict_effect_frame_witness :
  exists w',
    predict_effect (mkWaterChemistry 7.5 84 2.0 0.5 80 300 50 0 0 1000)
      BLEACH_12_5 64 10000 = Ok w'
    /\ Water.combined_chlorine w' = py_round 0.5 1
    /\ Water.ph w' = py_round 7.5 2.
Proof.
  destruct (predict_effect_frame
              (mkWaterChemistry 7.5 84 2.0 0.5 80 300 50 0 0 1000) BLEACH_12_5
              (mkChemical BLEACH_12_5 "Bleach 12.5%" 1250.0 "fl_oz" None
                 "free_chlorine" [])
              64 10000
              ltac:(unfold WaterChemistry_valid; cbn; lra)
              ltac:(lra)
              eq_refl)
    as (w' & Hrun & Hcc & _ & Hph & _).
  exists w'. split; [exact Hrun |]. split; [exact Hcc |].
  apply Hph. reflexivity.
Defined.

Lemma zero_amount_prediction (w : WaterChemistry) (t : ChemicalType)
    (pool_gallons : R) :
  WaterChemistry_valid w ->
  pool_gallons <> 0 ->
  predict_effect w t 0 pool_gallons
  = Ok (mkWaterChemistry
          (py_round (Water.ph w) 2) (Water.temperature_f w)
          (py_round (Water.free_chlorine w) 1)
          (py_round (Water.combined_chlorine w) 1)
          (py_round (Water.total_alkalinity w) 0)
          (py_round (Water.calcium_hardness w) 0)
          (py_round (Water.cyanuric_acid w) 0)
          (py_round (Water.salt w) 0)
          (py_round (Water.borates w) 0) (Water.tds w)).
Proof.
  intros Hvalid Hv.
  pose proof Hvalid as (Hph & _ & Hfc & Hcc & Hta & Hch & Hcya & Hsalt & Hbor & _).
  destruct (get_chemical_member t) as (c & Hc & _).
  rewrite (predict_effect_eq w t c _ _ Hvalid Hv Hc).
  rewrite effects_applied_zero by (unfold Rdiv; lra).
  unfold clamped_state.
  cbn [new_fc new_cc new_ph new_ta new_ch new_cya new_salt new_borates].
  rewrite clamp_round_ph_valid by exact Hph.
  rewrite !clamp_round_valid by assumption.
  reflexivity.
Qed.

Lemma clamped_state_fixed (w : WaterChemistry) (s : effect_state) :
  mkWaterChemistry
    (py_round (Water.ph (clamped_state w s)) 2)
    (Water.temperature_f (clamped_state w s))
    (py_round (Water.free_chlorine (clamped_state w s)) 1)
    (py_round (Water.combined_chlorine (clamped_state w s)) 1)
    (py_round (Water.total_alkalinity (clamped_state w s)) 0)
    (py_round (Water.calcium_hardness (clamped_state w s)) 0)
    (py_round (Water.cyanuric_acid (clamped_state w s)) 0)
    (py_round (Water.salt (clamped_state w s)) 0)
    (py_round (Water.borates (clamped_state w s)) 0)
    (Water.tds (clamped_state w s))
  = clamped_state w s.
Proof.
  unfold clamped_state.
  cbn [Water.free_chlorine Water.combined_chlorine Water.ph
       Water.total_alkalinity Water.calcium_hardness Water.cyanuric_acid
       Water.salt Water.borates Water.temperature_f Water.tds].
  rewrite !py_round_idem. reflexivity.
Qed.

(** X19.  Adding nothing changes nothing but the precision.  For a valid
    state and a volume other than 0, [predict_effect] with amount 0
    returns the input with pH rounded to two decimals, free and combined
    chlorine to one and the other levels to whole numbers, whatever the
    chemical; and a state that [predict_effect] returned is returned
    unchanged by a further prediction with amount 0. *)
Theorem predict_effect_zero_amount (w : WaterChemistry) (t : ChemicalType)
    (pool_gallons : R) :
  WaterChemistry_valid w ->
  pool_gallons <> 0 ->
  predict_effect w t 0 pool_gallons
  = Ok (mkWaterChemistry
          (py_round (Water.ph w) 2) (Water.temperature_f w)
          (py_round (Water.free_chlorine w) 1)
          (py_round (Water.combined_chlorine w) 1)
          (py_round (Water.total_alkalinity w) 0)
          (py_round (Water.calcium_hardness w) 0)
          (py_round (Water.cyanuric_acid w) 0)
          (py_round (Water.salt w) 0)
          (py_round (Water.borates w) 0) (Water.tds w))
  /\ forall (t1 t2 : ChemicalType) (amount_oz gallons1 gallons2 : R),
       gallons1 <> 0 -> gallons2 <> 0 ->
       exists w',
         predict_effect w t1 amount_oz gallons1 = Ok w'
         /\ predict_effect w' t2 0 gallons2 = Ok w'.
Proof.
  intros Hvalid Hv. split.
  - apply zero_amount_prediction; assumption.
  - intros t1 t2 amount_oz g1 g2 Hg1 Hg2.
    destruct (get_chemical_member t1) as (c & Hc & _).
    eexists. split; [apply (predict_effect_eq w t1 c _ _ Hvalid Hg1 Hc) |].
    rewrite zero_amount_prediction
      by (try apply clamped_state_valid; assumption).
    f_equal. apply clamped_state_fixed.
Qed.

Lemma predict_effect_zero_amount_witness :
  predict_effect (mkWaterChemistry 7.5 84 2.0 0.5 80 300 50 0 0 1000)
    SODA_ASH 0 10000
  = Ok (mkWaterChemistry (py_round 7.5 2) 84 (py_round 2.0 1) (py_round 0.5 1)
          (py_round 80 0) (py_round 300 0) (py_round 50 0) (py_round 0 0)
          (py_round 0 0) 1000).
Proof.
  apply (proj1 (predict_effect_zero_amount
                  (mkWaterChemistry 7.5 84 2.0 0.5 80 300 50 0 0 1000)
                  SODA_ASH 10000
                  ltac:(unfold WaterChemistry_valid; cbn; lra)
                  ltac:(lra))).
Defined.

(* ================================================================== *)
(** ** Dosing and prediction together *)
(* ================================================================== *)

(** In the registry no chemical lists its primary parameter again among
    its secondary effects. *)
Lemma secondary_effects_spare_primary (t : ChemicalType) (c : Chemical) :
  get_chemical (ChemicalType_value t) = Ok c ->
  existsb (fun e => String.eqb (fst e) (Chem.affects c))
          (Chem.secondary_effects c) = false.
Proof. destruct t; intros H; injection H as <-; reflexivity. Qed.

(** A level [cur], raised by an amount within [eps] of the exact dose
    for [target], then clamped and rounded to [k] decimals. *)
Lemma dose_then_effect_bound (cur target V m amt eps : R) (k : nat) :
  0 <= cur -> cur < target -> 0 < V -> 0 < m ->
  0 <= amt ->
  Rabs (amt - (target - cur) * V / m) <= eps ->
  Rabs (py_round (Rmax 0 (cur + amt / V * m)) k - target)
  <= 1 / 2 / 10 ^ k + eps * m / V.
Proof.
  intros Hcur Hlt HV Hm Hamt Heps.
  assert (Hq : 0 < m / V) by (apply Rdiv_lt_0_compat; assumption).
  assert (Hy : amt / V * m = amt * (m / V)) by (field; lra).
  assert (Ha : (target - cur) * V / m * (m / V) = target - cur) by (field; lra).
  rewrite Hy.
  assert (Hpos : 0 <= amt * (m / V)) by (apply Rmult_le_pos; lra).
  rewrite Rmax_0_nonneg by lra.
  pose proof (Rabs_le_bounds _ _ (py_round_error (cur + amt * (m / V)) k)) as Hr.
  apply Rabs_le_bounds in Heps.
  set (a := (target - cur) * V / m) in *.
  set (q := m / V) in *.
  replace (eps * m / V) with (eps * q) by (unfold q; field; lra).
  set (r := py_round (cur + amt * q) k) in *.
  set (p := 1 / 2 / 10 ^ k) in *.
  apply Rabs_le. split; nra.
Qed.

Lemma rounded_dose_error (a : R) : 0 <= a ->
  0 <= py_round a 2 /\ Rabs (py_round a 2 - a) <= 0.005.
Proof.
  intros Ha. split; [apply py_round_nonneg; exact Ha |].
  pose proof (py_round_error a 2) as H. cbn [pow] in H. lra.
Qed.

Lemma exact_dose_nonneg (cur target V m : R) :
  cur < target -> 0 < V -> 0 < m -> 0 <= (target - cur) * V / m.
Proof.
  intros Hlt HV Hm. apply Rlt_le. apply Rdiv_lt_0_compat; [| exact Hm].
  apply Rmult_lt_0_compat; lra.
Qed.

(** X20.  A chlorine dose, added, reaches the target.  For a valid state
    with free chlorine below the target, a volume > 0 and a registry
    chemical whose primary parameter is free chlorine,
    [calculate_chlorine_dose] returns a dose and [predict_effect], given
    that dose's amount, returns a state whose free chlorine differs from
    the target by at most 0.05 (its rounding to one decimal) plus
    0.005 * multiplier / volume (the dose's rounding to two decimals). *)
Theorem chlorine_dose_reaches_target (w : WaterChemistry) (t : ChemicalType)
    (c : Chemical) (target_fc pool_gallons : R) :
  WaterChemistry_valid w ->
  0 < pool_gallons ->
  Water.free_chlorine w < target_fc ->
  get_chemical (ChemicalType_value t) = Ok c ->
  Chem.affects c = "free_chlorine" ->
  exists d w',
    calculate_chlorine_dose (Water.free_chlorine w) target_fc pool_gallons t = Ok d
    /\ predict_effect w t (Dose.amount d) pool_gallons = Ok w'
    /\ Rabs (Water.free_chlorine w' - target_fc)
       <= 0.05 + 0.005 * Chem.multiplier c / pool_gallons.
Proof.
  intros Hvalid HV Hlt Hc Ha.
  pose proof Hvalid as (_ & _ & Hfc & _).
  pose proof (multiplier_pos t c Hc) as Hm.
  pose proof (secondary_effects_spare_primary t c Hc) as Hs. rewrite Ha in Hs.
  destruct (calculate_chlorine_dose_amount (Water.free_chlorine w) target_fc
              pool_gallons t Hlt) as (c' & d & Hc' & Hd & Hamt).
  rewrite Hc in Hc'. injection Hc' as <-.
  exists d. eexists. split; [exact Hd |].
  split; [apply (predict_effect_eq w t c); [exact Hvalid | lra | exact Hc] |].
  unfold clamped_state. cbn [Water.free_chlorine].
  rewrite (effects_applied_primary new_fc _ new_fc_other (fun x s => eq_refl))
    by assumption.
  cbn [new_fc]. rewrite Hamt.
  destruct (rounded_dose_error _
              (exact_dose_nonneg (Water.free_chlorine w) target_fc
                 pool_gallons (Chem.multiplier c) Hlt HV Hm)) as [Hn He].
  pose proof (dose_then_effect_bound (Water.free_chlorine w) target_fc
                pool_gallons (Chem.multiplier c) _ 0.005 1 Hfc Hlt HV Hm Hn He)
    as Hb.
  cbn [pow] in Hb. lra.
Qed.

Lemma chlorine_dose_reaches_target_witness :
  exists d w',
    calculate_chlorine_dose 2.0 5.0 10000 BLEACH_12_5 = Ok d
    /\ predict_effect (mkWaterChemistry 7.5 84 2.0 0.5 80 300 50 0 0 1000)
         BLEACH_12_5 (Dose.amount d) 10000 = Ok w'
    /\ Rabs (Water.free_chlorine w' - 5.0) <= 0.05 + 0.005 * 1250.0 / 10000.
Proof.
  apply (chlorine_dose_reaches_target
           (mkWaterChemistry 7.5 84 2.0 0.5 80 300 50 0 0 1000) BLEACH_12_5
           (mkChemical BLEACH_12_5 "Bleach 12.5%" 1250.0 "fl_oz" None
              "free_chlorine" [])
           5.0 10000
           ltac:(unfold WaterChemistry_valid; cbn; lra)
           ltac:(lra)
           ltac:(cbn; lra)
           eq_refl eq_refl).
Defined.

(** The common part of the round trips below: the dose's amount is the
    exact amount rounded to two decimals, and the level it raises is
    rounded to a whole number. *)
Ltac dose_round_trip Hvalid HV Hlt Hc Ha Hcur Hd Hamt field other :=
  match type of Hc with
  | get_chemical (ChemicalType_value ?t) = Ok ?c =>
      let Hm := fresh "Hm" in
      let Hs := fresh "Hs" in
      let Hn := fresh "Hn" in
      let He := fresh "He" in
      let Hb := fresh "Hb" in
      pose proof (multiplier_pos t c Hc) as Hm;
      pose proof (secondary_effects_spare_primary t c Hc) as Hs;
      rewrite Ha in Hs;
      eexists; eexists; split; [exact Hd |];
      split; [apply (predict_effect_eq _ t c); [exact Hvalid | lra | exact Hc] |];
      unfold clamped_state;
      cbn [Water.total_alkalinity Water.calcium_hardness Water.cyanuric_acid
           Water.borates Water.salt];
      rewrite (effects_applied_primary field _ other (fun x s => eq_refl))
        by assumption;
      cbn [new_ta new_ch new_cya new_borates new_salt]; rewrite Hamt;
      match type of Hlt with
      | ?cur < ?target =>
          match type of HV with
          | 0 < ?V =>
              destruct (rounded_dose_error _
                          (exact_dose_nonneg cur target V (Chem.multiplier c)
                             Hlt HV Hm)) as [Hn He];
              pose proof (dose_then_effect_bound cur target V
                            (Chem.multiplier c) _ 0.005 0 Hcur Hlt HV Hm Hn He)
                as Hb;
              cbn [pow] in Hb; lra
          end
      end
  end.

(** X21.  The doses for total alkalinity, calcium hardness, cyanuric acid
    and borates, added, reach their targets.  For a valid state with the
    level below the target, a volume > 0 and a registry chemical whose
    primary parameter is that level, the dosing function returns a dose
    and [predict_effect], given that dose's amount, returns a state whose
    level differs from the target by at most 0.5 (its rounding to a whole
    number) plus 0.005 * multiplier / volume. *)
Theorem balance_doses_reach_target (w : WaterChemistry) (t : ChemicalType)
    (c : Chemical) (target pool_gallons : R) :
  WaterChemistry_valid w ->
  0 < pool_gallons ->
  get_chemical (ChemicalType_value t) = Ok c ->
  (Chem.affects c = "total_alkalinity" -> Water.total_alkalinity w < target ->
   exists d w',
     calculate_alkalinity_dose (Water.total_alkalinity w) target pool_gallons t
     = Ok d
     /\ predict_effect w t (Dose.amount d) pool_gallons = Ok w'
     /\ Rabs (Water.total_alkalinity w' - target)
        <= 0.5 + 0.005 * Chem.multiplier c / pool_gallons)
  /\ (Chem.affects c = "calcium_hardness" -> Water.calcium_hardness w < target ->
      exists d w',
        calculate_calcium_dose (Water.calcium_hardness w) target pool_gallons t
        = Ok d
        /\ predict_effect w t (Dose.amount d) pool_gallons = Ok w'
        /\ Rabs (Water.calcium_hardness w' - target)
           <= 0.5 + 0.005 * Chem.multiplier c / pool_gallons)
  /\ (Chem.affects c = "cyanuric_acid" -> Water.cyanuric_acid w < target ->
      exists d w',
        calculate_cya_dose (Water.cyanuric_acid w) target pool_gallons t = Ok d
        /\ predict_effect w t (Dose.amount d) pool_gallons = Ok w'
        /\ Rabs (Water.cyanuric_acid w' - target)
           <= 0.5 + 0.005 * Chem.multiplier c / pool_gallons)
  /\ (Chem.affects c = "borates" -> Water.borates w < target ->
      exists d w',
        calculate_borate_dose (Water.borates w) target pool_gallons t = Ok d
        /\ predict_effect w t (Dose.amount d) pool_gallons = Ok w'
        /\ Rabs (Water.borates w' - target)
           <= 0.5 + 0.005 * Chem.multiplier c / pool_gallons).
Proof.
  intros Hvalid HV Hc.
  pose proof Hvalid as (_ & _ & _ & _ & Hta & Hch & Hcya & _ & Hbor & _).
  split; [| split; [| split]]; intros Ha Hlt.
  - destruct (simple_dose_amount
                "TA is already at or above target. Lower TA with acid + aeration."
                (Water.total_alkalinity w) target pool_gallons t Hlt)
      as (c' & d & Hc' & Hd & Hamt).
    rewrite Hc in Hc'. injection Hc' as <-.
    dose_round_trip Hvalid HV Hlt Hc Ha Hta Hd Hamt new_ta new_ta_other.
  - destruct (simple_dose_amount
                "CH is already at or above target. Lower CH with water replacement."
                (Water.calcium_hardness w) target pool_gallons t Hlt)
      as (c' & d & Hc' & Hd & Hamt).
    rewrite Hc in Hc'. injection Hc' as <-.
    dose_round_trip Hvalid HV Hlt Hc Ha Hch Hd Hamt new_ch new_ch_other.
  - destruct (simple_dose_amount
                "CYA is already at or above target. Lower CYA with water replacement."
                (Water.cyanuric_acid w) target pool_gallons t Hlt)
      as (c' & d & Hc' & Hd & Hamt).
    rewrite Hc in Hc'. injection Hc' as <-.
    dose_round_trip Hvalid HV Hlt Hc Ha Hcya Hd Hamt new_cya new_cya_other.
  - destruct (calculate_borate_dose_amount (Water.borates w) target pool_gallons
                t Hlt) as (c' & d & Hc' & Hd & Hamt).
    rewrite Hc in Hc'. injection Hc' as <-.
    dose_round_trip Hvalid HV Hlt Hc Ha Hbor Hd Hamt new_borates new_borates_other.
Qed.

Lemma balance_doses_reach_target_witness :
  exists d w',
    calculate_alkalinity_dose 80 100 10000 BAKING_SODA = Ok d
    /\ predict_effect (mkWaterChemistry 7.5 84 2.0 0.5 80 300 50 0 0 1000)
         BAKING_SODA (Dose.amount d) 10000 = Ok w'
    /\ Rabs (Water.total_alkalinity w' - 100) <= 0.5 + 0.005 * 4259.15 / 10000.
Proof.
  apply (proj1 (balance_doses_reach_target
                  (mkWaterChemistry 7.5 84 2.0 0.5 80 300 50 0 0 1000) BAKING_SODA
                  (mkChemical BAKING_SODA "Baking Soda (Sodium Bicarbonate)"
                     4259.15 "oz" (Some 0.7988) "total_alkalinity"
                     [("ph", 9.091)])
                  100 10000
                  ltac:(unfold WaterChemistry_valid; cbn; lra)
                  ltac:(lra)
                  eq_refl)
               eq_refl ltac:(cbn; lra)).
Defined.

(** X22.  The salt dose is in pounds.  For a valid state with salt below
    the target and a volume > 0, [calculate_salt_dose] returns a dose
    whose unit is "lbs"; converted with [lbs_to_oz] and given to
    [predict_effect] with pool salt, it yields a state whose salt differs
    from the target by at most 0.5 plus 0.8 * 7468.64 / volume (0.8 oz is
    the dose's rounding to a tenth of a pound). *)
Theorem salt_dose_reaches_target (w : WaterChemistry) (target_salt pool_gallons : R) :
  WaterChemistry_valid w ->
  0 < pool_gallons ->
  Water.salt w < target_salt ->
  exists d w',
    calculate_salt_dose (Water.salt w) target_salt pool_gallons = Ok d
    /\ Dose.unit d = "lbs"
    /\ predict_effect w POOL_SALT (lbs_to_oz (Dose.amount d)) pool_gallons = Ok w'
    /\ Rabs (Water.salt w' - target_salt) <= 0.5 + 0.8 * 7468.64 / pool_gallons.
Proof.
  intros Hvalid HV Hlt.
  pose proof Hvalid as (_ & _ & _ & _ & _ & _ & _ & Hsalt & _).
  destruct (get_chemical_member POOL_SALT) as (c & Hc & _).
  assert (Hc0 : get_chemical (ChemicalType_value POOL_SALT)
                = Ok (mkChemical POOL_SALT "Pool Salt (Sodium Chloride)"
                        7468.64 "oz" None "salt" [])) by reflexivity.
  rewrite Hc0 in Hc. injection Hc as <-. clear Hc0.
  set (c := mkChemical POOL_SALT "Pool Salt (Sodium Chloride)"
              7468.64 "oz" None "salt" []).
  assert (Hc : get_chemical (ChemicalType_value POOL_SALT) = Ok c) by reflexivity.
  unfold calculate_salt_dose. rewrite Hc. cbn [bind]. cbv zeta.
  rewrite Rle_dec_false by lra.
  change (Chem.multiplier c) with 7468.64.
  rewrite py_truediv_ok by lra. cbn [bind].
  eexists. eexists. split; [reflexivity |]. split; [reflexivity |].
  cbn [Dose.amount].
  split; [apply (predict_effect_eq w POOL_SALT c); [exact Hvalid | lra | exact Hc] |].
  unfold clamped_state. cbn [Water.salt].
  rewrite (effects_applied_primary new_salt _ new_salt_other (fun x s => eq_refl))
    by reflexivity.
  cbn [new_salt]. change (Chem.multiplier c) with 7468.64.
  set (a := (target_salt - Water.salt w) * pool_gallons / 7468.64).
  assert (Ha : 0 <= a)
    by (apply exact_dose_nonneg; lra).
  assert (Ha16 : 0 <= a / 16) by lra.
  pose proof (py_round_nonneg (a / 16) 1 Ha16) as Hn.
  pose proof (Rabs_le_bounds _ _ (py_round_error (a / 16) 1)) as He.
  cbn [pow] in He.
  assert (Hn' : 0 <= lbs_to_oz (py_round (a / 16) 1))
    by (unfold lbs_to_oz, LBS_TO_OZ; lra).
  assert (He' : Rabs (lbs_to_oz (py_round (a / 16) 1) - a) <= 0.8)
    by (unfold lbs_to_oz, LBS_TO_OZ; apply Rabs_le; lra).
  pose proof (dose_then_effect_bound (Water.salt w) target_salt pool_gallons
                7468.64 _ 0.8 0 Hsalt Hlt HV ltac:(lra) Hn' He') as Hb.
  cbn [pow] in Hb. fold a in Hb. lra.
Qed.

Lemma salt_dose_reaches_target_witness :
  exists d w',
    calculate_salt_dose 0 3200 10000 = Ok d
    /\ Dose.unit d = "lbs"
    /\ predict_effect (mkWaterChemistry 7.5 84 2.0 0.5 80 300 50 0 0 1000)
         POOL_SALT (lbs_to_oz (Dose.amount d)) 10000 = Ok w'
    /\ Rabs (Water.salt w' - 3200) <= 0.5 + 0.8 * 7468.64 / 10000.
Proof.
  apply (salt_dose_reaches_target
           (mkWaterChemistry 7.5 84 2.0 0.5 80 300 50 0 0 1000) 3200 10000
           ltac:(unfold WaterChemistry_valid; cbn; lra)
           ltac:(lra)
           ltac:(cbn; lra)).
Defined.

(* ================================================================== *)
(** ** Several additions in sequence *)
(* ================================================================== *)

Lemma predict_multiple_effects_app (w : WaterChemistry)
    (l1 l2 : list (ChemicalType * R)) (pool_gallons : R) :
  predict_multiple_effects w (l1 ++ l2)%list pool_gallons
  = (w1 <- predict_multiple_effects w l1 pool_gallons ;;
     predict_multiple_effects w1 l2 pool_gallons).
Proof.
  revert w. induction l1 as [| [t a] l1 IH]; intros w.
  - reflexivity.
  - cbn [app predict_multiple_effects].
    destruct (predict_effect w t a pool_gallons) as [w1 | e]; cbn [bind].
    + apply IH.
    + reflexivity.
Qed.

Lemma predict_multiple_effects_valid (w : WaterChemistry)
    (additions : list (ChemicalType * R)) (pool_gallons : R) :
  WaterChemistry_valid w ->
  pool_gallons <> 0 ->
  exists w',
    predict_multiple_effects w additions pool_gallons = Ok w'
    /\ WaterChemistry_valid w'
    /\ Water.temperature_f w' = Water.temperature_f w
    /\ Water.tds w' = Water.tds w
    /\ Water.combined_chlorine w'
       = match additions with
         | [] => Water.combined_chlorine w
         | _ :: _ => py_round (Water.combined_chlorine w) 1
         end.
Proof.
  intros Hvalid Hv. revert w Hvalid.
  induction additions as [| [t a] rest IH]; intros w Hvalid.
  - exists w. repeat split; try reflexivity; apply Hvalid.
  - destruct (get_chemical_member t) as (c & Hc & _).
    cbn [predict_multiple_effects].
    rewrite (predict_effect_eq w t c _ _ Hvalid Hv Hc). cbn [bind].
    set (w1 := clamped_state w (effects_applied w c (a / pool_gallons))).
    assert (Hcc : Water.combined_chlorine w1
                  = py_round (Water.combined_chlorine w) 1).
    { unfold w1, clamped_state. cbn [Water.combined_chlorine].
      rewrite effects_applied_new_cc. apply clamp_round_valid. apply Hvalid. }
    destruct (IH w1 (clamped_state_valid w _ Hvalid))
      as (w' & Hrun & Hv' & HT & Htds & Hcc').
    exists w'. split; [exact Hrun |]. split; [exact Hv' |].
    split; [rewrite HT; reflexivity |]. split; [rewrite Htds; reflexivity |].
    rewrite Hcc'. destruct rest.
    + exact Hcc.
    + rewrite Hcc. apply py_round_idem.
Qed.

(** X23.  How a list of additions is applied.  [predict_multiple_effects]
    returns the state itself for an empty list, whatever the volume; for
    one addition it is [predict_effect]; for a list in two parts it is the
    second part applied to the result of the first, and an error of the
    first part is the error of the whole; and with volume 0 every
    non-empty list raises [ZeroDivisionError]. *)
Theorem predict_multiple_effects_composes (w : WaterChemistry)
    (pool_gallons : R) :
  predict_multiple_effects w [] pool_gallons = Ok w
  /\ (forall t a,
        predict_multiple_effects w [(t, a)] pool_gallons
        = predict_effect w t a pool_gallons)
  /\ (forall l1 l2,
        predict_multiple_effects w (l1 ++ l2)%list pool_gallons
        = (w1 <- predict_multiple_effects w l1 pool_gallons ;;
           predict_multiple_effects w1 l2 pool_gallons))
  /\ (forall t a rest,
        predict_multiple_effects w ((t, a) :: rest) 0
        = Raise ZeroDivisionError).
Proof.
  split; [reflexivity |]. split; [| split].
  - intros t a. cbn [predict_multiple_effects].
    destruct (predict_effect w t a pool_gallons); reflexivity.
  - intros l1 l2. apply predict_multiple_effects_app.
  - intros t a rest. cbn [predict_multiple_effects].
    rewrite predict_effect_zero_volume. reflexivity.
Qed.

(** X24.  What a sequence of additions keeps.  For a valid state and a
    volume other than 0, [predict_multiple_effects] returns, for every
    list of additions, a valid state with the input's temperature and
    TDS; its combined chlorine is the input's, rounded to one decimal as
    soon as the list is not empty. *)
Theorem predict_multiple_effects_invariant (w : WaterChemistry)
    (additions : list (ChemicalType * R)) (pool_gallons : R) :
  WaterChemistry_valid w ->
  pool_gallons <> 0 ->
  exists w',
    predict_multiple_effects w additions pool_gallons = Ok w'
    /\ WaterChemistry_valid w'
    /\ Water.temperature_f w' = Water.temperature_f w
    /\ Water.tds w' = Water.tds w
    /\ Water.combined_chlorine w'
       = match additions with
         | [] => Water.combined_chlorine w
         | _ :: _ => py_round (Water.combined_chlorine w) 1
         end.
Proof. apply predict_multiple_effects_valid. Qed.

Lemma predict_multiple_effects_invariant_witness :
  exists w',
    predict_multiple_effects (mkWaterChemistry 7.5 84 2.0 0.5 80 300 50 0 0 1000)
      [(BLEACH_12_5, 64); (MURIATIC_ACID_31_45, 16)] 10000 = Ok w'
    /\ WaterChemistry_valid w'
    /\ Water.temperature_f w' = 84
    /\ Water.tds w' = 1000
    /\ Water.combined_chlorine w' = py_round 0.5 1.
Proof.
  apply (predict_multiple_effects_invariant
           (mkWaterChemistry 7.5 84 2.0 0.5 80 300 50 0 0 1000)
           [(BLEACH_12_5, 64); (MURIATIC_ACID_31_45, 16)] 10000
           ltac:(unfold WaterChemistry_valid; cbn; lra)
           ltac:(lra)).
Defined.

(* ================================================================== *)
(** ** The predicted pH *)
(* ================================================================== *)

Lemma effects_applied_ph_primary (w : WaterChemistry) (c : Chemical) (ef : R) :
  Chem.affects c = "ph" ->
  existsb (fun e => String.eqb (fst e) "ph") (Chem.secondary_effects c) = false ->
  new_ph (effects_applied w c ef) = Water.ph w + ef * Chem.multiplier c / 100.
Proof.
  intros Ha Hs. unfold effects_applied.
  rewrite (fold_effects_frame new_ph "ph" new_ph_other) by exact Hs.
  rewrite Ha. reflexivity.
Qed.

(** X25.  The predicted pH of a pH chemical.  For a valid state, an
    amount >= 0, a volume > 0 and a registry chemical whose primary
    parameter is pH, [predict_effect] returns a state whose pH is
    [min 14 (ph + amount / volume * multiplier / 100)] rounded to two
    decimals, and is never below the input's pH rounded to two decimals.
    The acids of the registry are among these chemicals: their
    multipliers are positive as those of soda ash and borax are. *)
Theorem predict_effect_ph_primary (w : WaterChemistry) (t : ChemicalType)
    (c : Chemical) (amount_oz pool_gallons : R) :
  WaterChemistry_valid w ->
  0 <= amount_oz ->
  0 < pool_gallons ->
  get_chemical (ChemicalType_value t) = Ok c ->
  Chem.affects c = "ph" ->
  exists w',
    predict_effect w t amount_oz pool_gallons = Ok w'
    /\ Water.ph w'
       = py_round (Rmin 14 (Water.ph w
                            + amount_oz / pool_gallons * Chem.multiplier c / 100)) 2
    /\ py_round (Water.ph w) 2 <= Water.ph w'.
Proof.
  intros Hvalid Hamt HV Hc Ha.
  pose proof Hvalid as (Hph & _).
  pose proof (multiplier_pos t c Hc) as Hm.
  pose proof (secondary_effects_spare_primary t c Hc) as Hs. rewrite Ha in Hs.
  eexists. split; [apply (predict_effect_eq w t c); [exact Hvalid | lra | exact Hc] |].
  unfold clamped_state. cbn [Water.ph].
  rewrite effects_applied_ph_primary by assumption.
  assert (Hd : 0 <= amount_oz / pool_gallons * Chem.multiplier c / 100).
  { apply Rmult_le_pos; [| lra].
    apply Rmult_le_pos; [| lra].
    apply Rmult_le_pos; [exact Hamt |].
    apply Rlt_le, Rinv_0_lt_compat; exact HV. }
  set (y := Water.ph w + amount_oz / pool_gallons * Chem.multiplier c / 100) in *.
  assert (Hmin : Water.ph w <= Rmin 14 y).
  { apply Rmin_glb; unfold y; lra. }
  rewrite Rmax_0_nonneg by lra.
  split; [reflexivity |].
  apply py_round_mono. exact Hmin.
Qed.

Lemma predict_effect_ph_primary_witness :
  exists w',
    predict_effect (mkWaterChemistry 7.5 84 2.0 0.5 80 300 50 0 0 1000)
      MURIATIC_ACID_31_45 64 10000 = Ok w'
    /\ Water.ph w' = py_round (Rmin 14 (7.5 + 64 / 10000 * 240.15 / 100)) 2
    /\ py_round 7.5 2 <= Water.ph w'.
Proof.
  apply (predict_effect_ph_primary
           (mkWaterChemistry 7.5 84 2.0 0.5 80 300 50 0 0 1000)
           MURIATIC_ACID_31_45
           (mkChemical MURIATIC_ACID_31_45 "Muriatic Acid 31.45% (20° Baumé)"
              240.15 "fl_oz" None "ph" [("total_alkalinity", -3911.47)])
           64 10000
           ltac:(unfold WaterChemistry_valid; cbn; lra)
           ltac:(lra) ltac:(lra)
           eq_refl eq_refl).
Defined.

(* ================================================================== *)
(** ** Water replacement *)
(* ================================================================== *)

(** X26.  The share of water to replace.  [calculate_water_replacement]
    returns 0 when the level is at or below the target, and 0 when the
    fill water is not at 0 and the level is at or below the fill water's.
    When the level is above both the target and the fill water's level it
    returns the percentage p at which the mix of old and fill water is at
    the target: current * (1 - p/100) + fill * p/100 = target; p is > 0,
    and it is at most 100 exactly when the target is not below the fill
    water's level.  With fill water at 0, level 0 and a target below 0 it
    raises [ZeroDivisionError]. *)
Theorem water_replacement_mixes_to_target (current_value target_value
    fill_water_value : R) :
  (current_value <= target_value ->
   calculate_water_replacement current_value target_value fill_water_value = Ok 0)
  /\ (target_value < current_value -> fill_water_value <> 0 ->
      current_value <= fill_water_value ->
      calculate_water_replacement current_value target_value fill_water_value
      = Ok 0)
  /\ (target_value < current_value -> fill_water_value < current_value ->
      exists p,
        calculate_water_replacement current_value target_value fill_water_value
        = Ok p
        /\ current_value * (1 - p / 100) + fill_water_value * (p / 100)
           = target_value
        /\ 0 < p
        /\ (p <= 100 <-> fill_water_value <= target_value))
  /\ (target_value < 0 ->
      calculate_water_replacement 0 target_value 0 = Raise ZeroDivisionError).
Proof.
  unfold calculate_water_replacement.
  split; [| split; [| split]].
  - intros H. rewrite Rle_dec_true by exact H. f_equal. lra.
  - intros Hlt Hf Hle. rewrite Rle_dec_false by lra.
    rewrite Req_dec_false by exact Hf.
    rewrite Rle_dec_true by exact Hle. f_equal. lra.
  - intros Hlt Hf. rewrite Rle_dec_false by lra.
    assert (Hd : 0 < current_value - fill_water_value) by lra.
    assert (Hq : (target_value - fill_water_value)
                 / (current_value - fill_water_value)
                 * (current_value - fill_water_value)
                 = target_value - fill_water_value) by (field; lra).
    destruct (Req_dec_T fill_water_value 0) as [H0 | H0].
    + subst fill_water_value.
      rewrite py_truediv_ok by lra. cbn [bind].
      eexists. split; [reflexivity |].
      replace (target_value - 0) with target_value in Hq by lra.
      replace (current_value - 0) with current_value in * by lra.
      set (q := target_value / current_value) in *.
      split; [nra |]. split; [nra |]. split; intros H; nra.
    + rewrite Rle_dec_false by lra.
      rewrite py_truediv_ok by lra. cbn [bind].
      eexists. split; [reflexivity |].
      set (q := (target_value - fill_water_value)
                / (current_value - fill_water_value)) in *.
      split; [nra |]. split; [nra |]. split; intros H; nra.
  - intros Hlt. rewrite Rle_dec_false by lra.
    rewrite Req_dec_true by reflexivity.
    unfold py_truediv. rewrite Req_dec_true by reflexivity. reflexivity.
Qed.

(* ================================================================== *)
(** ** Unit conversions and pool volume *)
(* ================================================================== *)

Ltac unfold_conversions :=
  unfold celsius_to_fahrenheit, fahrenheit_to_celsius, liters_to_gallons,
    gallons_to_liters, grams_to_oz, oz_to_grams, lbs_to_oz, oz_to_lbs,
    ml_to_fl_oz, fl_oz_to_ml, LITERS_TO_GALLONS, GALLONS_TO_LITERS,
    GRAMS_TO_OZ, OZ_TO_GRAMS, LBS_TO_OZ, OZ_TO_LBS.

(** X27.  The conversions come in inverse pairs.  Fahrenheit and Celsius,
    gallons and liters, ounces and grams, ounces and pounds, fluid ounces
    and milliliters: converting there and back returns the value, in both
    orders (in exact arithmetic, floats being modelled as reals);
    [temperature_c] of a water state is [fahrenheit_to_celsius] of
    its temperature, and lies between 0 and 49 for a valid state. *)
Theorem conversions_invert (x : R) :
  celsius_to_fahrenheit (fahrenheit_to_celsius x) = x
  /\ fahrenheit_to_celsius (celsius_to_fahrenheit x) = x
  /\ liters_to_gallons (gallons_to_liters x) = x
  /\ gallons_to_liters (liters_to_gallons x) = x
  /\ grams_to_oz (oz_to_grams x) = x
  /\ oz_to_grams (grams_to_oz x) = x
  /\ lbs_to_oz (oz_to_lbs x) = x
  /\ oz_to_lbs (lbs_to_oz x) = x
  /\ ml_to_fl_oz (fl_oz_to_ml x) = x
  /\ fl_oz_to_ml (ml_to_fl_oz x) = x
  /\ (forall w : WaterChemistry,
        temperature_c w = fahrenheit_to_celsius (Water.temperature_f w)
        /\ (WaterChemistry_valid w -> 0 <= temperature_c w < 49)).
Proof.
  unfold_conversions.
  repeat match goal with |- _ /\ _ => split end; try lra.
  intros w. split; [reflexivity |].
  intros (_ & HT & _). unfold temperature_c. lra.
Qed.

Lemma oval_volume_sign (length_ft width_ft depth : R) :
  0 < width_ft -> 0 < depth ->
  (0 < (length_ft * width_ft - 0.214602 * width_ft * width_ft) * depth
   <-> 0.214602 * width_ft < length_ft).
Proof.
  intros Hw Hd.
  replace ((length_ft * width_ft - 0.214602 * width_ft * width_ft) * depth)
    with ((length_ft - 0.214602 * width_ft) * (width_ft * depth)) by ring.
  assert (Hwd : 0 < width_ft * depth) by (apply Rmult_lt_0_compat; assumption).
  split; intros H.
  - destruct (Rlt_le_dec (0.214602 * width_ft) length_ft) as [Hlt | Hge];
      [exact Hlt | exfalso; nra].
  - apply Rmult_lt_0_compat; lra.
Qed.

(** X28.  The pool volume.  [calculate_pool_volume] uses the mean of the
    shallow and the deep depth in place of the average depth when both
    are given, and the average depth when one of them is missing.  A
    round pool is given the volume of the square pool of the same side,
    whatever the width passed.  For a length, a width and a depth > 0 the
    volume is > 0 for the rectangular, round, kidney and freeform shapes,
    with kidney < freeform < rectangular and oval < rectangular; for the
    oval shape it is > 0 exactly when 0.214602 * width < length.
    [estimate_volume_from_dimensions] is [calculate_pool_volume] without
    the two depths. *)
Theorem pool_volume_properties (shape : PoolShape)
    (length_ft width_ft avg_depth_ft : R) :
  (forall shallow deep,
     calculate_pool_volume shape length_ft width_ft avg_depth_ft
       (Some shallow) (Some deep)
     = calculate_pool_volume shape length_ft width_ft ((shallow + deep) / 2)
         None None)
  /\ (forall depth,
        calculate_pool_volume shape length_ft width_ft avg_depth_ft
          (Some depth) None
        = calculate_pool_volume shape length_ft width_ft avg_depth_ft None None
        /\ calculate_pool_volume shape length_ft width_ft avg_depth_ft
             None (Some depth)
           = calculate_pool_volume shape length_ft width_ft avg_depth_ft
               None None)
  /\ calculate_pool_volume ROUND length_ft width_ft avg_depth_ft None None
     = calculate_pool_volume RECTANGULAR length_ft length_ft avg_depth_ft
         None None
  /\ estimate_volume_from_dimensions length_ft width_ft avg_depth_ft shape
     = calculate_pool_volume shape length_ft width_ft avg_depth_ft None None
  /\ (0 < length_ft -> 0 < width_ft -> 0 < avg_depth_ft ->
      (shape <> OVAL ->
       0 < calculate_pool_volume shape length_ft width_ft avg_depth_ft None None)
      /\ (0 < calculate_pool_volume OVAL length_ft width_ft avg_depth_ft None None
          <-> 0.214602 * width_ft < length_ft)
      /\ calculate_pool_volume KIDNEY length_ft width_ft avg_depth_ft None None
         < calculate_pool_volume FREEFORM length_ft width_ft avg_depth_ft None None
      /\ calculate_pool_volume FREEFORM length_ft width_ft avg_depth_ft None None
         < calculate_pool_volume RECTANGULAR length_ft width_ft avg_depth_ft
             None None
      /\ calculate_pool_volume OVAL length_ft width_ft avg_depth_ft None None
         < calculate_pool_volume RECTANGULAR length_ft width_ft avg_depth_ft
             None None).
Proof.
  split; [reflexivity |]. split; [intros depth; split; reflexivity |].
  split; [reflexivity |]. split; [reflexivity |].
  intros Hl Hw Hd.
  assert (Hlw : 0 < length_ft * width_ft) by (apply Rmult_lt_0_compat; assumption).
  assert (Hll : 0 < length_ft * length_ft) by (apply Rmult_lt_0_compat; assumption).
  assert (Hww : 0 < width_ft * width_ft) by (apply Rmult_lt_0_compat; assumption).
  assert (Hlwd : 0 < length_ft * width_ft * avg_depth_ft)
    by (apply Rmult_lt_0_compat; assumption).
  assert (Hlld : 0 < length_ft * length_ft * avg_depth_ft)
    by (apply Rmult_lt_0_compat; assumption).
  assert (Hwwd : 0 < width_ft * width_ft * avg_depth_ft)
    by (apply Rmult_lt_0_compat; assumption).
  unfold calculate_pool_volume, CUBIC_FEET_TO_GALLONS. cbv zeta.
  split; [| split; [| split; [| split]]].
  - intros Hs. destruct shape; try contradiction; lra.
  - pose proof (oval_volume_sign length_ft width_ft avg_depth_ft Hw Hd) as Ho.
    set (v := (length_ft * width_ft - 0.214602 * width_ft * width_ft)
              * avg_depth_ft) in *.
    split; intros H.
    + apply Ho. lra.
    + apply Ho in H. lra.
  - lra.
  - lra.
  - replace ((length_ft * width_ft - 0.214602 * width_ft * width_ft)
             * avg_depth_ft)
      with (length_ft * width_ft * avg_depth_ft
            - 0.214602 * (width_ft * width_ft * avg_depth_ft)) by ring.
    lra.
Qed.

(* ================================================================== *)
(** ** Target ranges *)
(* ================================================================== *)

Lemma range_classification (r : ParameterRange) (value : R) :
  is_in_range r value = negb (is_low r value) && negb (is_high r value)
  /\ (Range.minimum r <= Range.maximum r ->
      is_low r value && is_high r value = false).
Proof.
  unfold is_in_range, is_low, is_high.
  destruct (Rle_dec (Range.minimum r) value);
    destruct (Rle_dec value (Range.maximum r));
    destruct (Rlt_dec value (Range.minimum r));
    destruct (Rgt_dec value (Range.maximum r));
    cbn [negb andb]; split; intros; first [reflexivity | exfalso; lra].
Qed.

Lemma predefined_ranges_ordered (pool_type : PoolType) (r : ParameterRange) :
  In r (ranges_of (get_target_ranges pool_type)) ->
  Range.minimum r < Range.target r < Range.maximum r.
Proof.
  destruct pool_type; cbn [get_target_ranges]; intros Hin;
    unfold ranges_of, TRADITIONAL_POOL_TARGETS, SWG_POOL_TARGETS, SPA_TARGETS,
      DEFAULT_CSI_RANGE in Hin;
    cbn [Targets.ph Targets.total_alkalinity Targets.calcium_hardness
         Targets.cyanuric_acid Targets.csi Targets.salt Targets.borates
         app In] in Hin;
    repeat (destruct Hin as [Hin | Hin];
            [subst r; cbn [Range.minimum Range.target Range.maximum]; lra |]);
    contradiction.
Qed.

(** X29.  Target ranges.  For every range and value, [is_in_range] holds
    exactly when neither [is_low] nor [is_high] does, and the two do not
    hold together when minimum <= maximum.  In the ranges
    [get_target_ranges] returns for the three pool types, minimum <
    target < maximum, so the target is in range; a salt range is present
    only for the salt-water-generator type.  The chlorine factors of the
    traditional and the salt-water-generator ranges are the ones
    [calculate_min_fc] uses, and [fc_target_factor] of the latter is the
    one [calculate_target_fc] uses. *)
Theorem target_ranges_consistent :
  (forall (r : ParameterRange) (value : R),
     is_in_range r value = negb (is_low r value) && negb (is_high r value)
     /\ (Range.minimum r <= Range.maximum r ->
         is_low r value && is_high r value = false))
  /\ (forall (pool_type : PoolType) (r : ParameterRange),
        In r (ranges_of (get_target_ranges pool_type)) ->
        Range.minimum r < Range.target r < Range.maximum r
        /\ is_in_range r (Range.target r) = true)
  /\ (forall pool_type : PoolType,
        Targets.salt (get_target_ranges pool_type) <> None <-> pool_type = SWG)
  /\ (forall (cyanuric_acid : R) (is_swg : bool),
        0 < cyanuric_acid ->
        let targets := get_target_ranges (if is_swg then SWG else TRADITIONAL) in
        calculate_min_fc cyanuric_acid is_swg
        = Rmax 1.0 (IZR (math_floor
                           (cyanuric_acid * Targets.fc_min_factor targets + 0.7))))
  /\ (forall cyanuric_acid : R,
        0 < cyanuric_acid ->
        fst (calculate_target_fc cyanuric_acid true)
        = Rmax 3.0 (IZR (math_floor
                           (cyanuric_acid
                            * Targets.fc_target_factor (get_target_ranges SWG))))).
Proof.
  split; [exact range_classification |].
  split.
  { intros pool_type r Hin.
    pose proof (predefined_ranges_ordered pool_type r Hin) as Ho.
    split; [exact Ho |].
    unfold is_in_range.
    rewrite Rle_dec_true by lra. rewrite Rle_dec_true by lra. reflexivity. }
  split.
  { intros pool_type. destruct pool_type; cbn; split; intros H;
      first [reflexivity | discriminate | exfalso; apply H; reflexivity]. }
  split.
  { intros cya is_swg Hpos. cbv zeta. unfold calculate_min_fc.
    rewrite Rle_dec_false by lra. destruct is_swg; reflexivity. }
  intros cya Hpos. unfold calculate_target_fc.
  rewrite Rle_dec_false by lra. reflexivity.
Qed.

(* ================================================================== *)
(** ** The registry entries *)
(* ================================================================== *)

Ltac in_parameters :=
  unfold EFFECT_PARAMETERS; cbn [In];
  repeat (first [left; reflexivity | right]).

Ltac secondary_ok :=
  let p := fresh "p" in
  let m := fresh "m" in
  let Hin := fresh "Hin" in
  intros p m Hin; cbn [In] in Hin;
  repeat (destruct Hin as [Hin | Hin];
          [injection Hin as <- <-;
           split; [in_parameters | split; [discriminate | lra]] |]);
  contradiction.

(** X30.  Every registry entry can be applied.  For every member of
    [ChemicalType] the registry's descriptor has a multiplier > 0, a
    primary parameter that is one of the seven names [predict_effect]
    knows, secondary effects whose keys are among these names, differ
    from the primary parameter and whose multipliers are not 0, the unit
    "oz" or "fl_oz", and a volume factor, when it has one, that is > 0
    and goes with the unit "oz". *)
Theorem registry_entries_well_formed (t : ChemicalType) :
  exists c,
    get_chemical (ChemicalType_value t) = Ok c
    /\ 0 < Chem.multiplier c
    /\ In (Chem.affects c) EFFECT_PARAMETERS
    /\ (forall p m, In (p, m) (Chem.secondary_effects c) ->
        In p EFFECT_PARAMETERS /\ p <> Chem.affects c /\ m <> 0)
    /\ (Chem.unit c = "oz" \/ Chem.unit c = "fl_oz")
    /\ (forall f, Chem.volume_factor c = Some f ->
        0 < f /\ Chem.unit c = "oz").
Proof.
  destruct t; (eexists; split; [reflexivity |]);
    cbn [Chem.multiplier Chem.affects Chem.secondary_effects Chem.unit
         Chem.volume_factor snd];
    (split; [lra |]);
    (split; [in_parameters |]);
    (split; [secondary_ok |]);
    (split; [first [left; reflexivity | right; reflexivity] |]);
    intros f Hf; first [discriminate Hf | injection Hf as <-; split; [lra | reflexivity]].
Qed.
